(** * Sepnoty club forms backend: the Express/SQLite service of [server/index.js]

    The development embeds the request handlers of [server/index.js] as pure
    functions over an explicit database value, together with the fragment of
    JavaScript they rely on (truthiness, [||], [typeof], [Array.isArray],
    template-literal string conversion, [Array.prototype.join], property
    lookup along the prototype chain, [JSON.stringify], [JSON.parse],
    [Number.prototype.toFixed]) and the fragment of SQLite the statements use
    (tables in rowid order, primary keys, the text a [TEXT] column keeps of a
    bound value, [ORDER BY ... DESC], [LIMIT], inner join, the foreign-key
    switch of a connection). *)

From Stdlib Require Import List String Ascii ZArith NArith Lia Bool.
From Stdlib Require Import DecimalString DecimalN DecimalPos DecimalFacts.
From Stdlib Require DecimalZ.
From Stdlib Require Import Sorted Permutation OrderedTypeEx SpecFloat.
Import ListNotations.

Local Open Scope string_scope.
Local Open Scope Z_scope.

(* ===================================================================== *)
(** * Part I. Definitions *)
(* ===================================================================== *)

(** ** JavaScript values

    Request bodies arrive through [express.json()], so every value the
    handlers see is a JSON value or [undefined] (a missing property).
    Numbers are kept as integers: JSON numbers with a fraction or an exponent
    are outside this value model.  Strings are byte strings (the UTF-8 text of
    the JavaScript string).  An object is its list of own properties in
    enumeration order. *)

Unset Elimination Schemes.
Inductive jsval : Type :=
| JUndefined
| JNull
| JBool (b : bool)
| JNum (n : Z)
| JStr (s : string)
| JArr (xs : list jsval)
| JObj (props : list (string * jsval)).
Set Elimination Schemes.

(** Induction on values, through the lists of an array and of an object. *)

Section jsval_induction.
Variable P : jsval -> Prop.
Hypothesis Hundef : P JUndefined.
Hypothesis Hnull : P JNull.
Hypothesis Hbool : forall b, P (JBool b).
Hypothesis Hnum : forall n, P (JNum n).
Hypothesis Hstr : forall s, P (JStr s).
Hypothesis Harr : forall xs, Forall P xs -> P (JArr xs).
Hypothesis Hobj : forall props, Forall (fun kv => P (snd kv)) props -> P (JObj props).

Fixpoint jsval_ind (v : jsval) : P v :=
  match v with
  | JUndefined => Hundef
  | JNull => Hnull
  | JBool b => Hbool b
  | JNum n => Hnum n
  | JStr s => Hstr s
  | JArr xs =>
      Harr xs ((fix all (l : list jsval) : Forall P l :=
                  match l with
                  | [] => Forall_nil P
                  | x :: r => Forall_cons x (jsval_ind x) (all r)
                  end) xs)
  | JObj props =>
      Hobj props
        ((fix all (l : list (string * jsval)) : Forall (fun kv => P (snd kv)) l :=
            match l with
            | [] => Forall_nil _
            | kv :: r => Forall_cons kv (jsval_ind (snd kv)) (all r)
            end) props)
  end.
End jsval_induction.

Module JS.

(** [ToBoolean]: what [!v], [v || w] and [c ? a : b] test. *)
Definition truthy (v : jsval) : bool :=
  match v with
  | JUndefined | JNull => false
  | JBool b => b
  | JNum n => negb (n =? 0)
  | JStr s => negb (s =? "")%string
  | JArr _ | JObj _ => true
  end.

(** [a || b] *)
Definition or (a b : jsval) : jsval := if truthy a then a else b.

(** [typeof v === 'object'] *)
Definition typeof_object (v : jsval) : bool :=
  match v with
  | JNull | JArr _ | JObj _ => true
  | _ => false
  end.

(** [Array.isArray(v)] *)
Definition isArray (v : jsval) : bool :=
  match v with JArr _ => true | _ => false end.

(** [Number::toString] on an integer below 10^21: the decimal digits, with a
    leading minus sign for a negative number. *)
Definition Number_toString (n : Z) : string :=
  NilZero.string_of_int (Z.to_int n).

(** Whether [ToString] converts [v] or throws.  An object is converted by
    its [toString] method, which it inherits from [Object.prototype]; an
    object with an own member [toString] (in a JSON value never a function)
    has no method to call, and its [valueOf] returns the object itself: a
    TypeError.  An array converts its elements one by one. *)
Fixpoint converts (v : jsval) : bool :=
  match v with
  | JArr xs => forallb converts xs
  | JObj props => negb (existsb (fun kv => (fst kv =? "toString")%string) props)
  | _ => true
  end.

(** [ToString] of a value that [converts], as applied by a template literal,
    by [join] and to a computed property key.  An array converts through
    [join(",")], whose elements [undefined] and [null] become the empty
    string; an object through [Object.prototype.toString]. *)
Fixpoint ToString (v : jsval) : string :=
  match v with
  | JUndefined => "undefined"
  | JNull => "null"
  | JBool true => "true"
  | JBool false => "false"
  | JNum n => Number_toString n
  | JStr s => s
  | JArr xs =>
      String.concat ","
        (map (fun x => match x with
                       | JUndefined | JNull => ""
                       | _ => ToString x
                       end) xs)
  | JObj _ => "[object Object]"
  end.

(** [xs.join(sep)] *)
Definition join (sep : string) (xs : list jsval) : string :=
  String.concat sep
    (map (fun x => match x with
                   | JUndefined | JNull => ""
                   | _ => ToString x
                   end) xs).

(** An array index is the canonical decimal text of an integer in
    [0, 2^32 - 2]; such property keys are enumerated first, in ascending
    numeric order. *)
Definition array_index (k : string) : option N :=
  match NilZero.uint_of_string k with
  | Some d =>
      let n := N.of_uint d in
      if (NilZero.string_of_uint (N.to_uint n) =? k)%string && (n <=? 4294967294)%N
      then Some n else None
  | None => None
  end.

(** Own-property lookup by key. *)
Fixpoint assoc (k : string) (props : list (string * jsval)) : option jsval :=
  match props with
  | [] => None
  | (k', v) :: rest => if (k' =? k)%string then Some v else assoc k rest
  end.

(** [o.k] for a name [k] that no prototype defines, as are the names the
    handlers and the components read ([id], [label], [title], [fields] and
    the like): the own property, else [undefined].  Reading a property of
    [undefined] or [null] throws ([None]).  A computed key goes through
    [lookup] below. *)
Definition get (o : jsval) (k : string) : option jsval :=
  match o with
  | JUndefined | JNull => None
  | JObj props => Some (match assoc k props with Some v => v | None => JUndefined end)
  | JArr xs =>
      Some (if (k =? "length")%string then JNum (Z.of_nat (List.length xs))
            else match array_index k with
                 | Some i => nth (N.to_nat i) xs JUndefined
                 | None => JUndefined
                 end)
  | JStr s =>
      Some (if (k =? "length")%string then JNum (Z.of_nat (String.length s))
            else match array_index k with
                 | Some i => match String.get (N.to_nat i) s with
                             | Some c => JStr (String c "")
                             | None => JUndefined
                             end
                 | None => JUndefined
                 end)
  | JBool _ | JNum _ => Some JUndefined
  end.

(** The names every value inherits from [Object.prototype]. *)
Definition Object_prototype : list string :=
  ["constructor"; "__defineGetter__"; "__defineSetter__"; "hasOwnProperty";
   "__lookupGetter__"; "__lookupSetter__"; "isPrototypeOf"; "propertyIsEnumerable";
   "toString"; "valueOf"; "__proto__"; "toLocaleString"].

(** The further methods of [Array.prototype], [String.prototype] and
    [Number.prototype] (ECMAScript 2023). *)
Definition Array_prototype : list string :=
  ["at"; "concat"; "copyWithin"; "entries"; "every"; "fill"; "filter"; "find";
   "findIndex"; "findLast"; "findLastIndex"; "flat"; "flatMap"; "forEach";
   "includes"; "indexOf"; "join"; "keys"; "lastIndexOf"; "map"; "pop"; "push";
   "reduce"; "reduceRight"; "reverse"; "shift"; "slice"; "some"; "sort"; "splice";
   "toReversed"; "toSorted"; "toSpliced"; "unshift"; "values"; "with"].

Definition String_prototype : list string :=
  ["anchor"; "at"; "big"; "blink"; "bold"; "charAt"; "charCodeAt"; "codePointAt";
   "concat"; "endsWith"; "fixed"; "fontcolor"; "fontsize"; "includes"; "indexOf";
   "isWellFormed"; "italics"; "lastIndexOf"; "link"; "localeCompare"; "match";
   "matchAll"; "normalize"; "padEnd"; "padStart"; "repeat"; "replace"; "replaceAll";
   "search"; "slice"; "small"; "split"; "startsWith"; "strike"; "sub"; "substr";
   "substring"; "sup"; "toLocaleLowerCase"; "toLocaleUpperCase"; "toLowerCase";
   "toUpperCase"; "toWellFormed"; "trim"; "trimEnd"; "trimLeft"; "trimRight";
   "trimStart"].

Definition Number_prototype : list string :=
  ["toExponential"; "toFixed"; "toPrecision"].

(** The text of a built-in function, as a template literal writes it.  The
    two old names of the trimming methods are the same functions as the new
    ones. *)
Definition native_function (name : string) : string :=
  "function "
  ++ (if (name =? "trimLeft")%string then "trimStart"
      else if (name =? "trimRight")%string then "trimEnd" else name)
  ++ "() { [native code] }".

(** The member [k] that [o] finds on its prototype chain, [undefined] when
    there is none.  A built-in function is no JSON value: it stands here as
    the string of its text, which is truthy, not an array, and written as
    that text by a template literal, like the function.  [__proto__] reads
    the prototype itself: an object, an empty array, or the wrapper of [""],
    [0] or [false], each standing as a value that is handled and written
    alike. *)
Definition inherited (o : jsval) (k : string) : jsval :=
  if (k =? "constructor")%string then
    JStr (native_function
            match o with
            | JArr _ => "Array" | JStr _ => "String" | JNum _ => "Number"
            | JBool _ => "Boolean" | _ => "Object"
            end)
  else if (k =? "__proto__")%string then
    match o with
    | JArr _ => JArr [] | JStr _ => JStr "" | JNum _ => JStr "0"
    | JBool _ => JStr "false" | _ => JObj []
    end
  else if existsb (String.eqb k)
            (Object_prototype
             ++ match o with
                | JArr _ => Array_prototype | JStr _ => String_prototype
                | JNum _ => Number_prototype | _ => []
                end)
  then JStr (native_function k)
  else JUndefined.

(** [o[k]] for a computed key [k]: the own property, else the member found on
    the prototype chain.  Reading a property of [undefined] or [null] throws
    ([None]). *)
Definition lookup (o : jsval) (k : string) : option jsval :=
  match o with
  | JObj props => Some (match assoc k props with Some v => v | None => inherited o k end)
  | _ =>
      match get o k with
      | Some JUndefined => Some (inherited o k)
      | own => own
      end
  end.

(** *** [JSON.stringify] *)

Definition dquote : ascii := "034"%char.
Definition backslash : ascii := "092"%char.

Definition hex_digit (n : N) : ascii :=
  if (n <? 10)%N then ascii_of_N (48 + n) else ascii_of_N (87 + n).

(** One code unit of [QuoteJSONString]: the quote and the backslash are
    escaped, the control characters use their short escape where one exists
    and a lower-case [\u00XX] otherwise, everything else is copied. *)
Definition quote_char (c : ascii) : string :=
  let n := N_of_ascii c in
  if (n =? 34)%N then String backslash (String dquote "")
  else if (n =? 92)%N then String backslash (String backslash "")
  else if (n =? 8)%N then String backslash "b"
  else if (n =? 9)%N then String backslash "t"
  else if (n =? 10)%N then String backslash "n"
  else if (n =? 12)%N then String backslash "f"
  else if (n =? 13)%N then String backslash "r"
  else if (n <? 32)%N then
    String backslash
      (String "u" (String "0" (String "0"
        (String (hex_digit (n / 16)) (String (hex_digit (n mod 16)) "")))))
  else String c "".

Fixpoint quote_chars (s : string) : string :=
  match s with
  | "" => ""
  | String c r => quote_char c ++ quote_chars r
  end.

Definition QuoteJSONString (s : string) : string :=
  String dquote (quote_chars s ++ String dquote "").

(** [SerializeJSONProperty] without indentation.  Inside an array
    [undefined] is written as [null]; a property whose value is [undefined]
    is left out.  (At top level [JSON.stringify(undefined)] is [undefined]
    rather than a string; the handlers only serialise values that passed
    their array or object guard.) *)
Fixpoint stringify (v : jsval) : string :=
  match v with
  | JUndefined | JNull => "null"
  | JBool true => "true"
  | JBool false => "false"
  | JNum n => Number_toString n
  | JStr s => QuoteJSONString s
  | JArr xs => "[" ++ String.concat "," (map stringify xs) ++ "]"
  | JObj props =>
      "{" ++ String.concat ","
        ((fix members (ps : list (string * jsval)) : list string :=
            match ps with
            | [] => []
            | (k, JUndefined) :: r => members r
            | (k, x) :: r => (QuoteJSONString k ++ ":" ++ stringify x) :: members r
            end) props) ++ "}"
  end.

(** *** [JSON.parse]

    A partial function: [None] stands for a thrown [SyntaxError] and also for
    texts whose value lies outside the value model (a number with a fraction
    or an exponent or beyond the safe integers, a [\u] escape above 7F).
    Whenever the result is [Some v], [v] is the value JavaScript returns. *)

Definition is_ws (c : ascii) : bool :=
  let n := N_of_ascii c in
  ((n =? 32) || (n =? 9) || (n =? 10) || (n =? 13))%N.

Fixpoint skip_ws (s : string) : string :=
  match s with
  | String c r => if is_ws c then skip_ws r else s
  | "" => ""
  end.

Definition hex_value (c : ascii) : option N :=
  let n := N_of_ascii c in
  if ((48 <=? n) && (n <=? 57))%N then Some (n - 48)%N
  else if ((97 <=? n) && (n <=? 102))%N then Some (n - 87)%N
  else if ((65 <=? n) && (n <=? 70))%N then Some (n - 55)%N
  else None.

Definition unescape (c : ascii) : option ascii :=
  let n := N_of_ascii c in
  if (n =? 34)%N then Some dquote
  else if (n =? 92)%N then Some backslash
  else if (n =? 47)%N then Some "/"%char
  else if (n =? 98)%N then Some "008"%char
  else if (n =? 116)%N then Some "009"%char
  else if (n =? 110)%N then Some "010"%char
  else if (n =? 102)%N then Some "012"%char
  else if (n =? 114)%N then Some "013"%char
  else None.

Definition cons_char (c : ascii) (r : option (string * string)) : option (string * string) :=
  match r with
  | Some (body, rest) => Some (String c body, rest)
  | None => None
  end.

(** The characters of a string literal after its opening quote, up to and
    including the closing quote. *)
Fixpoint parse_string_body (s : string) : option (string * string) :=
  match s with
  | "" => None
  | String c r =>
      let n := N_of_ascii c in
      if (n =? 34)%N then Some ("", r)
      else if (n =? 92)%N then
        match r with
        | "" => None
        | String e r1 =>
            if (N_of_ascii e =? 117)%N then
              match r1 with
              | String h1 (String h2 (String h3 (String h4 r2))) =>
                  match hex_value h1, hex_value h2, hex_value h3, hex_value h4 with
                  | Some a, Some b, Some c', Some d =>
                      let code := (((a * 16 + b) * 16 + c') * 16 + d)%N in
                      if (code <? 128)%N
                      then cons_char (ascii_of_N code) (parse_string_body r2)
                      else None
                  | _, _, _, _ => None
                  end
              | _ => None
              end
            else
              match unescape e with
              | Some c' => cons_char c' (parse_string_body r1)
              | None => None
              end
        end
      else if (n <? 32)%N then None
      else cons_char c (parse_string_body r)
  end.

Definition digit_of_char (c : ascii) : option (Decimal.uint -> Decimal.uint) :=
  let n := N_of_ascii c in
  if (n =? 48)%N then Some Decimal.D0
  else if (n =? 49)%N then Some Decimal.D1
  else if (n =? 50)%N then Some Decimal.D2
  else if (n =? 51)%N then Some Decimal.D3
  else if (n =? 52)%N then Some Decimal.D4
  else if (n =? 53)%N then Some Decimal.D5
  else if (n =? 54)%N then Some Decimal.D6
  else if (n =? 55)%N then Some Decimal.D7
  else if (n =? 56)%N then Some Decimal.D8
  else if (n =? 57)%N then Some Decimal.D9
  else None.

(** The longest prefix of decimal digits. *)
Fixpoint read_digits (s : string) : Decimal.uint * string :=
  match s with
  | "" => (Decimal.Nil, "")
  | String c r =>
      match digit_of_char c with
      | Some d => let (u, rest) := read_digits r in (d u, rest)
      | None => (Decimal.Nil, s)
      end
  end.

Definition starts_fraction (s : string) : bool :=
  match s with
  | String c _ =>
      let n := N_of_ascii c in ((n =? 46) || (n =? 101) || (n =? 69))%N
  | "" => false
  end.

(** An optional minus sign, then a single zero or a non-zero digit followed
    by digits; not followed by a fraction or an exponent, and within the safe
    integers (a longer literal is rounded to a double by JavaScript, which
    the integers here do not follow). *)
Definition parse_number (s : string) : option (jsval * string) :=
  let (neg, s1) :=
    match s with
    | String c r => if (N_of_ascii c =? 45)%N then (true, r) else (false, s)
    | "" => (false, s)
    end in
  let (u, rest) := read_digits s1 in
  match u with
  | Decimal.Nil => None
  | Decimal.D0 (Decimal.D0 _ | Decimal.D1 _ | Decimal.D2 _ | Decimal.D3 _
               | Decimal.D4 _ | Decimal.D5 _ | Decimal.D6 _ | Decimal.D7 _
               | Decimal.D8 _ | Decimal.D9 _) => None
  | _ =>
      if starts_fraction rest then None
      else
        let m := Z.of_N (N.of_uint u) in
        if 9007199254740991 <? m then None
        else Some (JNum (if neg then - m else m), rest)
  end.

Fixpoint expect (lit : string) (s : string) : option string :=
  match lit with
  | "" => Some s
  | String c l =>
      match s with
      | String c' r => if Ascii.eqb c c' then expect l r else None
      | "" => None
      end
  end.

Fixpoint replace_value (k : string) (v : jsval) (props : list (string * jsval))
  : list (string * jsval) :=
  match props with
  | [] => []
  | (k', v') :: r =>
      if (k' =? k)%string then (k', v) :: r else (k', v') :: replace_value k v r
  end.

Fixpoint insert_index (i : N) (k : string) (v : jsval) (props : list (string * jsval))
  : list (string * jsval) :=
  match props with
  | [] => [(k, v)]
  | (k', v') :: r =>
      match array_index k' with
      | Some j => if (j <? i)%N then (k', v') :: insert_index i k v r
                  else (k, v) :: props
      | None => (k, v) :: props
      end
  end.

(** [CreateDataProperty]: an existing key keeps its place and takes the new
    value; a new array-index key goes among the index keys in ascending
    order; any other new key goes last. *)
Definition define_property (props : list (string * jsval)) (kv : string * jsval)
  : list (string * jsval) :=
  let (k, v) := kv in
  match assoc k props with
  | Some _ => replace_value k v props
  | None =>
      match array_index k with
      | Some i => insert_index i k v props
      | None => props ++ [(k, v)]
      end
  end.

Definition object_of_members (members : list (string * jsval)) : list (string * jsval) :=
  fold_left define_property members [].

Definition head_is (n : N) (s : string) : option string :=
  match s with
  | String c r => if (N_of_ascii c =? n)%N then Some r else None
  | "" => None
  end.

Fixpoint parse_value (fuel : nat) (s : string) : option (jsval * string) :=
  match fuel with
  | O => None
  | S fuel' =>
      match skip_ws s with
      | "" => None
      | String c r =>
          let n := N_of_ascii c in
          if (n =? 110)%N then
            match expect "ull" r with Some r' => Some (JNull, r') | None => None end
          else if (n =? 116)%N then
            match expect "rue" r with Some r' => Some (JBool true, r') | None => None end
          else if (n =? 102)%N then
            match expect "alse" r with Some r' => Some (JBool false, r') | None => None end
          else if (n =? 34)%N then
            match parse_string_body r with
            | Some (str, r') => Some (JStr str, r')
            | None => None
            end
          else if (n =? 91)%N then
            match head_is 93 (skip_ws r) with
            | Some r' => Some (JArr [], r')
            | None =>
                match parse_elements fuel' r with
                | Some (xs, r') => Some (JArr xs, r')
                | None => None
                end
            end
          else if (n =? 123)%N then
            match head_is 125 (skip_ws r) with
            | Some r' => Some (JObj [], r')
            | None =>
                match parse_members fuel' r with
                | Some (ms, r') => Some (JObj (object_of_members ms), r')
                | None => None
                end
            end
          else parse_number (String c r)
      end
  end
with parse_elements (fuel : nat) (s : string) : option (list jsval * string) :=
  match fuel with
  | O => None
  | S fuel' =>
      match parse_value fuel' s with
      | None => None
      | Some (v, r) =>
          match skip_ws r with
          | "" => None
          | String c r' =>
              if (N_of_ascii c =? 44)%N then
                match parse_elements fuel' r' with
                | Some (vs, r'') => Some (v :: vs, r'')
                | None => None
                end
              else if (N_of_ascii c =? 93)%N then Some ([v], r')
              else None
          end
      end
  end
with parse_members (fuel : nat) (s : string) : option (list (string * jsval) * string) :=
  match fuel with
  | O => None
  | S fuel' =>
      match head_is 34 (skip_ws s) with
      | None => None
      | Some r0 =>
          match parse_string_body r0 with
          | None => None
          | Some (k, r1) =>
              match head_is 58 (skip_ws r1) with
              | None => None
              | Some r2 =>
                  match parse_value fuel' r2 with
                  | None => None
                  | Some (v, r3) =>
                      match skip_ws r3 with
                      | "" => None
                      | String c r4 =>
                          if (N_of_ascii c =? 44)%N then
                            match parse_members fuel' r4 with
                            | Some (ms, r5) => Some ((k, v) :: ms, r5)
                            | None => None
                            end
                          else if (N_of_ascii c =? 125)%N then Some ([(k, v)], r4)
                          else None
                      end
                  end
              end
          end
      end
  end.

(** [JSON.parse(text)] *)
Definition parse (text : string) : option jsval :=
  match parse_value (String.length text) text with
  | Some (v, rest) =>
      match skip_ws rest with
      | "" => Some v
      | String _ _ => None
      end
  | None => None
  end.

(** The values [JSON.parse] can return: no [undefined] anywhere, numbers that
    are safe integers, and in every object the own properties listed the way
    [CreateDataProperty] leaves them (distinct keys, array-index keys first in
    ascending order). *)
Fixpoint json_value (v : jsval) : Prop :=
  match v with
  | JUndefined => False
  | JNull | JBool _ | JStr _ => True
  | JNum n => Z.abs n <= 9007199254740991
  | JArr xs =>
      (fix all (l : list jsval) : Prop :=
         match l with [] => True | x :: r => json_value x /\ all r end) xs
  | JObj props =>
      (fix all (l : list (string * jsval)) : Prop :=
         match l with [] => True | kv :: r => json_value (snd kv) /\ all r end) props
      /\ object_of_members props = props
  end.

(** Number of nodes of a value: the recursion depth [parse_value] needs. *)
Fixpoint size (v : jsval) : nat :=
  match v with
  | JArr xs =>
      S ((fix sum (l : list jsval) : nat :=
            match l with [] => O | x :: r => (S (size x) + sum r)%nat end) xs)
  | JObj props =>
      S ((fix sum (l : list (string * jsval)) : nat :=
            match l with [] => O | kv :: r => (S (size (snd kv)) + sum r)%nat end) props)
  | _ => 1%nat
  end.

Fixpoint elements_size (l : list jsval) : nat :=
  match l with [] => O | x :: r => (S (size x) + elements_size r)%nat end.

Fixpoint members_size (l : list (string * jsval)) : nat :=
  match l with [] => O | kv :: r => (S (size (snd kv)) + members_size r)%nat end.

Definition member_text (kv : string * jsval) : string :=
  QuoteJSONString (fst kv) ++ ":" ++ stringify (snd kv).

End JS.

(** *** Number division and [toFixed(1)]

    A count is an integer below 2^53, hence an exact double.  The quotient of
    two counts is the double nearest to the exact quotient (ties to even),
    kept here as the pair [(m, k)] that stands for [m / 2^k]; for operands in
    that range the quotient is a normal number with [k >= 0]. *)
Module Number.

Definition round_half_even (num den : Z) : Z :=
  let q := num / den in
  let r := num mod den in
  if 2 * r <? den then q
  else if den <? 2 * r then q + 1
  else if Z.even q then q else q + 1.

(** [a / b] for [0 <= a < 2^53] and [0 < b < 2^53]: a 53-bit significand. *)
Definition divide (a b : Z) : Z * Z :=
  if a =? 0 then (0, 0)
  else
    let k0 := 52 - (Z.log2 a - Z.log2 b) in
    let k := if a * 2 ^ k0 / b <? 2 ^ 52 then k0 + 1 else k0 in
    (round_half_even (a * 2 ^ k) b, k).

(** [x.toFixed(1)] for [0 <= x < 10^21]: with [n] the integer nearest to
    [10 * x] (the larger one on a tie), the digits of [n] with a point before
    the last one. *)
Definition toFixed1 (x : Z * Z) : string :=
  let (m, k) := x in
  let n := (20 * m + 2 ^ k) / 2 ^ (k + 1) in
  (JS.Number_toString (n / 10) ++ "." ++ JS.Number_toString (n mod 10))%string.

End Number.

(** ** The SQLite store

    A table is the list of its rows in rowid order, which is insertion order:
    both tables are rowid tables and a new row takes the largest rowid.  A
    [TEXT] column read back is a string, or [null] for NULL; what it holds
    after a request value has been bound to it is given by [Sql.bind_text].
    [fields] and [answers] hold JSON text.  The two timestamp columns hold the
    text of [CURRENT_TIMESTAMP], of the form [YYYY-MM-DD HH:MM:SS] in UTC:
    such texts are compared byte by byte, and their byte order is the order of
    the instants they name. *)

Module forms.
Record row : Type := {
  id : string;
  title : jsval;
  description : jsval;
  fields : string;
  created_at : string }.
End forms.

Module responses.
Record row : Type := {
  id : string;
  form_id : string;
  answers : string;
  submitter_name : jsval;
  submitter_email : jsval;
  submitted_at : string }.
End responses.

(** A connection: the two tables and the connection's [foreign_keys]
    setting, which decides whether [ON DELETE CASCADE] and the foreign-key
    check are carried out. *)
Record Database : Type := {
  foreign_keys : bool;
  forms_rows : list forms.row;
  responses_rows : list responses.row }.

(** [new sqlite3.Database(dbPath)] followed by the two
    [CREATE TABLE IF NOT EXISTS]: the tables of the file as they are, and
    foreign-key enforcement off, which is SQLite's setting for a new
    connection; [index.js] issues no [PRAGMA foreign_keys]. *)
Definition open_database (stored_forms : list forms.row)
  (stored_responses : list responses.row) : Database :=
  {| foreign_keys := false;
     forms_rows := stored_forms;
     responses_rows := stored_responses |}.

Module Sql.

Fixpoint drop_trailing_zeros (digits : string) : string :=
  match digits with
  | "" => ""
  | String c rest =>
      match drop_trailing_zeros rest with
      | "" => if Ascii.eqb c "0" then "" else String c ""
      | kept => String c kept
      end
  end.

(** The text SQLite gives a REAL that holds the integer [n] (its [%!.15g]):
    up to fifteen digits, the digits followed by [.0]; beyond that, fifteen
    significant digits, rounded, without trailing zeros, and the exponent. *)
Definition real_text (n : Z) : string :=
  let sign := if n <? 0 then "-" else "" in
  let digits := JS.Number_toString (Z.abs n) in
  let k := Z.of_nat (String.length digits) in
  if k <=? 15 then sign ++ digits ++ ".0"
  else
    let scale := 10 ^ (k - 15) in
    let m0 := (2 * Z.abs n + scale) / (2 * scale) in
    let (m, e) := if m0 =? 10 ^ 15 then (10 ^ 14, k) else (m0, k - 1) in
    match JS.Number_toString m with
    | String d rest =>
        sign ++ String d ("." ++ match drop_trailing_zeros rest with
                                 | "" => "0"
                                 | fraction => fraction
                                 end)
        ++ "e+" ++ JS.Number_toString e
    | "" => ""
    end.

(** What a [TEXT] column holds once the driver has bound the JavaScript value
    [v] to its parameter.  A string is bound as text and [null] as NULL.  A
    boolean is bound as the integer 1 or 0, and a number within 32 bits as
    an integer; another number is bound as a double; the column's TEXT
    affinity turns each into its text.  An array or another object is bound
    as the text [[object Object]].  [undefined] leaves the parameter unbound,
    which is NULL. *)
Definition bind_text (v : jsval) : jsval :=
  match v with
  | JStr s => JStr s
  | JNull | JUndefined => JNull
  | JBool b => JStr (if b then "1" else "0")
  | JNum n =>
      JStr (if (-2147483648 <=? n) && (n <=? 2147483647)
            then JS.Number_toString n else real_text n)
  | JArr _ | JObj _ => JStr "[object Object]"
  end.

Section order_by.
Context {A : Type}.
Variable key : A -> string.

Fixpoint insert_desc (x : A) (sorted : list A) : list A :=
  match sorted with
  | [] => [x]
  | y :: rest =>
      if (key y <=? key x)%string then x :: sorted
      else y :: insert_desc x rest
  end.

(** [ORDER BY key DESC] over rows in scan order: descending by the
    byte-wise order of the key text.  SQL leaves the order of rows with equal
    keys open; here they stay in scan order, as SQLite's merge sorter leaves
    them. *)
Fixpoint order_by_desc (rows : list A) : list A :=
  match rows with
  | [] => []
  | x :: rest => insert_desc x (order_by_desc rest)
  end.
End order_by.

(** [SELECT * FROM forms WHERE id = ?] through [db.get]: the first match. *)
Definition select_form (db : Database) (id : string) : option forms.row :=
  find (fun f => (forms.id f =? id)%string) (forms_rows db).

(** [SELECT * FROM responses WHERE form_id = ? ORDER BY submitted_at DESC] *)
Definition select_responses (db : Database) (id : string) : list responses.row :=
  order_by_desc responses.submitted_at
    (filter (fun r => (responses.form_id r =? id)%string) (responses_rows db)).

(** [SELECT r.*, f.title as form_title FROM responses r JOIN forms f
    ON r.form_id = f.id ORDER BY r.submitted_at DESC]: the responses are
    scanned and the form of each is looked up by its primary key. *)
Definition joined (db : Database) : list (responses.row * jsval) :=
  flat_map
    (fun r => map (fun f => (r, forms.title f))
                (filter (fun f => (forms.id f =? responses.form_id r)%string)
                   (forms_rows db)))
    (responses_rows db).

Definition select_joined (db : Database) : list (responses.row * jsval) :=
  order_by_desc (fun rf => responses.submitted_at (fst rf)) (joined db).

(** The row of [forms] written for the values [f] bound to the statement. *)
Definition stored_form (f : forms.row) : forms.row :=
  {| forms.id := forms.id f;
     forms.title := bind_text (forms.title f);
     forms.description := bind_text (forms.description f);
     forms.fields := forms.fields f;
     forms.created_at := forms.created_at f |}.

(** The row of [responses] written for the values [r] bound to the
    statement. *)
Definition stored_response (r : responses.row) : responses.row :=
  {| responses.id := responses.id r;
     responses.form_id := responses.form_id r;
     responses.answers := responses.answers r;
     responses.submitter_name := bind_text (responses.submitter_name r);
     responses.submitter_email := bind_text (responses.submitter_email r);
     responses.submitted_at := responses.submitted_at r |}.

(** [INSERT INTO forms ...]: fails on a duplicate primary key. *)
Definition insert_form (db : Database) (f : forms.row) : option Database :=
  if existsb (fun g => (forms.id g =? forms.id f)%string) (forms_rows db) then None
  else Some {| foreign_keys := foreign_keys db;
               forms_rows := forms_rows db ++ [stored_form f];
               responses_rows := responses_rows db |}.

(** [UPDATE forms SET title = ?, description = ?, fields = ? WHERE id = ?]:
    the new table and the number of rows changed. *)
Definition update_form (db : Database) (id : string) (title description : jsval)
  (fields : string) : Database * nat :=
  ({| foreign_keys := foreign_keys db;
      forms_rows :=
        map (fun f =>
               if (forms.id f =? id)%string
               then {| forms.id := forms.id f;
                       forms.title := bind_text title;
                       forms.description := bind_text description;
                       forms.fields := fields;
                       forms.created_at := forms.created_at f |}
               else f) (forms_rows db);
      responses_rows := responses_rows db |},
   List.length (filter (fun f => (forms.id f =? id)%string) (forms_rows db))).

(** [DELETE FROM forms WHERE id = ?]: the responses of the deleted form go
    with it only on a connection that enforces foreign keys. *)
Definition delete_form (db : Database) (id : string) : Database * nat :=
  ({| foreign_keys := foreign_keys db;
      forms_rows := filter (fun f => negb (forms.id f =? id)%string) (forms_rows db);
      responses_rows :=
        if foreign_keys db
           && existsb (fun f => (forms.id f =? id)%string) (forms_rows db)
        then filter (fun r => negb (responses.form_id r =? id)%string) (responses_rows db)
        else responses_rows db |},
   List.length (filter (fun f => (forms.id f =? id)%string) (forms_rows db))).

(** [INSERT INTO responses ...]: fails on a duplicate primary key and, on a
    connection that enforces foreign keys, on a missing form. *)
Definition insert_response (db : Database) (r : responses.row) : option Database :=
  if existsb (fun q => (responses.id q =? responses.id r)%string) (responses_rows db)
  then None
  else if foreign_keys db
          && negb (existsb (fun f => (forms.id f =? responses.form_id r)%string)
                     (forms_rows db))
  then None
  else Some {| foreign_keys := foreign_keys db;
               forms_rows := forms_rows db;
               responses_rows := responses_rows db ++ [stored_response r] |}.

End Sql.

(** ** The request handlers of [server/index.js] *)

(** What a handler draws from outside the request: the identifier
    [uuidv4()] returns, the text SQLite puts in a [DEFAULT CURRENT_TIMESTAMP]
    column, and the text of [new Date().toISOString()]. *)
Record Effects : Type := {
  uuidv4 : string;
  CURRENT_TIMESTAMP : string;
  toISOString : string }.

(** What a handler answers: [res.status(s).json(body)], the CSV attachment of
    [res.send], or an exception thrown inside the callback. *)
Inductive reply : Type :=
| Json (status : Z) (body : jsval)
| Attachment (content_type disposition body : string)
| Throw.

Definition error (msg : string) : jsval := JObj [("error", JStr msg)].

(** [handleError(res, error, message)] *)
Definition handleError (message : string) : reply := Json 500 (error message).

(** [xs.map(f)] where [f] may throw. *)
Fixpoint map_throw {A B : Type} (f : A -> option B) (xs : list A) : option (list B) :=
  match xs with
  | [] => Some []
  | x :: rest =>
      match f x with
      | None => None
      | Some y =>
          match map_throw f rest with
          | None => None
          | Some ys => Some (y :: ys)
          end
      end
  end.

(** [{...row, fields: JSON.parse(row.fields), createdAt: row.created_at}] *)
Definition form_of_row (row : forms.row) : option jsval :=
  match JS.parse (forms.fields row) with
  | None => None
  | Some fields =>
      Some (JObj [("id", JStr (forms.id row));
                  ("title", forms.title row);
                  ("description", forms.description row);
                  ("fields", fields);
                  ("created_at", JStr (forms.created_at row));
                  ("createdAt", JStr (forms.created_at row))])
  end.

(** [GET /api/forms] *)
Definition listForms (db : Database) : reply :=
  match map_throw form_of_row (Sql.order_by_desc forms.created_at (forms_rows db)) with
  | Some forms => Json 200 (JArr forms)
  | None => Throw
  end.

(** [GET /api/forms/:id] *)
Definition getForm (db : Database) (id : string) : reply :=
  match Sql.select_form db id with
  | None => Json 404 (error "Form not found")
  | Some row =>
      match form_of_row row with
      | Some form => Json 200 form
      | None => Throw
      end
  end.

(** The guard shared by create and update:
    [!title || !fields || !Array.isArray(fields)] *)
Definition invalid_form (title fields : jsval) : bool :=
  negb (JS.truthy title) || negb (JS.truthy fields) || negb (JS.isArray fields).

(** [POST /api/forms] *)
Definition createForm (db : Database) (fx : Effects) (title description fields : jsval)
  : reply * Database :=
  if invalid_form title fields
  then (Json 400 (error "Title and fields are required"), db)
  else
    let id := uuidv4 fx in
    let fieldsJson := JS.stringify fields in
    match Sql.insert_form db
            {| forms.id := id;
               forms.title := title;
               forms.description := JS.or description (JStr "");
               forms.fields := fieldsJson;
               forms.created_at := CURRENT_TIMESTAMP fx |} with
    | None => (handleError "Failed to create form", db)
    | Some db' =>
        (Json 201 (JObj [("id", JStr id);
                         ("title", title);
                         ("description", JS.or description (JStr ""));
                         ("fields", fields);
                         ("createdAt", JStr (toISOString fx))]), db')
    end.

(** [PUT /api/forms/:id] *)
Definition updateForm (db : Database) (id : string) (title description fields : jsval)
  : reply * Database :=
  if invalid_form title fields
  then (Json 400 (error "Title and fields are required"), db)
  else
    let fieldsJson := JS.stringify fields in
    let (db', changes) :=
      Sql.update_form db id title (JS.or description (JStr "")) fieldsJson in
    if (changes =? 0)%nat then (Json 404 (error "Form not found"), db')
    else (Json 200 (JObj [("id", JStr id);
                          ("title", title);
                          ("description", JS.or description (JStr ""));
                          ("fields", fields)]), db').

(** [DELETE /api/forms/:id] *)
Definition deleteForm (db : Database) (id : string) : reply * Database :=
  let (db', changes) := Sql.delete_form db id in
  if (changes =? 0)%nat then (Json 404 (error "Form not found"), db')
  else (Json 200 (JObj [("message", JStr "Form deleted successfully")]), db').

Definition response_of_row (row : responses.row) : option jsval :=
  match JS.parse (responses.answers row) with
  | None => None
  | Some answers =>
      Some (JObj [("id", JStr (responses.id row));
                  ("formId", JStr (responses.form_id row));
                  ("answers", answers);
                  ("submitterName", responses.submitter_name row);
                  ("submitterEmail", responses.submitter_email row);
                  ("submittedAt", JStr (responses.submitted_at row))])
  end.

Definition joined_response_of_row (rf : responses.row * jsval) : option jsval :=
  let (row, form_title) := rf in
  match JS.parse (responses.answers row) with
  | None => None
  | Some answers =>
      Some (JObj [("id", JStr (responses.id row));
                  ("formId", JStr (responses.form_id row));
                  ("formTitle", form_title);
                  ("answers", answers);
                  ("submitterName", responses.submitter_name row);
                  ("submitterEmail", responses.submitter_email row);
                  ("submittedAt", JStr (responses.submitted_at row))])
  end.

(** [GET /api/forms/:id/responses] *)
Definition listResponsesForForm (db : Database) (id : string) : reply :=
  match map_throw response_of_row (Sql.select_responses db id) with
  | Some rs => Json 200 (JArr rs)
  | None => Throw
  end.

(** [GET /api/responses] *)
Definition listAllResponses (db : Database) : reply :=
  match map_throw joined_response_of_row (Sql.select_joined db) with
  | Some rs => Json 200 (JArr rs)
  | None => Throw
  end.

(** [POST /api/forms/:id/responses] *)
Definition submitResponse (db : Database) (fx : Effects) (formId : string)
  (answers submitterName submitterEmail : jsval) : reply * Database :=
  if negb (JS.truthy answers) || negb (JS.typeof_object answers)
  then (Json 400 (error "Answers are required"), db)
  else
    match Sql.select_form db formId with
    | None => (Json 404 (error "Form not found"), db)
    | Some _ =>
        let responseId := uuidv4 fx in
        let answersJson := JS.stringify answers in
        match Sql.insert_response db
                {| responses.id := responseId;
                   responses.form_id := formId;
                   responses.answers := answersJson;
                   responses.submitter_name := JS.or submitterName JNull;
                   responses.submitter_email := JS.or submitterEmail JNull;
                   responses.submitted_at := CURRENT_TIMESTAMP fx |} with
        | None => (handleError "Failed to submit response", db)
        | Some db' =>
            (Json 201 (JObj [("id", JStr responseId);
                             ("formId", JStr formId);
                             ("answers", answers);
                             ("submitterName", submitterName);
                             ("submitterEmail", submitterEmail);
                             ("submittedAt", JStr (toISOString fx))]), db')
        end
    end.

(** [stats.totalForms > 0 ? (stats.totalResponses / stats.totalForms).toFixed(1) : '0'] *)
Definition avgResponsesPerForm (totalForms totalResponses : Z) : string :=
  if 0 <? totalForms
  then Number.toFixed1 (Number.divide totalResponses totalForms)
  else "0".

(** [GET /api/dashboard/stats].  The three queries are taken to see the same
    database state.  The properties of [stats] are listed in the order of the
    source; at run time the first three are set in the order the queries
    complete. *)
Definition computeDashboardStats (db : Database) : reply :=
  let totalForms := Z.of_nat (List.length (forms_rows db)) in
  let totalResponses := Z.of_nat (List.length (responses_rows db)) in
  match map_throw joined_response_of_row (firstn 5 (Sql.select_joined db)) with
  | None => Throw
  | Some recent =>
      Json 200 (JObj [("totalForms", JNum totalForms);
                      ("totalResponses", JNum totalResponses);
                      ("recentResponses", JArr recent);
                      ("avgResponsesPerForm",
                       JStr (avgResponsesPerForm totalForms totalResponses))])
  end.

(** The callback of [formData.map] in the export: one cell per field.  It
    throws ([None]) when the field is [null], when its id is an object that
    has no text, when the answers are [null], and when [join] meets an element
    that has no text. *)
Definition export_cell (answers field : jsval) : option jsval :=
  match JS.get field "id" with
  | None => None
  | Some id =>
      if JS.converts id then
        match JS.lookup answers (JS.ToString id) with
        | None => None
        | Some answer =>
            match answer with
            | JArr items =>
                if JS.converts answer then Some (JStr (JS.join ", " items)) else None
            | _ => Some (JS.or answer (JStr ""))
            end
        end
      else None
  end.

(** [row.map(cell => `"${cell}"`).join(',')] for cells that convert. *)
Definition csv_line (row : list jsval) : string :=
  String.concat ","
    (map (fun cell => String JS.dquote (JS.ToString cell ++ String JS.dquote "")) row).

Definition newline : string := String "010"%char "".

(** The values [res.setHeader] accepts: tabs, the printable ASCII characters
    and the code points U+0080 to U+00FF, which in UTF-8 are the two-byte
    sequences led by C2 or C3.  For a value with any other character (a
    control character, a code point above U+00FF) it throws. *)
Fixpoint valid_header_value (value : string) : bool :=
  match value with
  | "" => true
  | String c rest =>
      let n := N_of_ascii c in
      if ((n =? 9) || ((32 <=? n) && (n <=? 126)))%N then valid_header_value rest
      else if ((n =? 194) || (n =? 195))%N then
        match rest with
        | String c' rest' =>
            let n' := N_of_ascii c' in
            ((128 <=? n') && (n' <=? 191))%N && valid_header_value rest'
        | "" => false
        end
      else false
  end.

(** [`attachment; filename="${title}_responses.csv"`] *)
Definition content_disposition (title : string) : string :=
  "attachment; filename=" ++ String JS.dquote (title ++ "_responses.csv" ++ String JS.dquote "").

(** [GET /api/forms/:id/export].  [toLocaleString] stands for
    [new Date(text).toLocaleString()], which depends on the locale and the
    time zone of the server.  Whatever is thrown inside the callback of the
    query (by [JSON.parse], by reading a property of [null], by a template
    literal or [join] on an object without text, by [res.setHeader] on a
    title it refuses) leaves the request without a reply. *)
Definition exportResponsesAsCsv (toLocaleString : string -> string)
  (db : Database) (id : string) : reply :=
  match Sql.select_form db id with
  | None => Json 404 (error "Form not found")
  | Some form =>
      let responses := Sql.select_responses db id in
      match JS.parse (forms.fields form) with
      | Some (JArr formData) =>
          match map_throw (fun f => JS.get f "label") formData with
          | None => Throw
          | Some labels =>
              let headers := JStr "Submitted At" :: JStr "Name" :: JStr "Email" :: labels in
              match
                map_throw
                  (fun response =>
                     match JS.parse (responses.answers response) with
                     | None => None
                     | Some answers =>
                         match map_throw (export_cell answers) formData with
                         | None => None
                         | Some cells =>
                             Some (JStr (toLocaleString (responses.submitted_at response))
                                   :: JS.or (responses.submitter_name response) (JStr "")
                                   :: JS.or (responses.submitter_email response) (JStr "")
                                   :: cells)
                         end
                     end) responses
              with
              | None => Throw
              | Some rows =>
                  if forallb (forallb JS.converts) (headers :: rows)
                     && JS.converts (forms.title form)
                     && valid_header_value
                          (content_disposition (JS.ToString (forms.title form)))
                  then
                    Attachment "text/csv"
                      (content_disposition (JS.ToString (forms.title form)))
                      (String.concat newline (map csv_line (headers :: rows)))
                  else Throw
              end
          end
      | _ => Throw
      end
  end.

(** ** Conditions on a database and on what a handler draws *)

(** [uuidv4()] has returned an identifier no row carries yet. *)
Definition fresh_form_id (db : Database) (id : string) : Prop :=
  Forall (fun f => forms.id f <> id) (forms_rows db).

Definition fresh_response_id (db : Database) (id : string) : Prop :=
  Forall (fun r => responses.id r <> id) (responses_rows db).

(** [id TEXT PRIMARY KEY] on [forms]. *)
Definition primary_keys (db : Database) : Prop :=
  NoDup (map forms.id (forms_rows db)).

(** Every response references a stored form. *)
Definition referential_integrity (db : Database) : Prop :=
  Forall (fun r => exists f, In f (forms_rows db) /\ forms.id f = responses.form_id r)
    (responses_rows db).

(** The JSON columns hold text that [JSON.parse] accepts, as every text
    written by [JSON.stringify] is. *)
Definition stored_json (db : Database) : Prop :=
  Forall (fun f => exists v, JS.parse (forms.fields f) = Some v) (forms_rows db)
  /\ Forall (fun r => exists v, JS.parse (responses.answers r) = Some v) (responses_rows db).

(** Newest first: every row is followed only by rows whose key is not
    larger. *)
Definition descending {A : Type} (key : A -> string) (rows : list A) : Prop :=
  StronglySorted (fun x y => (key y <=? key x)%string = true) rows.


(** ** Form fields as the client types them ([types/form.ts]) *)

Module FormField.

Inductive type : Type := text | email | textarea | select | radio | checkbox | number.

Record t : Type := {
  id : string;
  type_ : type;
  label : string;
  required : bool;
  options : option (list string);
  placeholder : option string }.

Definition type_name (ty : type) : string :=
  match ty with
  | text => "text" | email => "email" | textarea => "textarea" | select => "select"
  | radio => "radio" | checkbox => "checkbox" | number => "number"
  end.

(** The object the client sends for a field. *)
Definition to_js (f : t) : jsval :=
  JObj ([("id", JStr (id f));
         ("type", JStr (type_name (type_ f)));
         ("label", JStr (label f));
         ("required", JBool (required f))]
        ++ match options f with
           | Some os => [("options", JArr (map JStr os))]
           | None => []
           end
        ++ match placeholder f with
           | Some p => [("placeholder", JStr p)]
           | None => []
           end).

End FormField.

(** ** The CSV export in the words of the specification

    A second description of the export, case by case on the answer, to be
    compared with [exportResponsesAsCsv]. *)
Module Spec.

Definition header (labels : list string) : list string :=
  "Submitted At" :: "Name" :: "Email" :: labels.

(** The answer joined by [", "] when it is a sequence, else the raw value,
    else the empty string. *)
Definition cell (answer : option jsval) : string :=
  match answer with
  | Some (JArr items) => JS.join ", " items
  | Some v => if JS.truthy v then JS.ToString v else ""
  | None => ""
  end.

Definition quoted (c : string) : string :=
  String JS.dquote (c ++ String JS.dquote "").

Definition line (cells : list string) : string :=
  String.concat "," (map quoted cells).

(** A stored field read as the pair of its id and its label. *)
Definition field_id_label (f : jsval) : option (string * string) :=
  match f with
  | JObj props =>
      match JS.assoc "id" props, JS.assoc "label" props with
      | Some (JStr i), Some (JStr l) => Some (i, l)
      | _, _ => None
      end
  | _ => None
  end.

Definition form_fields (form : forms.row) : option (list (string * string)) :=
  match JS.parse (forms.fields form) with
  | Some (JArr fs) => map_throw field_id_label fs
  | _ => None
  end.

(** A stored response with its answers read as a mapping. *)
Definition response_mapping (r : responses.row)
  : option (responses.row * list (string * jsval)) :=
  match JS.parse (responses.answers r) with
  | Some (JObj answers) => Some (r, answers)
  | _ => None
  end.

Definition row (toLocaleString : string -> string) (fields : list (string * string))
  (ra : responses.row * list (string * jsval)) : list string :=
  toLocaleString (responses.submitted_at (fst ra))
  :: JS.ToString (JS.or (responses.submitter_name (fst ra)) (JStr ""))
  :: JS.ToString (JS.or (responses.submitter_email (fst ra)) (JStr ""))
  :: map (fun f => cell (JS.assoc (fst f) (snd ra))) fields.

Definition csv (toLocaleString : string -> string) (fields : list (string * string))
  (rows : list (responses.row * list (string * jsval))) : string :=
  String.concat newline
    (map line (header (map snd fields) :: map (row toLocaleString fields) rows)).

End Spec.

(** The value the export puts in a field cell, by cases on the looked-up
    answer. *)
Definition cell_value (answer : option jsval) : jsval :=
  match answer with
  | Some (JArr items) => JStr (JS.join ", " items)
  | Some v => JS.or v (JStr "")
  | None => JStr ""
  end.

(** A stored response whose submitter and answers all have a text. *)
Definition response_converts (ra : responses.row * list (string * jsval)) : Prop :=
  JS.converts (responses.submitter_name (fst ra)) = true
  /\ JS.converts (responses.submitter_email (fst ra)) = true
  /\ Forall (fun kv => JS.converts (snd kv) = true) (snd ra).

(** ** A small run of the service, used in the examples *)
Module Scenario.

Definition effects (id now_sql now_js : string) : Effects :=
  {| uuidv4 := id; CURRENT_TIMESTAMP := now_sql; toISOString := now_js |}.

(** The fields [[{id:"name",label:"Name"},{id:"tags",label:"Tags"}]]. *)
Definition fields : jsval :=
  JArr [JObj [("id", JStr "name"); ("label", JStr "Name")];
        JObj [("id", JStr "tags"); ("label", JStr "Tags")]].

(** A fresh database file, then one form. *)
Definition db0 : Database := open_database [] [].

Definition db1 : Database :=
  snd (createForm db0 (effects "form-1" "2024-05-01 10:00:00" "2024-05-01T10:00:00.250Z")
         (JStr "Club") JUndefined fields).

(** Three responses to it, the last two within the same second. *)
Definition alice : jsval :=
  JObj [("name", JStr "Alice"); ("tags", JArr [JStr "a"; JStr "b"])].

Definition db2 : Database :=
  snd (submitResponse db1 (effects "resp-1" "2024-05-01 10:00:05" "2024-05-01T10:00:05.120Z")
         "form-1" alice JUndefined JUndefined).

Definition db3 : Database :=
  snd (submitResponse db2 (effects "resp-2" "2024-05-01 10:00:07" "2024-05-01T10:00:07.300Z")
         "form-1" (JObj [("name", JStr ""); ("tags", JNull)]) (JStr "Bob") JUndefined).

Definition db4 : Database :=
  snd (submitResponse db3 (effects "resp-3" "2024-05-01 10:00:07" "2024-05-01T10:00:07.900Z")
         "form-1" (JObj [("name", JNum 0); ("tags", JBool false)]) JUndefined (JStr "c@d.e")).

(** A second form, titled in Cyrillic (the UTF-8 bytes of the four letters
    of the word for club), and one response to it. *)
Definition klub : string :=
  string_of_list_ascii (map ascii_of_N [208; 154; 208; 187; 209; 131; 208; 177]%N).

Definition db5 : Database :=
  snd (createForm db4 (effects "form-2" "2024-05-03 09:00:00" "2024-05-03T09:00:00.500Z")
         (JStr klub) JUndefined fields).

Definition db6 : Database :=
  snd (submitResponse db5 (effects "resp-4" "2024-05-03 09:30:00" "2024-05-03T09:30:00.100Z")
         "form-2" alice JUndefined JUndefined).

End Scenario.

(** ** Auxiliary definitions of the proofs *)

(** What may follow a serialised value: the end of the text, a comma, or a
    closing bracket or brace. *)
Definition delimited (rest : string) : Prop :=
  match rest with
  | "" => True
  | String c _ => N_of_ascii c = 44%N \/ N_of_ascii c = 93%N \/ N_of_ascii c = 125%N
  end.

(** A serialised number starts with a minus sign or a digit. *)
Definition numeric_head (c : ascii) : Prop :=
  (N_of_ascii c = 45 \/ 48 <= N_of_ascii c <= 57)%N.

(** The statement proved by induction for the round trip. *)
Definition round_trips (v : jsval) : Prop :=
  JS.json_value v -> forall fuel rest,
    (JS.size v <= fuel)%nat -> delimited rest ->
    JS.parse_value fuel (JS.stringify v ++ rest) = Some (v, rest).

(** The row [UPDATE forms] leaves in place of [old]. *)
Definition updated_row (old : forms.row) (title description : jsval) (fields : string)
  : forms.row :=
  {| forms.id := forms.id old;
     forms.title := title;
     forms.description := description;
     forms.fields := fields;
     forms.created_at := forms.created_at old |}.

(** The quotient of two counts through the IEEE 754 operations of the
    standard library, to compare [Number.divide] with. *)
Definition binary64_of_count (n : Z) : spec_float :=
  binary_normalize 53 1024 n 0 false.

Definition binary64_div (a b : Z) : spec_float :=
  SFdiv 53 1024 (binary64_of_count a) (binary64_of_count b).

Definition same_number (x : spec_float) (mk : Z * Z) : bool :=
  let (mant, k) := mk in
  match x with
  | S754_zero _ => mant =? 0
  | S754_finite false m e =>
      if e <? 0 then Z.pos m * 2 ^ k =? mant * 2 ^ (- e)
      else Z.pos m * 2 ^ e * 2 ^ k =? mant
  | _ => false
  end.

Definition counts (n : nat) : list Z := map Z.of_nat (seq 0 n).

(** ** The service as a machine

    The requests that write, served one at a time: Express hands each to the
    handler of its method and path, and a handler is taken to run to its reply
    before the next request is served. *)
Inductive request : Type :=
| CreateForm (fx : Effects) (title description fields : jsval)
| UpdateForm (id : string) (title description fields : jsval)
| DeleteForm (id : string)
| SubmitResponse (fx : Effects) (formId : string)
    (answers submitterName submitterEmail : jsval).

Definition serve (db : Database) (req : request) : reply * Database :=
  match req with
  | CreateForm fx title description fields => createForm db fx title description fields
  | UpdateForm id title description fields => updateForm db id title description fields
  | DeleteForm id => deleteForm db id
  | SubmitResponse fx formId answers submitterName submitterEmail =>
      submitResponse db fx formId answers submitterName submitterEmail
  end.

Fixpoint serve_all (db : Database) (reqs : list request) : Database :=
  match reqs with
  | [] => db
  | req :: rest => serve_all (snd (serve db req)) rest
  end.

(** A property of a body parsed by [express.json()]: a JSON value, or
    [undefined] when the body has no such property. *)
Definition json_or_absent (v : jsval) : Prop := v = JUndefined \/ JS.json_value v.

Definition json_request (req : request) : Prop :=
  match req with
  | CreateForm _ _ _ fields | UpdateForm _ _ _ fields => json_or_absent fields
  | DeleteForm _ => True
  | SubmitResponse _ _ answers _ _ => json_or_absent answers
  end.

Definition is_delete (req : request) : bool :=
  match req with DeleteForm _ => true | _ => false end.

(** [id TEXT PRIMARY KEY] on [responses]. *)
Definition response_keys (db : Database) : Prop :=
  NoDup (map responses.id (responses_rows db)).

(** The three characters between two cells of a CSV line: a closing quote,
    the comma, an opening quote. *)
Definition cell_separator : string :=
  String JS.dquote (String ","%char (String JS.dquote "")).

(** * The client

    ** Strings as the components use them

    Texts are kept as their UTF-8 bytes. *)
Module Str.

Definition bytes (codes : list N) : string :=
  string_of_list_ascii (map ascii_of_N codes).

(** The code points [String.prototype.trim] removes, WhiteSpace and
    LineTerminator: the ASCII ones, U+00A0, U+1680, U+2000 to U+200A, U+2028,
    U+2029, U+202F, U+205F, U+3000 and U+FEFF. *)
Definition white_space : list string :=
  map bytes
    [[9]; [10]; [11]; [12]; [13]; [32]; [194; 160]; [225; 154; 128];
     [226; 128; 128]; [226; 128; 129]; [226; 128; 130]; [226; 128; 131];
     [226; 128; 132]; [226; 128; 133]; [226; 128; 134]; [226; 128; 135];
     [226; 128; 136]; [226; 128; 137]; [226; 128; 138];
     [226; 128; 168]; [226; 128; 169]; [226; 128; 175]; [226; 129; 159];
     [227; 128; 128]; [239; 187; 191]]%N.

(** [s] without the prefix [p], when it starts with it. *)
Fixpoint drop_prefix (p s : string) : option string :=
  match p with
  | "" => Some s
  | String a p' =>
      match s with
      | String b s' => if Ascii.eqb a b then drop_prefix p' s' else None
      | "" => None
      end
  end.

Fixpoint drop_first (ps : list string) (s : string) : option string :=
  match ps with
  | [] => None
  | p :: rest =>
      match drop_prefix p s with
      | Some t => Some t
      | None => drop_first rest s
      end
  end.

(** Removes leading code points of [ps]; each round removes at least one
    byte, so the length of the text is fuel enough. *)
Fixpoint drop_leading (ps : list string) (fuel : nat) (s : string) : string :=
  match fuel with
  | O => s
  | S n =>
      match drop_first ps s with
      | Some t => drop_leading ps n t
      | None => s
      end
  end.

Definition reverse (s : string) : string :=
  string_of_list_ascii (rev (list_ascii_of_string s)).

Definition trimStart (s : string) : string :=
  drop_leading white_space (String.length s) s.

Definition trimEnd (s : string) : string :=
  reverse (drop_leading (map reverse white_space) (String.length s) (reverse s)).

(** [s.trim()] *)
Definition trim (s : string) : string := trimEnd (trimStart s).

(** [s.split(sep)] for a separator of one character: the pieces between
    the separators, the empty ones included; one empty piece for the empty
    text. *)
Fixpoint split (sep : ascii) (s : string) : list string :=
  match s with
  | "" => [""]
  | String c r =>
      if Ascii.eqb c sep then "" :: split sep r
      else match split sep r with
           | piece :: rest => String c piece :: rest
           | [] => [String c ""]
           end
  end.

End Str.

(** ** Objects as the components build them *)
Module Obj.

(** The elements of a sequence under their indices. *)
Definition indexed (xs : list jsval) : list (string * jsval) :=
  combine (map (fun i => JS.Number_toString (Z.of_nat i)) (seq 0 (List.length xs))) xs.

(** The own enumerable properties of a value, in enumeration order, as an
    object spread copies them: the members of an object, the elements of an
    array and the characters of a string under their indices (one per byte:
    an ASCII text), nothing for the other values. *)
Definition own (v : jsval) : list (string * jsval) :=
  match v with
  | JObj props => props
  | JArr xs => indexed xs
  | JStr s => indexed (map (fun c => JStr (String c "")) (list_ascii_of_string s))
  | _ => []
  end.

(** [{ ...a, ...b }] *)
Definition spread (a b : jsval) : jsval :=
  JObj (JS.object_of_members (own a ++ own b)).

(** The names an object literal inherits from [Object.prototype]. *)
Definition Object_prototype : list string := JS.Object_prototype.

(** [o[k]] for the object with the members [props], made by a literal: its
    own property; else a member inherited from [Object.prototype], which is a
    function (the prototype itself under [__proto__]) and of which the
    components observe only that it is truthy, not a string and not an array:
    it stands here as an object without members; else [undefined]. *)
Definition member (props : list (string * jsval)) (k : string) : jsval :=
  match JS.assoc k props with
  | Some v => v
  | None => if existsb (String.eqb k) Object_prototype then JObj [] else JUndefined
  end.


(** [v === s] for a string [s] *)
Definition is_string (v : jsval) (s : string) : bool :=
  match v with JStr t => (t =? s)%string | _ => false end.

End Obj.

(** The order of the keys of an object: array indices ascending, then the
    other keys, none twice. *)
Definition precedes (k1 k2 : string) : Prop :=
  match JS.array_index k1, JS.array_index k2 with
  | Some i, Some j => (i < j)%N
  | Some _, None => True
  | None, Some _ => False
  | None, None => k1 <> k2
  end.

Definition ordered (props : list (string * jsval)) : Prop :=
  StronglySorted precedes (map fst props).

(** [xs.map((x, i) => f(x, i))] and [xs.filter((x, i) => p(x, i))], counting
    from [i]. *)
Fixpoint map_index {A B : Type} (f : A -> nat -> B) (i : nat) (xs : list A) : list B :=
  match xs with
  | [] => []
  | x :: rest => f x i :: map_index f (S i) rest
  end.

Fixpoint filter_index {A : Type} (p : A -> nat -> bool) (i : nat) (xs : list A) : list A :=
  match xs with
  | [] => []
  | x :: rest => if p x i then x :: filter_index p (S i) rest else filter_index p (S i) rest
  end.

(** [xs.filter(p)] where [p] may throw. *)
Fixpoint filter_throw {A : Type} (p : A -> option bool) (xs : list A) : option (list A) :=
  match xs with
  | [] => Some []
  | x :: rest =>
      match p x with
      | None => None
      | Some keep =>
          match filter_throw p rest with
          | None => None
          | Some ys => Some (if keep then x :: ys else ys)
          end
      end
  end.

(** ** From axios to the handlers

    [app.use(express.json())] with its default options, then the route.  The
    text of the request is the [JSON.stringify] text of the object an
    [apiService] call hands to axios.  A text of more than 100 kB is refused
    by [express.json()], and the error goes to the error-handling middleware
    at the end of [index.js]; otherwise [req.body] is the text parsed, and
    the handler takes the properties it names out of it. *)
Definition body_limit : Z := 102400.

(** [res.status(500).json({ error: 'Something went wrong!' })] *)
Definition error_middleware : reply := Json 500 (error "Something went wrong!").

Definition with_body (db : Database) (data : jsval)
  (route : jsval -> option (reply * Database)) : option (reply * Database) :=
  match data with
  | JObj _ =>
      if body_limit <? Z.of_nat (String.length (JS.stringify data))
      then Some (error_middleware, db)
      else
        match JS.parse (JS.stringify data) with
        | Some body => route body
        | None => None
        end
  | _ => None
  end.

(** [app.post('/api/forms')] with [const { title, description, fields } = req.body] *)
Definition post_forms (db : Database) (fx : Effects) (data : jsval)
  : option (reply * Database) :=
  with_body db data
    (fun body =>
       match JS.get body "title", JS.get body "description", JS.get body "fields" with
       | Some title, Some description, Some fields =>
           Some (createForm db fx title description fields)
       | _, _, _ => None
       end).

(** [app.put('/api/forms/:id')] *)
Definition put_forms (db : Database) (id : string) (data : jsval)
  : option (reply * Database) :=
  with_body db data
    (fun body =>
       match JS.get body "title", JS.get body "description", JS.get body "fields" with
       | Some title, Some description, Some fields =>
           Some (updateForm db id title description fields)
       | _, _, _ => None
       end).

(** [app.post('/api/forms/:id/responses')] with
    [const { answers, submitterName, submitterEmail } = req.body] *)
Definition post_responses (db : Database) (fx : Effects) (formId : string) (data : jsval)
  : option (reply * Database) :=
  with_body db data
    (fun body =>
       match JS.get body "answers", JS.get body "submitterName",
             JS.get body "submitterEmail" with
       | Some answers, Some submitterName, Some submitterEmail =>
           Some (submitResponse db fx formId answers submitterName submitterEmail)
       | _, _, _ => None
       end).

(** ** [components/FormBuilder.tsx] *)
Module FormBuilder.

(** The field [addField] appends; [now] is [Date.now()]. *)
Definition newField (now : Z) : jsval :=
  JObj [("id", JStr ("field_" ++ JS.Number_toString now));
        ("type", JStr "text");
        ("label", JStr "New Field");
        ("required", JBool false);
        ("placeholder", JStr "")].

Definition addField (now : Z) (fields : list jsval) : list jsval :=
  (fields ++ [newField now])%list.

Definition updateField (index : nat) (updates : jsval) (fields : list jsval) : list jsval :=
  map_index (fun field i => if (i =? index)%nat then Obj.spread field updates else field)
    0 fields.

Definition removeField (index : nat) (fields : list jsval) : list jsval :=
  filter_index (fun _ i => negb (i =? index)%nat) 0 fields.

(** The text shown in the options box: [field.options?.join('\n') || ''].
    [None] when [join] is not there to call. *)
Definition options_value (field : jsval) : option string :=
  match JS.get field "options" with
  | Some (JUndefined | JNull) => Some ""
  | Some (JArr xs) => Some (JS.join newline xs)
  | _ => None
  end.

(** The options read from the box:
    [e.target.value.split('\n').filter(o => o.trim())] *)
Definition options_of_value (value : string) : list string :=
  filter (fun o => JS.truthy (JStr (Str.trim o))) (Str.split "010" value).

(** The change handlers of the inputs of a field, each with the value of its
    event, and the updates each passes to [updateField]. *)
Inductive change : Type :=
| Label (value : string)
| Type_ (value : FormField.type)
| Placeholder (value : string)
| Options (value : string)
| Required (checked : bool).

Definition updates_of (c : change) : jsval :=
  match c with
  | Label value => JObj [("label", JStr value)]
  | Type_ value => JObj [("type", JStr (FormField.type_name value))]
  | Placeholder value => JObj [("placeholder", JStr value)]
  | Options value => JObj [("options", JArr (map JStr (options_of_value value)))]
  | Required checked => JObj [("required", JBool checked)]
  end.

(** What the user does to the list of fields. *)
Inductive edit : Type :=
| Add (now : Z)
| Change (index : nat) (c : change)
| Remove (index : nat).

Definition apply (fields : list jsval) (e : edit) : list jsval :=
  match e with
  | Add now => addField now fields
  | Change index c => updateField index (updates_of c) fields
  | Remove index => removeField index fields
  end.

Definition edits (fields : list jsval) (es : list edit) : list jsval :=
  fold_left apply es fields.

(** What [handleSave] does: an alert, or the call of [apiService.createForm]
    or, when a form is being edited ([form] is its id), of
    [apiService.updateForm]. *)
Inductive outcome : Type :=
| Alert (message : string)
| Post (data : jsval)
| Put (id : string) (data : jsval).

(** [const formData = { title: title.trim(), description: description.trim(), fields }] *)
Definition formData (title description : string) (fields : list jsval) : jsval :=
  JObj [("title", JStr (Str.trim title));
        ("description", JStr (Str.trim description));
        ("fields", JArr fields)].

Definition handleSave (form : option string) (title description : string)
  (fields : list jsval) : outcome :=
  if negb (JS.truthy (JStr (Str.trim title))) then Alert "Please enter a form title"
  else if (List.length fields =? 0)%nat then Alert "Please add at least one field"
  else
    match form with
    | Some id => Put id (formData title description fields)
    | None => Post (formData title description fields)
    end.

End FormBuilder.

(** ** [components/FormViewer.tsx] *)
Module FormViewer.

Inductive mode : Type := preview | fill.

(** [formData] is kept as the members of the object. *)
Definition handleFieldChange (fieldId : string) (value : jsval)
  (prev : list (string * jsval)) : list (string * jsval) :=
  JS.object_of_members (prev ++ [(fieldId, value)]).

(** [Array.isArray(value) ? value : []] for [value = formData[field.id] || ''] *)
Definition selectedValues (formData : list (string * jsval)) (fieldId : string)
  : list jsval :=
  match JS.or (Obj.member formData fieldId) (JStr "") with
  | JArr xs => xs
  | _ => []
  end.

(** [selectedValues.includes(option)] *)
Definition includes (xs : list jsval) (option : string) : bool :=
  existsb (fun v => Obj.is_string v option) xs.

(** The change handler of the box of [option]; [checked] is
    [e.target.checked]. *)
Definition checkbox_onChange (fieldId option : string) (checked : bool)
  (formData : list (string * jsval)) : list (string * jsval) :=
  let selected := selectedValues formData fieldId in
  handleFieldChange fieldId
    (JArr (if checked then (selected ++ [JStr option])%list
           else filter (fun v => negb (Obj.is_string v option)) selected))
    formData.

(** What the user does to a form: typing or choosing in an input of a field,
    which calls [handleFieldChange] with the text of the input, and clicking
    the box of an option, after which the box reports the opposite of what
    was displayed. *)
Inductive event : Type :=
| Input (fieldId value : string)
| Click (fieldId option : string).

Definition handle (formData : list (string * jsval)) (e : event)
  : list (string * jsval) :=
  match e with
  | Input fieldId value => handleFieldChange fieldId (JStr value) formData
  | Click fieldId option =>
      checkbox_onChange fieldId option
        (negb (includes (selectedValues formData fieldId) option)) formData
  end.

Definition events (formData : list (string * jsval)) (es : list event)
  : list (string * jsval) :=
  fold_left handle es formData.

(** The test of the filter in [handleSubmit]:
    [field.required && (!formData[field.id] || formData[field.id] === '')] *)
Definition missing (formData : list (string * jsval)) (field : jsval) : option bool :=
  match JS.get field "required" with
  | None => None
  | Some required =>
      if JS.truthy required then
        match JS.get field "id" with
        | None => None
        | Some id =>
            let answer := Obj.member formData (JS.ToString id) in
            Some (negb (JS.truthy answer) || Obj.is_string answer "")
        end
      else Some false
  end.

Inductive outcome : Type :=
| Nothing
| Alert (message : string)
| Submit (data : jsval).

(** [handleSubmit] on the fields of the form; [None] when it throws. *)
Definition handleSubmit (m : mode) (fields : list jsval)
  (formData : list (string * jsval)) (submitterName submitterEmail : string)
  : option outcome :=
  match m with
  | preview => Some Nothing
  | fill =>
      match filter_throw (missing formData) fields with
      | None => None
      | Some missingRows =>
          match map_throw (fun field => JS.get field "label") missingRows with
          | None => None
          | Some missingFields =>
              if (0 <? List.length missingFields)%nat
              then Some (Alert ("Please fill in the following required fields: "
                                ++ JS.join ", " missingFields))
              else Some (Submit
                           (JObj [("answers", JObj formData);
                                  ("submitterName",
                                   JS.or (JStr (Str.trim submitterName)) JUndefined);
                                  ("submitterEmail",
                                   JS.or (JStr (Str.trim submitterEmail)) JUndefined)]))
          end
      end
  end.

End FormViewer.

(** The times at which the fields of a list of edits were added. *)
Definition added (es : list FormBuilder.edit) : list Z :=
  flat_map (fun e => match e with FormBuilder.Add now => [now] | _ => [] end) es.

(** [field.id] of each field. *)
Definition field_ids (fields : list jsval) : list (option jsval) :=
  map (fun field => JS.get field "id") fields.

(** A field made by [addField] at the time [now], whatever was changed in
    it since. *)
Definition built (now : Z) (field : jsval) : Prop :=
  exists props,
    field = JObj props /\ ordered props
    /\ JS.assoc "id" props = Some (JStr ("field_" ++ JS.Number_toString now)).

(** A text without a line break. *)
Definition one_line (o : string) : Prop := ~ In "010"%char (list_ascii_of_string o).

(** The properties [JSON.stringify] writes: those that are not [undefined]. *)
Definition defined (kv : string * jsval) : bool :=
  match snd kv with JUndefined => false | _ => true end.

(** A field that does not stop [handleSubmit]: not required, or with an
    answer that is truthy. *)
Definition answered (formData : list (string * jsval)) (field : jsval) : Prop :=
  forall required id,
    JS.get field "required" = Some required -> JS.truthy required = true ->
    JS.get field "id" = Some id ->
    JS.truthy (Obj.member formData (JS.ToString id)) = true.

(** The clicks on the box of [option] of a field, and the typing in the
    field. *)
Definition clicks_on (fieldId option : string) (e : FormViewer.event) : bool :=
  match e with
  | FormViewer.Click k o => (k =? fieldId)%string && (o =? option)%string
  | FormViewer.Input _ _ => false
  end.

Definition types_in (fieldId : string) (e : FormViewer.event) : bool :=
  match e with
  | FormViewer.Input k _ => (k =? fieldId)%string
  | FormViewer.Click _ _ => false
  end.

(** [xs.find(p)] where [p] may throw: the first element [p] accepts. *)
Fixpoint find_throw {A : Type} (p : A -> option bool) (xs : list A) : option (option A) :=
  match xs with
  | [] => Some None
  | x :: rest =>
      match p x with
      | None => None
      | Some true => Some (Some x)
      | Some false => find_throw p rest
      end
  end.

(** ** [App.tsx] *)
Module App.

Inductive ViewType : Type :=
| forms_view | dashboard | create_form | edit_form | view_form | fill_form.

(** The two pieces of state; the setters called by one handler take effect
    together, before the next render. *)
Record state : Type := {
  currentView : ViewType;
  selectedForm : option jsval }.

Definition initial : state := {| currentView := forms_view; selectedForm := None |}.

(** The effect run when [forms] changes, with the [form] and [mode]
    parameters of the URL ([None] for a parameter that is not there) and the
    forms loaded ([None] before they are); [None] when it throws. *)
Definition url_effect (formId mode : option string) (forms : option (list jsval))
  (s : state) : option state :=
  match formId, forms with
  | Some id, Some loaded =>
      if JS.truthy (JStr id) then
        match find_throw
                (fun f => match JS.get f "id" with
                          | Some v => Some (Obj.is_string v id)
                          | None => None
                          end) loaded with
        | None => None
        | Some None => Some s
        | Some (Some form) =>
            if JS.truthy form
            then Some {| currentView :=
                           match mode with
                           | Some m => if (m =? "fill")%string then fill_form else view_form
                           | None => view_form
                           end;
                         selectedForm := Some form |}
            else Some s
        end
      else Some s
  | _, _ => Some s
  end.

(** The views [handleViewChange] is given by the navigation. *)
Inductive destination : Type := to_forms | to_dashboard | to_create_form.

Definition handleViewChange (view : destination) (s : state) : state :=
  {| currentView := match view with
                    | to_forms => forms_view
                    | to_dashboard => dashboard
                    | to_create_form => create_form
                    end;
     selectedForm := None |}.

Definition handleFormSave (s : state) : state :=
  {| currentView := forms_view; selectedForm := None |}.

Definition handleEditForm (form : jsval) (s : state) : state :=
  {| currentView := edit_form; selectedForm := Some form |}.

Definition handleViewForm (form : jsval) (s : state) : state :=
  {| currentView := view_form; selectedForm := Some form |}.

Definition handleFillForm (form : jsval) (s : state) : state :=
  {| currentView := fill_form; selectedForm := Some form |}.

Definition handleDeleteForm (s : state) : state := s.

Definition handleBack (s : state) : state :=
  {| currentView := forms_view; selectedForm := None |}.

Inductive event : Type :=
| UrlEffect (formId mode : option string) (forms : option (list jsval))
| ViewChange (view : destination)
| FormSave
| EditForm (form : jsval)
| ViewForm (form : jsval)
| FillForm (form : jsval)
| DeleteForm
| Back.

Definition step (s : state) (e : event) : option state :=
  match e with
  | UrlEffect formId mode forms => url_effect formId mode forms s
  | ViewChange view => Some (handleViewChange view s)
  | FormSave => Some (handleFormSave s)
  | EditForm form => Some (handleEditForm form s)
  | ViewForm form => Some (handleViewForm form s)
  | FillForm form => Some (handleFillForm form s)
  | DeleteForm => Some (handleDeleteForm s)
  | Back => Some (handleBack s)
  end.

Fixpoint run (s : state) (es : list event) : option state :=
  match es with
  | [] => Some s
  | e :: rest =>
      match step s e with
      | Some s' => run s' rest
      | None => None
      end
  end.

(** What [renderCurrentView] returns: the component and its properties, or
    [null]. *)
Inductive screen : Type :=
| LoadingSpinner
| ErrorMessage (message : string)
| DashboardScreen
| BuilderScreen (form : option jsval)
| ViewerScreen (form : jsval) (mode : FormViewer.mode)
| FormListScreen
| null.

Definition renderCurrentView (formsLoading : bool) (formsError : option string)
  (s : state) : screen :=
  let on_forms := match currentView s with forms_view => true | _ => false end in
  let with_form (render : jsval -> screen) :=
    match selectedForm s with
    | Some form => if JS.truthy form then render form else null
    | None => null
    end in
  let failed :=
    match formsError with
    | Some message => if JS.truthy (JStr message) && on_forms then Some message else None
    | None => None
    end in
  if formsLoading && on_forms then LoadingSpinner
  else
    match failed with
    | Some message => ErrorMessage message
    | None =>
        match currentView s with
        | dashboard => DashboardScreen
        | create_form => BuilderScreen None
        | edit_form => with_form (fun form => BuilderScreen (Some form))
        | view_form => with_form (fun form => ViewerScreen form FormViewer.preview)
        | fill_form => with_form (fun form => ViewerScreen form FormViewer.fill)
        | forms_view => FormListScreen
        end
    end.

(** The forms the handlers are given are forms of the list: objects. *)
Definition of_forms (e : event) : Prop :=
  match e with
  | EditForm form | ViewForm form | FillForm form => exists props, form = JObj props
  | _ => True
  end.

End App.

(** ** [hooks/useApi.ts] *)
Module useApi.


End useApi.



(** ** [components/Dashboard.tsx] *)

(** [v === w] for two values taken from two JSON documents: primitives that
    are equal; an object or an array of one document is never one of the
    other. *)
Definition same (v w : jsval) : bool :=
  match v, w with
  | JUndefined, JUndefined | JNull, JNull => true
  | JBool a, JBool b => Bool.eqb a b
  | JNum a, JNum b => (a =? b)%Z
  | JStr a, JStr b => (a =? b)%string
  | _, _ => false
  end.

Module Dashboard.

(** [allResponses?.filter(r => r.formId === form.id).length || 0];
    [allResponses] is [None] before it is loaded. *)
Definition responseCount (allResponses : option (list jsval)) (form : jsval) : option Z :=
  match allResponses with
  | None => Some 0
  | Some responses =>
      match filter_throw
              (fun r => match JS.get r "formId", JS.get form "id" with
                        | Some formId, Some id => Some (same formId id)
                        | _, _ => None
                        end) responses with
      | Some rows => Some (Z.of_nat (List.length rows))
      | None => None
      end
  end.

(** [Math.max(...forms.map(f => ...), 1)] *)
Definition maxResponses (allResponses : option (list jsval)) (forms : list jsval)
  : option Z :=
  match map_throw (responseCount allResponses) forms with
  | Some counts => Some (fold_right Z.max 1 counts)
  | None => None
  end.

End Dashboard.

(** A listed response that names the form [id], and a listed form that
    carries the id. *)
Definition of_form (id : string) (response : jsval) : bool :=
  match JS.get response "formId" with
  | Some v => Obj.is_string v id
  | None => false
  end.

Definition has_id (id : string) (form : jsval) : bool :=
  match JS.get form "id" with
  | Some v => Obj.is_string v id
  | None => false
  end.

(** The requests of a run with the replies they got. *)
Fixpoint replies (db : Database) (reqs : list request) : list (request * reply) :=
  match reqs with
  | [] => []
  | req :: rest => (req, fst (serve db req)) :: replies (snd (serve db req)) rest
  end.

Definition status_is (status : Z) (r : reply) : bool :=
  match r with
  | Json s _ => s =? status
  | _ => false
  end.

(** The replies that report a form created, a form deleted, a response
    stored. *)
Definition created (rr : request * reply) : bool :=
  match fst rr with
  | CreateForm _ _ _ _ => status_is 201 (snd rr)
  | _ => false
  end.

Definition deleted (rr : request * reply) : bool :=
  match fst rr with
  | DeleteForm _ => status_is 200 (snd rr)
  | _ => false
  end.

Definition submitted (rr : request * reply) : bool :=
  match fst rr with
  | SubmitResponse _ _ _ _ _ => status_is 201 (snd rr)
  | _ => false
  end.

(** A reply that reports an error: a status from 400 on. *)
Definition refused (r : reply) : bool :=
  match r with
  | Json s _ => 400 <=? s
  | _ => false
  end.

(* ===================================================================== *)
(** * Part II. Lemmas *)
(* ===================================================================== *)

(** ** Strings *)

Lemma append_assoc (a b c : string) : ((a ++ b) ++ c = a ++ (b ++ c))%string.
Proof. induction a as [|x a IH]; simpl; [reflexivity | now rewrite IH]. Qed.

Lemma append_nil_r (a : string) : (a ++ "" = a)%string.
Proof. induction a as [|x a IH]; simpl; [reflexivity | now rewrite IH]. Qed.

Lemma length_append (a b : string) :
  String.length (a ++ b) = (String.length a + String.length b)%nat.
Proof. induction a as [|x a IH]; simpl; [reflexivity | now rewrite IH]. Qed.

(** ** JSON text round trip *)

Module JSON_facts.
Import JS.

Lemma parse_quote_char (c : ascii) (r : string) :
  parse_string_body (quote_char c ++ r) = cons_char c (parse_string_body r).
Proof.
  destruct c as [[] [] [] [] [] [] [] []]; reflexivity.
Qed.

Lemma parse_quote_chars (s rest : string) :
  parse_string_body (quote_chars s ++ String dquote rest) = Some (s, rest).
Proof.
  induction s as [|c s IH]; simpl.
  - reflexivity.
  - rewrite append_assoc, parse_quote_char, IH. reflexivity.
Qed.

Lemma delimited_no_digit rest :
  delimited rest ->
  match rest with "" => True | String c _ => digit_of_char c = None end.
Proof.
  destruct rest as [|c r]; simpl; [trivial|].
  unfold digit_of_char. intros [H | [H | H]]; rewrite H; reflexivity.
Qed.

Lemma delimited_no_fraction rest : delimited rest -> starts_fraction rest = false.
Proof.
  destruct rest as [|c r]; simpl; [trivial|].
  intros [H | [H | H]]; rewrite H; reflexivity.
Qed.

Lemma delimited_skip_ws rest : delimited rest -> skip_ws rest = rest.
Proof.
  destruct rest as [|c r]; simpl; [trivial|].
  unfold is_ws. intros [H | [H | H]]; rewrite H; reflexivity.
Qed.

Lemma read_digits_string_of_uint (d : Decimal.uint) (rest : string) :
  match rest with "" => True | String c _ => digit_of_char c = None end ->
  read_digits (NilEmpty.string_of_uint d ++ rest) = (d, rest).
Proof.
  intros Hrest.
  induction d as [|d IH|d IH|d IH|d IH|d IH|d IH|d IH|d IH|d IH|d IH];
    simpl; try (rewrite IH; reflexivity).
  destruct rest as [|c r]; simpl; [reflexivity|]. now rewrite Hrest.
Qed.

Lemma to_uint_no_leading_zero (p : positive) (u : Decimal.uint) :
  Pos.to_uint p <> Decimal.D0 u.
Proof.
  intros H.
  pose proof (DecimalPos.Unsigned.to_of (Pos.to_uint p)) as Hn.
  rewrite DecimalPos.Unsigned.of_to in Hn. simpl in Hn.
  rewrite H in Hn. unfold Decimal.unorm in Hn. simpl in Hn.
  destruct (Decimal.nzhead u) eqn:E.
  - injection Hn as Hn. subst u.
    apply (DecimalPos.Unsigned.to_uint_nonzero p). exact H.
  - rewrite <- E in Hn. symmetry in Hn. revert Hn. apply DecimalFacts.nzhead_nonzero.
  - discriminate. - discriminate. - discriminate. - discriminate.
  - discriminate. - discriminate. - discriminate. - discriminate.
  - discriminate.
Qed.

Lemma parse_number_pos (p : positive) (rest : string) :
  Z.pos p <= 9007199254740991 ->
  delimited rest ->
  parse_number (NilEmpty.string_of_uint (Pos.to_uint p) ++ rest)
  = Some (JNum (Z.pos p), rest).
Proof.
  intros Hsafe Hd. apply Z.ltb_ge in Hsafe.
  pose proof (to_uint_no_leading_zero p) as Hz.
  pose proof (DecimalPos.Unsigned.to_uint_nonnil p) as Hnil.
  pose proof (DecimalPos.Unsigned.of_to p) as Hof.
  pose proof (delimited_no_digit rest Hd) as Hnd.
  pose proof (delimited_no_fraction rest Hd) as Hnf.
  unfold parse_number.
  destruct (Pos.to_uint p) as [|u|u|u|u|u|u|u|u|u|u] eqn:E;
    [congruence | exfalso; eapply Hz; reflexivity | ..];
    simpl; rewrite read_digits_string_of_uint by exact Hnd;
    rewrite Hnf; unfold N.of_uint; rewrite Hof;
    cbn [Z.of_N]; rewrite Hsafe; reflexivity.
Qed.

Lemma parse_number_neg (p : positive) (rest : string) :
  Z.pos p <= 9007199254740991 ->
  delimited rest ->
  parse_number (String "-" (NilEmpty.string_of_uint (Pos.to_uint p) ++ rest))
  = Some (JNum (Z.neg p), rest).
Proof.
  intros Hsafe Hd. apply Z.ltb_ge in Hsafe.
  pose proof (to_uint_no_leading_zero p) as Hz.
  pose proof (DecimalPos.Unsigned.to_uint_nonnil p) as Hnil.
  pose proof (DecimalPos.Unsigned.of_to p) as Hof.
  pose proof (delimited_no_digit rest Hd) as Hnd.
  pose proof (delimited_no_fraction rest Hd) as Hnf.
  unfold parse_number.
  destruct (Pos.to_uint p) as [|u|u|u|u|u|u|u|u|u|u] eqn:E;
    [congruence | exfalso; eapply Hz; reflexivity | ..];
    simpl; rewrite read_digits_string_of_uint by exact Hnd;
    rewrite Hnf; unfold N.of_uint; rewrite Hof;
    cbn [Z.of_N]; rewrite Hsafe; reflexivity.
Qed.

Lemma Number_toString_pos (p : positive) :
  Number_toString (Z.pos p) = NilEmpty.string_of_uint (Pos.to_uint p).
Proof.
  unfold Number_toString. simpl. unfold NilZero.string_of_uint.
  pose proof (DecimalPos.Unsigned.to_uint_nonnil p).
  destruct (Pos.to_uint p); congruence.
Qed.

Lemma Number_toString_neg (p : positive) :
  Number_toString (Z.neg p) = String "-" (NilEmpty.string_of_uint (Pos.to_uint p)).
Proof.
  unfold Number_toString. simpl. unfold NilZero.string_of_uint.
  pose proof (DecimalPos.Unsigned.to_uint_nonnil p).
  destruct (Pos.to_uint p); congruence.
Qed.

Lemma parse_number_toString (n : Z) (rest : string) :
  Z.abs n <= 9007199254740991 ->
  delimited rest ->
  parse_number (Number_toString n ++ rest) = Some (JNum n, rest).
Proof.
  intros Hsafe Hd. destruct n as [|p|p].
  - unfold Number_toString, parse_number. simpl.
    change (read_digits rest) with (read_digits (NilEmpty.string_of_uint Decimal.Nil ++ rest)).
    rewrite read_digits_string_of_uint by (now apply delimited_no_digit).
    now rewrite delimited_no_fraction.
  - rewrite Number_toString_pos. now apply parse_number_pos.
  - rewrite Number_toString_neg. simpl. apply parse_number_neg; [exact Hsafe | exact Hd].
Qed.

Ltac decide_codes :=
  repeat match goal with
         | |- context [(?a =? ?b)%N] => destruct (N.eqb_spec a b); [lia|]
         end.

Lemma parse_value_numeric_head fuel c r :
  numeric_head c -> parse_value (S fuel) (String c r) = parse_number (String c r).
Proof.
  unfold numeric_head. intros H.
  cbn [parse_value skip_ws]. unfold is_ws.
  decide_codes. cbn [orb]. decide_codes. reflexivity.
Qed.

Lemma string_of_uint_head (u : Decimal.uint) :
  u <> Decimal.Nil ->
  exists c r, NilEmpty.string_of_uint u = String c r /\ (48 <= N_of_ascii c <= 57)%N.
Proof.
  destruct u; [congruence | ..]; intros _; simpl;
    eexists; eexists; (split; [reflexivity | simpl; lia]).
Qed.

Lemma Number_toString_head (n : Z) :
  exists c r, Number_toString n = String c r /\ numeric_head c.
Proof.
  unfold numeric_head. destruct n as [|p|p].
  - exists "0"%char, ""%string. split; [reflexivity | simpl; lia].
  - rewrite Number_toString_pos.
    destruct (string_of_uint_head (Pos.to_uint p)) as (c & r & E & H);
      [apply DecimalPos.Unsigned.to_uint_nonnil|].
    exists c, r. split; [exact E | right; exact H].
  - rewrite Number_toString_neg. exists "-"%char. eexists. split; [reflexivity|].
    left. reflexivity.
Qed.

(** A serialised value never starts with white space or a closing bracket. *)
Lemma stringify_head (v : jsval) :
  exists c r, stringify v = String c r /\ is_ws c = false
              /\ (N_of_ascii c =? 93)%N = false /\ (N_of_ascii c =? 125)%N = false.
Proof.
  destruct v as [| |[]|n|s|xs|props];
    try (eexists; eexists; split; [reflexivity | repeat split; reflexivity ]).
  destruct (Number_toString_head n) as (c & r & E & H).
  exists c, r. split; [exact E|]. unfold is_ws, numeric_head in *.
  repeat split; decide_codes; reflexivity.
Qed.

Lemma json_value_arr xs : json_value (JArr xs) <-> Forall json_value xs.
Proof.
  simpl. induction xs as [|x xs IH].
  - split; auto.
  - split.
    + intros [H1 H2]. constructor; [exact H1 | now apply IH].
    + intros H. inversion H; subst. split; [assumption | now apply IH].
Qed.

Lemma json_value_obj props :
  json_value (JObj props) <->
  Forall (fun kv => json_value (snd kv)) props /\ object_of_members props = props.
Proof.
  simpl.
  assert (E : (fix all (l : list (string * jsval)) : Prop :=
                 match l with [] => True | kv :: r => json_value (snd kv) /\ all r end) props
              <-> Forall (fun kv => json_value (snd kv)) props).
  { induction props as [|kv r IH].
    - split; auto.
    - split.
      + intros [H1 H2]. constructor; [exact H1 | now apply IH].
      + intros H. inversion H; subst. split; [assumption | now apply IH]. }
  tauto.
Qed.

Lemma size_arr xs : size (JArr xs) = S (elements_size xs).
Proof. reflexivity. Qed.

Lemma size_obj props : size (JObj props) = S (members_size props).
Proof. reflexivity. Qed.

Lemma stringify_arr xs :
  stringify (JArr xs) = ("[" ++ String.concat "," (map stringify xs) ++ "]")%string.
Proof. reflexivity. Qed.

Lemma stringify_obj props :
  Forall (fun kv => json_value (snd kv)) props ->
  stringify (JObj props) = ("{" ++ String.concat "," (map member_text props) ++ "}")%string.
Proof.
  intros H. cbn [stringify]. do 3 f_equal.
  induction H as [|[k v] r Hv Hr IH]; [reflexivity|].
  simpl in Hv. cbn [map]. rewrite <- IH.
  destruct v; [destruct Hv | ..]; reflexivity.
Qed.

Lemma parse_elements_stringify (xs : list jsval) :
  xs <> [] -> Forall round_trips xs -> Forall json_value xs ->
  forall fuel rest, (elements_size xs <= fuel)%nat ->
    parse_elements fuel (String.concat "," (map stringify xs) ++ String "]" rest)
    = Some (xs, rest).
Proof.
  induction xs as [|x xs IH]; [congruence|].
  intros _ Hrt Hjs fuel rest Hfuel.
  inversion Hrt as [|? ? Hx Hxs]; subst. inversion Hjs as [|? ? Jx Jxs]; subst.
  cbn [elements_size] in Hfuel.
  destruct fuel as [|fuel]; [lia|].
  cbn [parse_elements].
  destruct xs as [|y ys].
  - cbn [map String.concat].
    rewrite (Hx Jx fuel (String "]" rest)); [| lia | simpl; auto].
    reflexivity.
  - change (String.concat "," (map stringify (x :: y :: ys)))
      with (stringify x ++ "," ++ String.concat "," (map stringify (y :: ys)))%string.
    rewrite append_assoc.
    change (("," ++ String.concat "," (map stringify (y :: ys))) ++ String "]" rest)%string
      with (String "," (String.concat "," (map stringify (y :: ys)) ++ String "]" rest)).
    rewrite (Hx Jx fuel); [| lia | simpl; auto].
    cbn [skip_ws]. change (is_ws ",") with false. cbn iota.
    change (N_of_ascii "," =? 44)%N with true. cbn iota.
    rewrite IH; [reflexivity | congruence | assumption | assumption | lia].
Qed.

Lemma parse_members_stringify (props : list (string * jsval)) :
  props <> [] -> Forall (fun kv => round_trips (snd kv)) props ->
  Forall (fun kv => json_value (snd kv)) props ->
  forall fuel rest, (members_size props <= fuel)%nat ->
    parse_members fuel (String.concat "," (map member_text props) ++ String "}" rest)
    = Some (props, rest).
Proof.
  induction props as [|[k v] ps IH]; [congruence|].
  intros _ Hrt Hjs fuel rest Hfuel.
  inversion Hrt as [|? ? Hx Hxs]; subst. inversion Hjs as [|? ? Jx Jxs]; subst.
  cbn [members_size snd] in Hfuel. cbn [snd] in Hx, Jx.
  destruct fuel as [|fuel]; [lia|].
  cbn [parse_members].
  assert (Hm : forall tail,
             (member_text (k, v) ++ tail)%string
             = String dquote (quote_chars k ++ String dquote (String ":" (stringify v ++ tail)))).
  { intros tail. unfold member_text, QuoteJSONString. cbn [fst snd].
    cbn [append]. f_equal. rewrite !append_assoc. reflexivity. }
  destruct ps as [|q qs].
  - cbn [map String.concat]. rewrite Hm.
    cbn [skip_ws]. change (is_ws dquote) with false. cbn iota.
    cbn [head_is]. change (N_of_ascii dquote =? 34)%N with true. cbn iota.
    rewrite parse_quote_chars.
    cbn [skip_ws]. change (is_ws ":") with false. cbn iota.
    cbn [head_is]. change (N_of_ascii ":" =? 58)%N with true. cbn iota.
    rewrite (Hx Jx fuel (String "}" rest)); [| lia | simpl; auto].
    reflexivity.
  - change (String.concat "," (map member_text ((k, v) :: q :: qs)))
      with (member_text (k, v) ++ "," ++ String.concat "," (map member_text (q :: qs)))%string.
    rewrite append_assoc. rewrite Hm.
    change (("," ++ String.concat "," (map member_text (q :: qs))) ++ String "}" rest)%string
      with (String "," (String.concat "," (map member_text (q :: qs)) ++ String "}" rest)).
    cbn [skip_ws]. change (is_ws dquote) with false. cbn iota.
    cbn [head_is]. change (N_of_ascii dquote =? 34)%N with true. cbn iota.
    rewrite parse_quote_chars.
    cbn [skip_ws]. change (is_ws ":") with false. cbn iota.
    cbn [head_is]. change (N_of_ascii ":" =? 58)%N with true. cbn iota.
    rewrite (Hx Jx fuel); [| lia | simpl; auto].
    cbn [skip_ws]. change (is_ws ",") with false. cbn iota.
    change (N_of_ascii "," =? 44)%N with true. cbn iota.
    rewrite IH; [reflexivity | congruence | assumption | assumption | lia].
Qed.

Lemma parse_value_stringify (v : jsval) : round_trips v.
Proof.
  induction v as [| |b|n|s|xs IH|props IH] using jsval_ind; unfold round_trips;
    intros Hjs fuel rest Hfuel Hd.
  - destruct Hjs.
  - destruct fuel as [|fuel]; [simpl in Hfuel; lia | reflexivity].
  - destruct fuel as [|fuel]; [simpl in Hfuel; lia | destruct b; reflexivity].
  - destruct fuel as [|fuel]; [simpl in Hfuel; lia |].
    cbn [stringify].
    destruct (Number_toString_head n) as (c & r & E & H).
    pose proof (parse_number_toString n rest Hjs Hd) as Hp.
    rewrite E in *. cbn [append] in *.
    rewrite parse_value_numeric_head by exact H. exact Hp.
  - destruct fuel as [|fuel]; [simpl in Hfuel; lia |].
    cbn [stringify]. unfold QuoteJSONString. cbn [append].
    rewrite append_assoc. cbn [append].
    cbn [parse_value skip_ws]. change (is_ws dquote) with false. cbn iota.
    change (N_of_ascii dquote) with 34%N. cbn [N.eqb Pos.eqb]. cbn iota.
    rewrite parse_quote_chars. reflexivity.
  - apply json_value_arr in Hjs. rewrite size_arr in Hfuel.
    destruct fuel as [|fuel]; [lia|].
    rewrite stringify_arr. cbn [append]. rewrite append_assoc.
    cbn [append parse_value skip_ws]. change (is_ws "[") with false. cbn iota.
    change (N_of_ascii "[") with 91%N. cbn [N.eqb Pos.eqb]. cbn iota.
    destruct xs as [|x xs].
    + reflexivity.
    + assert (Hh : head_is 93 (skip_ws (String.concat "," (map stringify (x :: xs))
                                         ++ String "]" rest)) = None).
      { destruct (stringify_head x) as (c & r & E & Hws & H93 & _).
        cbn [map String.concat].
        destruct (map stringify xs); rewrite E; cbn [append skip_ws];
          rewrite Hws; cbn [head_is]; rewrite H93; reflexivity. }
      rewrite Hh.
      rewrite parse_elements_stringify;
        [reflexivity | congruence | exact IH | exact Hjs | lia].
  - apply json_value_obj in Hjs. destruct Hjs as [Hjs Hcanon].
    rewrite size_obj in Hfuel.
    destruct fuel as [|fuel]; [lia|].
    rewrite stringify_obj by exact Hjs. cbn [append]. rewrite append_assoc.
    cbn [append parse_value skip_ws]. change (is_ws "{") with false. cbn iota.
    change (N_of_ascii "{") with 123%N. cbn [N.eqb Pos.eqb]. cbn iota.
    destruct props as [|kv ps].
    + reflexivity.
    + assert (Hh : head_is 125 (skip_ws (String.concat "," (map member_text (kv :: ps))
                                          ++ String "}" rest)) = None).
      { cbn [map String.concat].
        destruct (map member_text ps); reflexivity. }
      rewrite Hh.
      rewrite parse_members_stringify;
        [rewrite Hcanon; reflexivity | congruence | exact IH | exact Hjs | lia].
Qed.

Lemma size_le_length (v : jsval) :
  json_value v -> (size v <= String.length (stringify v))%nat.
Proof.
  induction v as [| |b|n|s|xs IH|props IH] using jsval_ind; intros Hjs.
  - destruct Hjs.
  - simpl. lia.
  - destruct b; simpl; lia.
  - cbn [stringify size]. destruct (Number_toString_head n) as (c & r & E & _).
    rewrite E. simpl. lia.
  - simpl. lia.
  - apply json_value_arr in Hjs. rewrite size_arr, stringify_arr.
    cbn [append String.length]. rewrite length_append. cbn [String.length].
    assert (H : xs <> [] ->
                (S (elements_size xs) <= String.length (String.concat "," (map stringify xs)) + 2)%nat).
    { clear -IH Hjs. induction xs as [|x xs IHxs]; [congruence|]. intros _.
      inversion IH as [|? ? Hx Hxs]; subst. inversion Hjs as [|? ? Jx Jxs]; subst.
      specialize (Hx Jx). cbn [elements_size].
      destruct xs as [|y ys].
      - cbn [map String.concat elements_size]. lia.
      - change (String.concat "," (map stringify (x :: y :: ys)))
          with (stringify x ++ "," ++ String.concat "," (map stringify (y :: ys)))%string.
        rewrite !length_append. cbn [String.length].
        specialize (IHxs Hxs Jxs ltac:(congruence)). lia. }
    destruct xs as [|x xs]; [simpl; lia|].
    specialize (H ltac:(congruence)). lia.
  - apply json_value_obj in Hjs. destruct Hjs as [Hjs _].
    rewrite size_obj, stringify_obj by exact Hjs.
    cbn [append String.length]. rewrite length_append. cbn [String.length].
    assert (H : props <> [] ->
                (S (members_size props) <= String.length (String.concat "," (map member_text props)) + 2)%nat).
    { clear -IH Hjs. induction props as [|[k v] ps IHps]; [congruence|]. intros _.
      inversion IH as [|? ? Hx Hxs]; subst. inversion Hjs as [|? ? Jx Jxs]; subst.
      cbn [snd] in Hx, Jx. specialize (Hx Jx). cbn [members_size snd].
      assert (Hm : (S (size v) <= String.length (member_text (k, v)))%nat).
      { unfold member_text, QuoteJSONString. cbn [fst snd].
        cbn [append String.length]. rewrite !length_append. cbn [String.length]. lia. }
      destruct ps as [|q qs].
      - cbn [map String.concat members_size]. lia.
      - change (String.concat "," (map member_text ((k, v) :: q :: qs)))
          with (member_text (k, v) ++ "," ++ String.concat "," (map member_text (q :: qs)))%string.
        rewrite !length_append. cbn [String.length].
        specialize (IHps Hxs Jxs ltac:(congruence)). lia. }
    destruct props as [|kv ps]; [simpl; lia|].
    specialize (H ltac:(congruence)). lia.
Qed.

(** [JSON.parse(JSON.stringify(v))] is [v] for every JSON value. *)
Lemma parse_stringify (v : jsval) :
  json_value v -> parse (stringify v) = Some v.
Proof.
  intros Hjs. unfold parse.
  pose proof (parse_value_stringify v Hjs (String.length (stringify v)) ""
                (size_le_length v Hjs) I) as H.
  rewrite append_nil_r in H. rewrite H. reflexivity.
Qed.

End JSON_facts.

(** ** Byte-wise order of texts *)

Lemma leb_refl (a : string) : (a <=? a)%string = true.
Proof.
  destruct (String.leb_total a a); assumption.
Qed.

Lemma In_firstn {A : Type} (n : nat) (l : list A) (a : A) : In a (firstn n l) -> In a l.
Proof.
  intros H. rewrite <- (firstn_skipn n l). apply in_or_app. now left.
Qed.


Lemma leb_trans (a b c : string) :
  (a <=? b)%string = true -> (b <=? c)%string = true -> (a <=? c)%string = true.
Proof.
  unfold String.leb. intros Hab Hbc.
  destruct (String.compare a b) eqn:Eab; try discriminate;
    destruct (String.compare b c) eqn:Ebc; try discriminate.
  - apply String.compare_eq_iff in Eab. subst. now rewrite Ebc.
  - apply String.compare_eq_iff in Eab. subst. now rewrite Ebc.
  - apply String.compare_eq_iff in Ebc. subst. now rewrite Eab.
  - assert (H : String.compare a c = Lt).
    { apply String_as_OT.cmp_lt. eapply String_as_OT.lt_trans;
        apply String_as_OT.cmp_lt; eassumption. }
    now rewrite H.
Qed.

Lemma leb_false_total (a b : string) :
  (a <=? b)%string = false -> (b <=? a)%string = true.
Proof.
  intros H. destruct (String.leb_total a b) as [H1 | H1]; congruence.
Qed.

(** ** [ORDER BY ... DESC] *)

Section order_by_facts.
Context {A : Type}.
Variable key : A -> string.

Lemma insert_desc_perm (x : A) (l : list A) :
  Permutation (Sql.insert_desc key x l) (x :: l).
Proof.
  induction l as [|y l IH]; simpl.
  - apply Permutation_refl.
  - destruct (key y <=? key x)%string.
    + apply Permutation_refl.
    + eapply perm_trans; [apply perm_skip, IH | apply perm_swap].
Qed.

Lemma order_by_desc_perm (l : list A) : Permutation (Sql.order_by_desc key l) l.
Proof.
  induction l as [|x l IH]; simpl.
  - apply perm_nil.
  - eapply perm_trans; [apply insert_desc_perm | apply perm_skip, IH].
Qed.

Lemma insert_desc_descending (x : A) (l : list A) :
  descending key l -> descending key (Sql.insert_desc key x l).
Proof.
  unfold descending. induction l as [|y l IH]; simpl; intros Hs.
  - constructor; constructor.
  - inversion Hs as [|? ? Hl Hy]; subst.
    destruct (key y <=? key x)%string eqn:E.
    + constructor; [exact Hs|]. constructor; [exact E|].
      eapply Forall_impl; [|exact Hy]. simpl. intros z Hz.
      eapply leb_trans; eassumption.
    + constructor; [now apply IH|].
      eapply Permutation_Forall.
      * apply Permutation_sym, insert_desc_perm.
      * constructor; [now apply leb_false_total | exact Hy].
Qed.

Lemma order_by_desc_descending (l : list A) :
  descending key (Sql.order_by_desc key l).
Proof.
  induction l as [|x l IH]; simpl.
  - constructor.
  - now apply insert_desc_descending.
Qed.

(** Stability: the rows that carry one given key keep their scan order. *)
Lemma insert_desc_stable (t : string) (x : A) (l : list A) :
  filter (fun r => (key r =? t)%string) (Sql.insert_desc key x l)
  = filter (fun r => (key r =? t)%string) (x :: l).
Proof.
  induction l as [|y l IH]; [reflexivity|].
  cbn [Sql.insert_desc].
  destruct (key y <=? key x)%string eqn:E; [reflexivity|].
  cbn [filter] in *. rewrite IH.
  destruct (String.eqb_spec (key x) t) as [Hx|Hx];
    destruct (String.eqb_spec (key y) t) as [Hy|Hy]; try reflexivity.
  subst t. rewrite Hy, leb_refl in E. discriminate.
Qed.

Lemma order_by_desc_stable (t : string) (l : list A) :
  filter (fun r => (key r =? t)%string) (Sql.order_by_desc key l)
  = filter (fun r => (key r =? t)%string) l.
Proof.
  induction l as [|x l IH]; [reflexivity|].
  cbn [Sql.order_by_desc]. rewrite insert_desc_stable.
  cbn [filter]. now rewrite IH.
Qed.


End order_by_facts.

(** ** Division of counts and [toFixed(1)] *)

Module Number_facts.
Import Number.

Lemma round_half_even_error (num den : Z) :
  0 < den -> 0 <= num ->
  2 * Z.abs (round_half_even num den * den - num) <= den.
Proof.
  intros Hden Hnum. unfold round_half_even.
  pose proof (Z.div_mod num den ltac:(lia)) as Hdm.
  pose proof (Z.mod_pos_bound num den Hden) as Hr.
  destruct (2 * (num mod den) <? den) eqn:E1.
  - apply Z.ltb_lt in E1. lia.
  - apply Z.ltb_ge in E1.
    destruct (den <? 2 * (num mod den)) eqn:E2.
    + apply Z.ltb_lt in E2. lia.
    + apply Z.ltb_ge in E2. destruct (Z.even (num / den)); lia.
Qed.

Lemma divide_scale (a b : Z) :
  0 < a < 2 ^ 53 -> 0 < b < 2 ^ 53 ->
  exists m k, divide a b = (m, k) /\ 0 <= k /\ 2 ^ 52 * b <= a * 2 ^ k
              /\ 2 * Z.abs (m * b - a * 2 ^ k) <= b.
Proof.
  intros Ha Hb. unfold divide.
  destruct (Z.eqb_spec a 0) as [E|_]; [lia|].
  pose proof (Z.log2_spec a ltac:(lia)) as [La1 La2].
  pose proof (Z.log2_spec b ltac:(lia)) as [Lb1 Lb2].
  pose proof (Z.log2_nonneg a) as Hla. pose proof (Z.log2_nonneg b) as Hlb.
  assert (Hla52 : Z.log2 a <= 52).
  { apply Z.lt_succ_r. apply (Z.pow_lt_mono_r_iff 2); lia. }
  set (la := Z.log2 a) in *. set (lb := Z.log2 b) in *.
  set (k0 := 52 - (la - lb)).
  assert (Hk0 : 0 <= k0) by (unfold k0; lia).
  assert (Hlow : 2 ^ 51 * b < a * 2 ^ k0).
  { apply Z.lt_le_trans with (2 ^ 51 * 2 ^ Z.succ lb); [nia|].
    rewrite <- Z.pow_add_r by lia.
    replace (51 + Z.succ lb) with (la + k0) by (unfold k0; lia).
    rewrite Z.pow_add_r by lia. nia. }
  eexists; eexists; split; [reflexivity|].
  destruct (a * 2 ^ k0 / b <? 2 ^ 52) eqn:E.
  - split. { lia. } split.
    + rewrite Z.pow_add_r by lia. change (2 ^ 1) with 2. lia.
    + apply round_half_even_error; [lia|]. apply Z.mul_nonneg_nonneg; [lia|].
      apply Z.pow_nonneg; lia.
  - apply Z.ltb_ge in E. split. { lia. } split.
    + pose proof (Z.mul_div_le (a * 2 ^ k0) b ltac:(lia)). nia.
    + apply round_half_even_error; [lia|]. apply Z.mul_nonneg_nonneg; [lia|].
      apply Z.pow_nonneg; lia.
Qed.

Lemma toFixed1_nearest (a b : Z) :
  0 <= a < 2 ^ 48 -> 0 < b < 2 ^ 53 ->
  exists n, 0 <= n
    /\ toFixed1 (divide a b)
       = (JS.Number_toString (n / 10) ++ "." ++ JS.Number_toString (n mod 10))%string
    /\ 2 * Z.abs (10 * a - n * b) <= b.
Proof.
  intros Ha Hb.
  destruct (Z.eq_dec a 0) as [E|E].
  - subst a. exists 0. split; [lia|]. split; [reflexivity | lia].
  - destruct (divide_scale a b ltac:(lia) Hb) as (m & k & Hd & Hk & Hscale & Herr).
    rewrite Hd. unfold toFixed1.
    set (P := 2 ^ k) in *.
    assert (HP : 0 < P) by (apply Z.pow_pos_nonneg; lia).
    replace (2 ^ (k + 1)) with (2 * P)
      by (unfold P; rewrite Z.pow_add_r by lia; change (2 ^ 1) with 2; lia).
    set (n := (20 * m + P) / (2 * P)).
    assert (Hm : 0 <= m) by nia.
    pose proof (Z.div_mod (20 * m + P) (2 * P) ltac:(lia)) as Hdm.
    pose proof (Z.mod_pos_bound (20 * m + P) (2 * P) ltac:(lia)) as Hr.
    fold n in Hdm.
    exists n. split; [apply Z.div_pos; lia|]. split; [reflexivity|].
    assert (H10 : 10 * b < P) by nia.
    assert (Hlo : - (P + 10) * b <= 2 * P * (10 * a - n * b)) by nia.
    assert (Hhi : 2 * P * (10 * a - n * b) < (P + 10) * b) by nia.
    assert (- b <= 2 * (10 * a - n * b) <= b) by (split; nia). lia.
Qed.

(** [divide] is the IEEE 754 binary64 quotient: here checked against the
    standard library's [SFdiv] on all pairs of small counts and at the ends
    of the range. *)
Lemma divide_agrees_with_binary64 :
  forallb (fun a => forallb (fun b => same_number (binary64_div a (b + 1)) (divide a (b + 1)))
                      (counts 20)) (counts 20) = true
  /\ same_number (binary64_div 9007199254740991 3) (divide 9007199254740991 3) = true
  /\ same_number (binary64_div 1 9007199254740991) (divide 1 9007199254740991) = true
  /\ same_number (binary64_div 9007199254740991 9007199254740990)
       (divide 9007199254740991 9007199254740990) = true.
Proof.
  split; [vm_compute; reflexivity|].
  split; [vm_compute; reflexivity|].
  split; vm_compute; reflexivity.
Qed.

End Number_facts.

(** ** The store *)

Lemma existsb_fresh {A : Type} (key : A -> string) (id : string) (rows : list A) :
  Forall (fun r => key r <> id) rows ->
  existsb (fun r => (key r =? id)%string) rows = false.
Proof.
  induction 1 as [|r rows Hr _ IH]; [reflexivity|].
  simpl. rewrite IH. apply String.eqb_neq in Hr. now rewrite Hr.
Qed.

Lemma find_fresh {A : Type} (key : A -> string) (id : string) (rows : list A) :
  Forall (fun r => key r <> id) rows ->
  find (fun r => (key r =? id)%string) rows = None.
Proof.
  induction 1 as [|r rows Hr _ IH]; [reflexivity|].
  simpl. apply String.eqb_neq in Hr. now rewrite Hr.
Qed.

Lemma find_app_fresh {A : Type} (key : A -> string) (id : string) (rows : list A) (x : A) :
  Forall (fun r => key r <> id) rows -> key x = id ->
  find (fun r => (key r =? id)%string) (rows ++ [x]) = Some x.
Proof.
  intros H Hx. induction H as [|r rows Hr _ IH]; simpl.
  - subst id. now rewrite String.eqb_refl.
  - apply String.eqb_neq in Hr. now rewrite Hr.
Qed.

Lemma insert_form_fresh (db : Database) (f : forms.row) :
  fresh_form_id db (forms.id f) ->
  Sql.insert_form db f
  = Some {| foreign_keys := foreign_keys db;
            forms_rows := forms_rows db ++ [Sql.stored_form f];
            responses_rows := responses_rows db |}.
Proof.
  intros H. unfold Sql.insert_form.
  now rewrite (existsb_fresh forms.id) by exact H.
Qed.

Lemma select_form_exists (db : Database) (id : string) (form : forms.row) :
  Sql.select_form db id = Some form ->
  existsb (fun f => (forms.id f =? id)%string) (forms_rows db) = true.
Proof.
  unfold Sql.select_form. intros H. apply find_some in H.
  apply existsb_exists. exists form. exact H.
Qed.

Lemma insert_response_fresh (db : Database) (r : responses.row) (form : forms.row) :
  fresh_response_id db (responses.id r) ->
  Sql.select_form db (responses.form_id r) = Some form ->
  Sql.insert_response db r
  = Some {| foreign_keys := foreign_keys db;
            forms_rows := forms_rows db;
            responses_rows := responses_rows db ++ [Sql.stored_response r] |}.
Proof.
  intros H Hf. unfold Sql.insert_response.
  rewrite (existsb_fresh responses.id) by exact H.
  rewrite (select_form_exists _ _ _ Hf). now rewrite andb_false_r.
Qed.

(** ** Properties of the handlers *)

(** C5.  [createForm] answers 400 exactly when the title is falsy (for a
    title that is a string or absent: when it is absent or empty) or [fields]
    is not an array; so it fails for an empty title whatever the fields are,
    and for a non-empty title with an empty field list it creates the form:
    no minimum number of fields is enforced. *)
Theorem createForm_validation (db : Database) (fx : Effects)
  (title description fields : jsval) :
  fresh_form_id db (uuidv4 fx) ->
  (createForm db fx title description fields
   = (Json 400 (error "Title and fields are required"), db)
   <-> (JS.truthy title = false \/ JS.isArray fields = false))
  /\ (JS.truthy title = true -> JS.isArray fields = true ->
      exists body db',
        createForm db fx title description fields = (Json 201 body, db')
        /\ JS.get body "id" = Some (JStr (uuidv4 fx))
        /\ JS.get body "fields" = Some fields
        /\ List.length (forms_rows db') = S (List.length (forms_rows db)))
  /\ (JS.truthy JUndefined = false /\ JS.truthy JNull = false
      /\ forall s, JS.truthy (JStr s) = false <-> s = ""%string)
  /\ createForm db fx (JStr "") description fields
     = (Json 400 (error "Title and fields are required"), db)
  /\ (forall s, s <> ""%string ->
      exists body db',
        createForm db fx (JStr s) description (JArr []) = (Json 201 body, db')
        /\ JS.get body "fields" = Some (JArr [])).
Proof.
  intros Hfresh.
  assert (Hok : forall t d f, JS.truthy t = true -> JS.isArray f = true ->
            exists body db',
              createForm db fx t d f = (Json 201 body, db')
              /\ JS.get body "id" = Some (JStr (uuidv4 fx))
              /\ JS.get body "fields" = Some f
              /\ List.length (forms_rows db') = S (List.length (forms_rows db))).
  { intros t d f Ht Hf. unfold createForm, invalid_form.
    destruct f; try discriminate. rewrite Ht. cbn [JS.truthy JS.isArray negb orb].
    rewrite insert_form_fresh by exact Hfresh.
    eexists; eexists. split; [reflexivity|].
    cbn. rewrite length_app. cbn. repeat split; lia. }
  split; [|split; [|split; [|split]]].
  - split.
    + intros H. unfold createForm, invalid_form in H.
      destruct (JS.truthy title) eqn:Ht; [|now left].
      destruct (JS.isArray fields) eqn:Hf; [|now right].
      exfalso. destruct fields; try discriminate.
      cbn [JS.truthy JS.isArray negb orb] in H.
      rewrite insert_form_fresh in H by exact Hfresh. discriminate.
    + intros H. unfold createForm, invalid_form.
      destruct H as [H | H]; rewrite H; cbn [negb orb];
        [reflexivity | now rewrite !orb_true_r].
  - apply Hok.
  - split; [reflexivity|]. split; [reflexivity|].
    intros s. cbn [JS.truthy]. rewrite negb_false_iff. apply String.eqb_eq.
  - reflexivity.
  - intros s Hs.
    destruct (Hok (JStr s) description (JArr [])) as (body & db' & H & _ & Hb & _).
    + cbn [JS.truthy]. apply negb_true_iff. now apply String.eqb_neq.
    + reflexivity.
    + exists body, db'. split; assumption.
Qed.

Lemma createForm_validation_witness :
  fresh_form_id Scenario.db0 "form-1"
  /\ exists body db',
       createForm Scenario.db0
         (Scenario.effects "form-1" "2024-05-01 10:00:00" "2024-05-01T10:00:00.250Z")
         (JStr "Club") JUndefined (JArr [])
       = (Json 201 body, db')
       /\ JS.get body "fields" = Some (JArr []).
Proof.
  assert (H : fresh_form_id Scenario.db0 "form-1") by constructor.
  split; [exact H|].
  apply (createForm_validation Scenario.db0
           (Scenario.effects "form-1" "2024-05-01 10:00:00" "2024-05-01T10:00:00.250Z")
           (JStr "Club") JUndefined (JArr []) H).
  discriminate.
Defined.

(** The connection setting is never changed by a handler: a connection
    opened by [open_database] keeps foreign-key enforcement off. *)
Lemma handlers_keep_foreign_keys (db : Database) (fx : Effects) (id : string)
  (a b c : jsval) :
  foreign_keys (snd (createForm db fx a b c)) = foreign_keys db
  /\ foreign_keys (snd (updateForm db id a b c)) = foreign_keys db
  /\ foreign_keys (snd (deleteForm db id)) = foreign_keys db
  /\ foreign_keys (snd (submitResponse db fx id a b c)) = foreign_keys db.
Proof.
  repeat split.
  - unfold createForm, Sql.insert_form.
    destruct (invalid_form a c); [reflexivity|].
    destruct (existsb _ _); reflexivity.
  - unfold updateForm. destruct (invalid_form a c); [reflexivity|].
    cbn. destruct (_ =? _)%nat; reflexivity.
  - unfold deleteForm. cbn. destruct (_ =? _)%nat; reflexivity.
  - unfold submitResponse, Sql.insert_response.
    destruct (_ || _); [reflexivity|].
    destruct (Sql.select_form db id); [|reflexivity].
    destruct (existsb _ _); [reflexivity|].
    destruct (_ && _); reflexivity.
Qed.

Lemma deleteForm_db (db : Database) (id : string) :
  snd (deleteForm db id) = fst (Sql.delete_form db id).
Proof.
  unfold deleteForm, Sql.delete_form. destruct (_ =? _)%nat; reflexivity.
Qed.

Lemma filter_filter_negb {A : Type} (p : A -> bool) (l : list A) :
  filter p (filter (fun x => negb (p x)) l) = [].
Proof.
  induction l as [|x l IH]; [reflexivity|].
  cbn [filter]. destruct (p x) eqn:E; cbn [negb]; [exact IH|].
  cbn [filter]. now rewrite E.
Qed.

(** Without enforcement [DELETE FROM forms] leaves the [responses] table as
    it is. *)
Lemma deleteForm_responses_kept (db : Database) (id : string) :
  foreign_keys db = false ->
  responses_rows (snd (deleteForm db id)) = responses_rows db
  /\ listResponsesForForm (snd (deleteForm db id)) id = listResponsesForForm db id.
Proof.
  intros Hfk.
  assert (H : responses_rows (snd (deleteForm db id)) = responses_rows db).
  { rewrite deleteForm_db. cbn. now rewrite Hfk. }
  split; [exact H|].
  unfold listResponsesForForm, Sql.select_responses. now rewrite H.
Qed.

(** With enforcement the cascade declared in the schema takes place. *)
Lemma deleteForm_cascades_when_enforced (db : Database) (id : string) (form : forms.row) :
  foreign_keys db = true ->
  Sql.select_form db id = Some form ->
  listResponsesForForm (snd (deleteForm db id)) id = Json 200 (JArr []).
Proof.
  intros Hfk Hf.
  unfold listResponsesForForm, Sql.select_responses. rewrite deleteForm_db. cbn.
  rewrite Hfk, (select_form_exists _ _ _ Hf). cbn [andb].
  rewrite (filter_filter_negb (fun r => (responses.form_id r =? id)%string)).
  reflexivity.
Qed.

(** C1.  Deleting a form is meant to delete its responses, so that
    [listResponsesForForm] on its id returns nothing; the schema declares the
    cascade.  On the server's own connection it does not happen: a form with
    three responses is deleted, the form is gone, and [listResponsesForForm]
    still returns the three responses. *)
Theorem deleteForm_leaves_responses :
  foreign_keys Scenario.db4 = false
  /\ fst (deleteForm Scenario.db4 "form-1")
     = Json 200 (JObj [("message", JStr "Form deleted successfully")])
  /\ getForm (snd (deleteForm Scenario.db4 "form-1")) "form-1"
     = Json 404 (error "Form not found")
  /\ exists r1 r2 r3,
       listResponsesForForm (snd (deleteForm Scenario.db4 "form-1")) "form-1"
       = Json 200 (JArr [r1; r2; r3]).
Proof.
  split; [reflexivity|]. split; [reflexivity|]. split; [reflexivity|].
  do 3 eexists. vm_compute. reflexivity.
Qed.

(** C9.  A non-null value of type ['object'], an array included, passes the
    guard on [answers]: the response is created and the row holds
    [JSON.stringify(answers)], which parses back to the same value. *)
Theorem submitResponse_accepts_objects (db : Database) (fx : Effects)
  (formId : string) (answers submitterName submitterEmail : jsval) (form : forms.row) :
  JS.typeof_object answers = true -> answers <> JNull ->
  Sql.select_form db formId = Some form ->
  fresh_response_id db (uuidv4 fx) ->
  exists body db' row,
    submitResponse db fx formId answers submitterName submitterEmail = (Json 201 body, db')
    /\ JS.get body "answers" = Some answers
    /\ responses_rows db' = (responses_rows db ++ [row])%list
    /\ responses.id row = uuidv4 fx
    /\ responses.form_id row = formId
    /\ responses.answers row = JS.stringify answers
    /\ (JS.json_value answers -> JS.parse (responses.answers row) = Some answers).
Proof.
  intros Hobj Hnull Hform Hfresh.
  unfold submitResponse.
  assert (Ht : JS.truthy answers = true)
    by (destruct answers; try discriminate; [congruence | reflexivity | reflexivity]).
  rewrite Ht, Hobj. cbn [negb orb]. rewrite Hform.
  rewrite (insert_response_fresh db _ form) by assumption.
  eexists; eexists; eexists. split; [reflexivity|].
  cbn. repeat split. intros Hjs. now apply JSON_facts.parse_stringify.
Qed.

Lemma submitResponse_accepts_objects_witness :
  exists body db' row,
    submitResponse Scenario.db1
      (Scenario.effects "resp-1" "2024-05-01 10:00:05" "2024-05-01T10:00:05.120Z")
      "form-1" (JArr []) JUndefined JUndefined
    = (Json 201 body, db')
    /\ JS.get body "answers" = Some (JArr [])
    /\ responses_rows db' = (responses_rows Scenario.db1 ++ [row])%list
    /\ responses.id row = "resp-1"%string
    /\ responses.form_id row = "form-1"%string
    /\ responses.answers row = JS.stringify (JArr [])
    /\ (JS.json_value (JArr []) -> JS.parse (responses.answers row) = Some (JArr [])).
Proof.
  refine (submitResponse_accepts_objects Scenario.db1
            (Scenario.effects "resp-1" "2024-05-01 10:00:05" "2024-05-01T10:00:05.120Z")
            "form-1" (JArr []) JUndefined JUndefined
            {| forms.id := "form-1";
               forms.title := JStr "Club";
               forms.description := JStr "";
               forms.fields := JS.stringify Scenario.fields;
               forms.created_at := "2024-05-01 10:00:00" |}
            _ _ _ _).
  - reflexivity.
  - discriminate.
  - reflexivity.
  - constructor.
Defined.

(** ** Round trip of the [fields] column *)

Lemma FormField_json_value (f : FormField.t) : JS.json_value (FormField.to_js f).
Proof.
  destruct f as [i ty l r os ph]. unfold FormField.to_js. cbn [FormField.id
    FormField.type_ FormField.label FormField.required FormField.options
    FormField.placeholder].
  assert (Hos : forall os, JS.json_value (JArr (map JStr os))).
  { intros l0. apply JSON_facts.json_value_arr. induction l0; constructor; [exact I | assumption]. }
  destruct os as [os|]; destruct ph as [ph|];
    apply JSON_facts.json_value_obj; (split; [|reflexivity]);
    repeat (constructor; try exact I); apply Hos.
Qed.

Lemma FormFields_json_value (F : list FormField.t) :
  JS.json_value (JArr (map FormField.to_js F)).
Proof.
  apply JSON_facts.json_value_arr.
  induction F; constructor; [apply FormField_json_value | assumption].
Qed.

(** What was written by [createForm] is what [getForm] reads. *)
Lemma createForm_getForm (db : Database) (fx : Effects) (title description fields : jsval) :
  JS.truthy title = true -> JS.isArray fields = true -> JS.json_value fields ->
  fresh_form_id db (uuidv4 fx) ->
  exists body db' form,
    createForm db fx title description fields = (Json 201 body, db')
    /\ getForm db' (uuidv4 fx) = Json 200 form
    /\ JS.get form "fields" = Some fields.
Proof.
  intros Ht Harr Hjs Hfresh. unfold createForm, invalid_form.
  destruct fields as [| | | | |xs|]; try discriminate.
  rewrite Ht. cbn [JS.truthy JS.isArray negb orb].
  rewrite insert_form_fresh by exact Hfresh.
  eexists; eexists; eexists. split; [reflexivity|].
  unfold getForm, Sql.select_form. cbn [forms_rows].
  rewrite (find_app_fresh forms.id) by (exact Hfresh || reflexivity).
  unfold form_of_row, Sql.stored_form. cbn [forms.fields].
  rewrite JSON_facts.parse_stringify by exact Hjs.
  split; reflexivity.
Qed.

(** C6.  For every sequence [F] of fields, whatever their types, creating a
    form with the fields [F] and reading it back with [getForm] gives the
    fields [F], in the same order: [JSON.parse] undoes [JSON.stringify]. *)
Theorem createForm_getForm_fields (db : Database) (fx : Effects)
  (title description : jsval) (F : list FormField.t) :
  JS.truthy title = true ->
  fresh_form_id db (uuidv4 fx) ->
  exists body db' form,
    createForm db fx title description (JArr (map FormField.to_js F)) = (Json 201 body, db')
    /\ getForm db' (uuidv4 fx) = Json 200 form
    /\ JS.get form "fields" = Some (JArr (map FormField.to_js F)).
Proof.
  intros Ht Hfresh.
  apply createForm_getForm; [exact Ht | reflexivity | apply FormFields_json_value | exact Hfresh].
Qed.

Lemma createForm_getForm_fields_witness :
  exists body db' form,
    createForm Scenario.db0
      (Scenario.effects "form-1" "2024-05-01 10:00:00" "2024-05-01T10:00:00.250Z")
      (JStr "Club") JUndefined
      (JArr (map FormField.to_js
               [ {| FormField.id := "experience"; FormField.type_ := FormField.select;
                    FormField.label := "Programming Experience"; FormField.required := true;
                    FormField.options := Some ["Beginner"; "Expert"]%string;
                    FormField.placeholder := None |};
                 {| FormField.id := "name"; FormField.type_ := FormField.text;
                    FormField.label := "Full Name"; FormField.required := true;
                    FormField.options := None;
                    FormField.placeholder := Some "Enter your full name"%string |} ]))
    = (Json 201 body, db')
    /\ getForm db' "form-1" = Json 200 form
    /\ JS.get form "fields"
       = Some (JArr (map FormField.to_js
               [ {| FormField.id := "experience"; FormField.type_ := FormField.select;
                    FormField.label := "Programming Experience"; FormField.required := true;
                    FormField.options := Some ["Beginner"; "Expert"]%string;
                    FormField.placeholder := None |};
                 {| FormField.id := "name"; FormField.type_ := FormField.text;
                    FormField.label := "Full Name"; FormField.required := true;
                    FormField.options := None;
                    FormField.placeholder := Some "Enter your full name"%string |} ])).
Proof.
  apply (createForm_getForm_fields Scenario.db0
           (Scenario.effects "form-1" "2024-05-01 10:00:00" "2024-05-01T10:00:00.250Z")
           (JStr "Club") JUndefined).
  - reflexivity.
  - constructor.
Defined.

(** ** Update *)

Lemma update_form_changes (db : Database) (id : string) (t d : jsval) (fs : string) :
  (snd (Sql.update_form db id t d fs) =? 0)%nat
  = match Sql.select_form db id with Some _ => false | None => true end.
Proof.
  unfold Sql.update_form, Sql.select_form. cbn [snd].
  induction (forms_rows db) as [|f rows IH]; [reflexivity|].
  cbn [filter find]. destruct (forms.id f =? id)%string; [reflexivity | exact IH].
Qed.

Lemma update_form_absent (db : Database) (id : string) (t d : jsval) (fs : string) :
  Sql.select_form db id = None ->
  forms_rows (fst (Sql.update_form db id t d fs)) = forms_rows db.
Proof.
  unfold Sql.update_form, Sql.select_form. cbn [fst forms_rows].
  induction (forms_rows db) as [|f rows IH]; [reflexivity|].
  cbn [find map]. destruct (forms.id f =? id)%string; [discriminate|].
  intros H. now rewrite IH.
Qed.

Lemma update_form_select_other (db : Database) (id id' : string) (t d : jsval) (fs : string) :
  id' <> id ->
  Sql.select_form (fst (Sql.update_form db id t d fs)) id' = Sql.select_form db id'.
Proof.
  intros Hne. unfold Sql.update_form, Sql.select_form. cbn [fst forms_rows].
  induction (forms_rows db) as [|f rows IH]; [reflexivity|].
  cbn [find map].
  destruct (String.eqb_spec (forms.id f) id) as [E|E].
  - cbn [forms.id]. rewrite E.
    destruct (String.eqb_spec id id') as [E'|E']; [congruence | exact IH].
  - destruct (forms.id f =? id')%string; [reflexivity | exact IH].
Qed.

Lemma update_form_select_same (db : Database) (id : string) (t d : jsval) (fs : string)
  (old : forms.row) :
  Sql.select_form db id = Some old ->
  Sql.select_form (fst (Sql.update_form db id t d fs)) id
  = Some (updated_row old (Sql.bind_text t) (Sql.bind_text d) fs).
Proof.
  unfold Sql.update_form, Sql.select_form. cbn [fst forms_rows].
  induction (forms_rows db) as [|f rows IH]; [discriminate|].
  cbn [find map].
  destruct (String.eqb_spec (forms.id f) id) as [E|E].
  - intros H. injection H as H. subst old. cbn [forms.id]. rewrite E, String.eqb_refl.
    unfold updated_row. now rewrite E.
  - intros H. apply String.eqb_neq in E. rewrite E. now apply IH.
Qed.

Lemma update_form_frame (db : Database) (id : string) (t d : jsval) (fs : string) :
  map forms.id (forms_rows (fst (Sql.update_form db id t d fs))) = map forms.id (forms_rows db)
  /\ map forms.created_at (forms_rows (fst (Sql.update_form db id t d fs)))
     = map forms.created_at (forms_rows db)
  /\ responses_rows (fst (Sql.update_form db id t d fs)) = responses_rows db
  /\ forall f, In f (forms_rows db) -> forms.id f <> id ->
               In f (forms_rows (fst (Sql.update_form db id t d fs))).
Proof.
  unfold Sql.update_form. cbn [fst forms_rows responses_rows].
  repeat split.
  - induction (forms_rows db) as [|f rows IH]; [reflexivity|].
    cbn [map]. rewrite IH. destruct (forms.id f =? id)%string; reflexivity.
  - induction (forms_rows db) as [|f rows IH]; [reflexivity|].
    cbn [map]. rewrite IH. destruct (forms.id f =? id)%string; reflexivity.
  - intros f Hin Hne. apply in_map_iff. exists f. split; [|exact Hin].
    apply String.eqb_neq in Hne. now rewrite Hne.
Qed.

(** C7, as amended.  [updateForm] applies the guard of [createForm]; it
    answers 404 without changing a form when no row has the id; otherwise it
    replaces title, description and fields of that row (title and
    description as the [TEXT] columns keep them, the fields as JSON text),
    keeps its id and [created_at], keeps every other row and the order of
    the table, and answers with the id, title, description and fields it was
    given (no [createdAt]). *)
Theorem updateForm_spec (db : Database) (id : string) (title description fields : jsval) :
  (forall fx,
      fst (updateForm db id title description fields)
      = Json 400 (error "Title and fields are required")
      <-> fst (createForm db fx title description fields)
          = Json 400 (error "Title and fields are required"))
  /\ (invalid_form title fields = true -> snd (updateForm db id title description fields) = db)
  /\ (invalid_form title fields = false -> Sql.select_form db id = None ->
      exists db',
        updateForm db id title description fields = (Json 404 (error "Form not found"), db')
        /\ forms_rows db' = forms_rows db /\ responses_rows db' = responses_rows db)
  /\ (forall old, invalid_form title fields = false -> Sql.select_form db id = Some old ->
      exists db',
        updateForm db id title description fields
        = (Json 200 (JObj [("id", JStr id); ("title", title);
                           ("description", JS.or description (JStr ""));
                           ("fields", fields)]), db')
        /\ Sql.select_form db' id
           = Some {| forms.id := forms.id old;
                     forms.title := Sql.bind_text title;
                     forms.description := Sql.bind_text (JS.or description (JStr ""));
                     forms.fields := JS.stringify fields;
                     forms.created_at := forms.created_at old |}
        /\ (forall id', id' <> id -> Sql.select_form db' id' = Sql.select_form db id')
        /\ (forall f, In f (forms_rows db) -> forms.id f <> id -> In f (forms_rows db'))
        /\ map forms.id (forms_rows db') = map forms.id (forms_rows db)
        /\ map forms.created_at (forms_rows db') = map forms.created_at (forms_rows db)
        /\ responses_rows db' = responses_rows db).
Proof.
  assert (Hsnd : forall b, snd (Sql.update_form db id title (JS.or description (JStr ""))
                                  (JS.stringify fields)) = b ->
                 updateForm db id title description fields
                 = if invalid_form title fields
                   then (Json 400 (error "Title and fields are required"), db)
                   else if (b =? 0)%nat
                        then (Json 404 (error "Form not found"),
                              fst (Sql.update_form db id title (JS.or description (JStr ""))
                                     (JS.stringify fields)))
                        else (Json 200 (JObj [("id", JStr id); ("title", title);
                                              ("description", JS.or description (JStr ""));
                                              ("fields", fields)]),
                              fst (Sql.update_form db id title (JS.or description (JStr ""))
                                     (JS.stringify fields)))).
  { intros b Hb. unfold updateForm. destruct (invalid_form title fields); [reflexivity|].
    destruct (Sql.update_form _ _ _ _ _) as [db' n]. cbn in Hb. now subst. }
  specialize (Hsnd _ eq_refl). rewrite update_form_changes in Hsnd.
  destruct (update_form_frame db id title (JS.or description (JStr "")) (JS.stringify fields))
    as (Hids & Hcreated & Hresp & Hother).
  split; [|split; [|split]].
  - intros fx. rewrite Hsnd. unfold createForm.
    destruct (invalid_form title fields).
    + split; reflexivity.
    + split; intros H.
      * destruct (Sql.select_form db id); discriminate.
      * destruct (Sql.insert_form db _); discriminate.
  - intros Hinv. rewrite Hsnd, Hinv. reflexivity.
  - intros Hinv Hsel. rewrite Hsnd, Hinv, Hsel.
    eexists. split; [reflexivity|]. split; [|exact Hresp].
    now apply update_form_absent.
  - intros old Hinv Hsel. rewrite Hsnd, Hinv, Hsel.
    eexists. split; [reflexivity|].
    split; [exact (update_form_select_same db id _ _ _ old Hsel)|].
    split; [intros id' Hne; now apply update_form_select_other|].
    repeat split; assumption.
Qed.

Lemma updateForm_spec_witness :
  exists db',
    updateForm Scenario.db4 "form-1" (JStr "Members") JUndefined (JArr [])
    = (Json 200 (JObj [("id", JStr "form-1"); ("title", JStr "Members");
                       ("description", JS.or JUndefined (JStr ""));
                       ("fields", JArr [])]), db')
    /\ Sql.select_form db' "form-1"
       = Some {| forms.id := "form-1";
                 forms.title := JStr "Members";
                 forms.description := JS.or JUndefined (JStr "");
                 forms.fields := JS.stringify (JArr []);
                 forms.created_at := "2024-05-01 10:00:00" |}
    /\ (forall id', id' <> "form-1"%string ->
                    Sql.select_form db' id' = Sql.select_form Scenario.db4 id')
    /\ (forall f, In f (forms_rows Scenario.db4) -> forms.id f <> "form-1"%string ->
                  In f (forms_rows db'))
    /\ map forms.id (forms_rows db') = map forms.id (forms_rows Scenario.db4)
    /\ map forms.created_at (forms_rows db') = map forms.created_at (forms_rows Scenario.db4)
    /\ responses_rows db' = responses_rows Scenario.db4.
Proof.
  refine (proj2 (proj2 (proj2
            (updateForm_spec Scenario.db4 "form-1" (JStr "Members") JUndefined (JArr []))))
            {| forms.id := "form-1";
               forms.title := JStr "Club";
               forms.description := JStr "";
               forms.fields := JS.stringify Scenario.fields;
               forms.created_at := "2024-05-01 10:00:00" |} _ _).
  - reflexivity.
  - reflexivity.
Defined.

(** C7, where it fails: the value [updateForm] returns is not the updated
    form.  The stored form has its [createdAt]; the reply has none. *)
Lemma updateForm_reply_is_not_the_form :
  exists body db' form,
    updateForm Scenario.db4 "form-1" (JStr "Members") JUndefined Scenario.fields
    = (Json 200 body, db')
    /\ getForm db' "form-1" = Json 200 form
    /\ JS.get form "createdAt" = Some (JStr "2024-05-01 10:00:00")
    /\ JS.get body "createdAt" = Some JUndefined
    /\ body <> form.
Proof.
  eexists; eexists; eexists.
  split; [reflexivity|]. split; [vm_compute; reflexivity|].
  split; [reflexivity|]. split; [reflexivity|]. discriminate.
Qed.

(** ** Submission *)

(** C4, as amended.  [submitResponse] answers 400 when [answers] is missing
    or not an object (falsy, or of a [typeof] other than ['object']), before
    the form is looked up; it answers 404 and inserts nothing when no form
    has the id, so it never succeeds against a form that does not exist;
    otherwise it inserts one row under the fresh id, stamped by the store,
    with the name and the email as the [TEXT] columns keep them ([null] when
    absent), and answers with that id, the form id and the answers, with the
    submitter name and email as they were received and a [submittedAt] read
    from the server clock, not from the stored row. *)
Theorem submitResponse_spec (db : Database) (fx : Effects) (formId : string)
  (answers submitterName submitterEmail : jsval) :
  (JS.truthy answers = false \/ JS.typeof_object answers = false ->
   submitResponse db fx formId answers submitterName submitterEmail
   = (Json 400 (error "Answers are required"), db))
  /\ (JS.truthy answers = true -> JS.typeof_object answers = true ->
      Sql.select_form db formId = None ->
      submitResponse db fx formId answers submitterName submitterEmail
      = (Json 404 (error "Form not found"), db))
  /\ (Sql.select_form db formId = None ->
      snd (submitResponse db fx formId answers submitterName submitterEmail) = db
      /\ forall body, fst (submitResponse db fx formId answers submitterName submitterEmail)
                      <> Json 201 body)
  /\ (forall form,
      JS.truthy answers = true -> JS.typeof_object answers = true ->
      Sql.select_form db formId = Some form ->
      fresh_response_id db (uuidv4 fx) ->
      exists db',
        submitResponse db fx formId answers submitterName submitterEmail
        = (Json 201 (JObj [("id", JStr (uuidv4 fx));
                           ("formId", JStr formId);
                           ("answers", answers);
                           ("submitterName", submitterName);
                           ("submitterEmail", submitterEmail);
                           ("submittedAt", JStr (toISOString fx))]), db')
        /\ responses_rows db'
           = (responses_rows db
              ++ [{| responses.id := uuidv4 fx;
                     responses.form_id := formId;
                     responses.answers := JS.stringify answers;
                     responses.submitter_name := Sql.bind_text (JS.or submitterName JNull);
                     responses.submitter_email := Sql.bind_text (JS.or submitterEmail JNull);
                     responses.submitted_at := CURRENT_TIMESTAMP fx |}])%list
        /\ forms_rows db' = forms_rows db).
Proof.
  split; [|split; [|split]].
  - intros H. unfold submitResponse.
    destruct H as [H | H]; rewrite H; cbn [negb orb];
      [reflexivity | now rewrite orb_true_r].
  - intros Ht Ho Hsel. unfold submitResponse. rewrite Ht, Ho, Hsel. reflexivity.
  - intros Hsel. unfold submitResponse. rewrite Hsel.
    destruct (negb (JS.truthy answers) || negb (JS.typeof_object answers));
      (split; [reflexivity | intros body; discriminate]).
  - intros form Ht Ho Hsel Hfresh. unfold submitResponse. rewrite Ht, Ho, Hsel.
    cbn [negb orb].
    rewrite (insert_response_fresh db _ form) by assumption.
    eexists. split; [reflexivity|]. split; reflexivity.
Qed.

Lemma submitResponse_spec_witness :
  exists db',
    submitResponse Scenario.db1
      (Scenario.effects "resp-1" "2024-05-01 10:00:05" "2024-05-01T10:00:05.120Z")
      "form-1" Scenario.alice (JStr "Alice A.") JUndefined
    = (Json 201 (JObj [("id", JStr "resp-1");
                       ("formId", JStr "form-1");
                       ("answers", Scenario.alice);
                       ("submitterName", JStr "Alice A.");
                       ("submitterEmail", JUndefined);
                       ("submittedAt", JStr "2024-05-01T10:00:05.120Z")]), db')
    /\ responses_rows db'
       = (responses_rows Scenario.db1
          ++ [{| responses.id := "resp-1";
                 responses.form_id := "form-1";
                 responses.answers := JS.stringify Scenario.alice;
                 responses.submitter_name := JS.or (JStr "Alice A.") JNull;
                 responses.submitter_email := JS.or JUndefined JNull;
                 responses.submitted_at := "2024-05-01 10:00:05" |}])%list
    /\ forms_rows db' = forms_rows Scenario.db1.
Proof.
  refine (proj2 (proj2 (proj2
            (submitResponse_spec Scenario.db1
               (Scenario.effects "resp-1" "2024-05-01 10:00:05" "2024-05-01T10:00:05.120Z")
               "form-1" Scenario.alice (JStr "Alice A.") JUndefined)))
            {| forms.id := "form-1";
               forms.title := JStr "Club";
               forms.description := JStr "";
               forms.fields := JS.stringify Scenario.fields;
               forms.created_at := "2024-05-01 10:00:00" |} _ _ _ _).
  - reflexivity.
  - reflexivity.
  - reflexivity.
  - constructor.
Defined.

(** C4, where it fails: the value [submitResponse] returns is not the
    stored response.  Read back, the stored response carries the timestamp of
    the store and [null] for an absent submitter; the reply carries the
    server's ISO time and no submitter. *)
Lemma submitResponse_reply_is_not_the_stored_response :
  exists body db' stored,
    submitResponse Scenario.db1
      (Scenario.effects "resp-1" "2024-05-01 10:00:05" "2024-05-01T10:00:05.120Z")
      "form-1" Scenario.alice JUndefined JUndefined
    = (Json 201 body, db')
    /\ listResponsesForForm db' "form-1" = Json 200 (JArr [stored])
    /\ JS.get body "submittedAt" = Some (JStr "2024-05-01T10:00:05.120Z")
    /\ JS.get stored "submittedAt" = Some (JStr "2024-05-01 10:00:05")
    /\ JS.get body "submitterName" = Some JUndefined
    /\ JS.get stored "submitterName" = Some JNull
    /\ body <> stored.
Proof.
  eexists; eexists; eexists.
  split; [reflexivity|]. split; [vm_compute; reflexivity|].
  repeat (split; [reflexivity|]). discriminate.
Qed.

(** ** Listings *)

Lemma map_throw_total {A B : Type} (f : A -> option B) (xs : list A) :
  Forall (fun x => exists y, f x = Some y) xs -> exists ys, map_throw f xs = Some ys.
Proof.
  induction 1 as [|x xs [y Hy] _ [ys IH]]; [now exists []|].
  exists (y :: ys). cbn [map_throw]. now rewrite Hy, IH.
Qed.

Lemma map_throw_length {A B : Type} (f : A -> option B) (xs : list A) (ys : list B) :
  map_throw f xs = Some ys -> List.length ys = List.length xs.
Proof.
  revert ys. induction xs as [|x xs IH]; intros ys H; cbn [map_throw] in H.
  - injection H as <-. reflexivity.
  - destruct (f x); [|discriminate]. destruct (map_throw f xs); [|discriminate].
    injection H as <-. cbn. now rewrite (IH l).
Qed.

Lemma joined_response (db : Database) (rf : responses.row * jsval) :
  In rf (Sql.joined db) -> In (fst rf) (responses_rows db).
Proof.
  unfold Sql.joined. intros H. apply in_flat_map in H. destruct H as (r & Hr & H).
  apply in_map_iff in H. destruct H as (f & <- & _). exact Hr.
Qed.

Lemma form_rows_render (db : Database) (rows : list forms.row) :
  stored_json db -> (forall f, In f rows -> In f (forms_rows db)) ->
  exists bodies, map_throw form_of_row rows = Some bodies.
Proof.
  intros [Hf _] Hin. apply map_throw_total. apply Forall_forall. intros f Hfin.
  rewrite Forall_forall in Hf. destruct (Hf f (Hin f Hfin)) as [v Hv].
  unfold form_of_row. rewrite Hv. eauto.
Qed.

Lemma response_rows_render (db : Database) (rows : list responses.row) :
  stored_json db -> (forall r, In r rows -> In r (responses_rows db)) ->
  exists bodies, map_throw response_of_row rows = Some bodies.
Proof.
  intros [_ Hr] Hin. apply map_throw_total. apply Forall_forall. intros r Hrin.
  rewrite Forall_forall in Hr. destruct (Hr r (Hin r Hrin)) as [v Hv].
  unfold response_of_row. rewrite Hv. eauto.
Qed.

Lemma joined_rows_render (db : Database) (rows : list (responses.row * jsval)) :
  stored_json db -> (forall rf, In rf rows -> In rf (Sql.joined db)) ->
  exists bodies, map_throw joined_response_of_row rows = Some bodies.
Proof.
  intros [_ Hr] Hin. apply map_throw_total. apply Forall_forall. intros [r t] Hrin.
  rewrite Forall_forall in Hr.
  destruct (Hr r (joined_response db (r, t) (Hin _ Hrin))) as [v Hv].
  unfold joined_response_of_row. rewrite Hv. eauto.
Qed.

Lemma filter_primary_key (id : string) (rows : list forms.row) :
  NoDup (map forms.id rows) ->
  filter (fun f => (forms.id f =? id)%string) rows
  = match find (fun f => (forms.id f =? id)%string) rows with
    | Some f => [f]
    | None => []
    end.
Proof.
  induction rows as [|f rows IH]; [reflexivity|].
  cbn [map filter find]. intros Hnd. inversion Hnd as [|? ? Hnotin Hnd']; subst.
  destruct (String.eqb_spec (forms.id f) id) as [E|E].
  - f_equal. rewrite IH by exact Hnd'.
    destruct (find _ rows) as [g|] eqn:Eg; [|reflexivity].
    exfalso. apply find_some in Eg. destruct Eg as [Hin Hid].
    apply String.eqb_eq in Hid. apply Hnotin. rewrite E, <- Hid.
    now apply in_map.
  - now apply IH.
Qed.

(** Under the primary key the join keeps the responses in scan order, each
    once, leaving out those whose form is missing. *)
Lemma joined_scan_order (db : Database) :
  primary_keys db ->
  map fst (Sql.joined db)
  = filter (fun r => existsb (fun f => (forms.id f =? responses.form_id r)%string)
                       (forms_rows db))
      (responses_rows db).
Proof.
  unfold primary_keys, Sql.joined. intros Hpk.
  induction (responses_rows db) as [|r rows IH]; [reflexivity|].
  cbn [flat_map filter]. rewrite map_app, IH.
  rewrite (filter_primary_key _ _ Hpk).
  destruct (find _ (forms_rows db)) as [f|] eqn:Ef.
  - assert (H : existsb (fun f0 => (forms.id f0 =? responses.form_id r)%string)
                  (forms_rows db) = true).
    { apply existsb_exists. exists f. apply find_some in Ef. exact Ef. }
    rewrite H. reflexivity.
  - assert (H : existsb (fun f0 => (forms.id f0 =? responses.form_id r)%string)
                  (forms_rows db) = false).
    { apply not_true_is_false. intros H. apply existsb_exists in H.
      destruct H as (f & Hin & Hid).
      apply (find_none _ _ Ef) in Hin. congruence. }
    rewrite H. reflexivity.
Qed.



(** The three responses of the run of the examples are listed newest first:
    the two of 10:00:07 before the one of 10:00:05. *)
Lemma listResponsesForForm_of_the_run :
  exists bodies,
    listResponsesForForm Scenario.db4 "form-1" = Json 200 (JArr bodies)
    /\ map (fun r => JS.get r "submittedAt") bodies
       = [Some (JStr "2024-05-01 10:00:07"); Some (JStr "2024-05-01 10:00:07");
          Some (JStr "2024-05-01 10:00:05")].
Proof.
  eexists. split; vm_compute; reflexivity.
Qed.


(** ** Dashboard *)

Lemma joined_all_responses (db : Database) :
  primary_keys db -> referential_integrity db ->
  map fst (Sql.joined db) = responses_rows db.
Proof.
  intros Hpk Hri. rewrite joined_scan_order by exact Hpk.
  apply forallb_filter_id. apply forallb_forall. intros r Hr.
  unfold referential_integrity in Hri. rewrite Forall_forall in Hri.
  destruct (Hri r Hr) as (f & Hf & Hid).
  apply existsb_exists. exists f. split; [exact Hf|]. now apply String.eqb_eq.
Qed.



(** With more than five responses the dashboard shows exactly the five
    newest: of seven responses submitted one after the other, the two oldest
    are left out. *)
Lemma computeDashboardStats_five_of_seven :
  let submit (n : string) (db : Database) :=
    snd (submitResponse db
           (Scenario.effects ("r-" ++ n) ("2024-06-01 12:00:0" ++ n)
              ("2024-06-01T12:00:0" ++ n ++ ".000Z"))
           "form-1" (JObj []) JUndefined JUndefined) in
  let db := submit "7" (submit "6" (submit "5" (submit "4" (submit "3" (submit "2"
              (submit "1" Scenario.db1)))))) in
  exists recent,
    JS.get match computeDashboardStats db with Json _ body => body | _ => JNull end
      "recentResponses" = Some (JArr recent)
    /\ map (fun r => JS.get r "id") recent
       = map (fun n => Some (JStr ("r-" ++ n))) ["7"; "6"; "5"; "4"; "3"]%string.
Proof.
  eexists. split; vm_compute; reflexivity.
Qed.

(** ** CSV export *)

Lemma csv_line_texts (row : list jsval) :
  csv_line row = Spec.line (map JS.ToString row).
Proof.
  unfold csv_line, Spec.line. rewrite map_map. reflexivity.
Qed.

Lemma cell_value_text (answer : option jsval) :
  JS.ToString (cell_value answer) = Spec.cell answer.
Proof.
  destruct answer as [v|]; [|reflexivity].
  destruct v as [| |[]|n|s|xs|props]; try reflexivity.
  - cbn. unfold JS.or. cbn. destruct (n =? 0); reflexivity.
  - cbn. unfold JS.or. cbn. destruct (s =? "")%string; reflexivity.
Qed.

Lemma cell_value_converts (answer : option jsval) :
  match answer with Some v => JS.converts v = true | None => True end ->
  JS.converts (cell_value answer) = true.
Proof.
  destruct answer as [v|]; [|reflexivity]. intros Hv.
  destruct v as [| |[]|n|s|xs|props]; try reflexivity; cbn [cell_value]; unfold JS.or.
  - destruct (JS.truthy (JNum n)); reflexivity.
  - destruct (JS.truthy (JStr s)); reflexivity.
  - exact Hv.
Qed.

Lemma assoc_In (k : string) (props : list (string * jsval)) (v : jsval) :
  JS.assoc k props = Some v -> In (k, v) props.
Proof.
  induction props as [|[k' v'] props IH]; [discriminate|]. cbn [JS.assoc].
  destruct (String.eqb_spec k' k) as [->|_].
  - intros H. injection H as <-. now left.
  - intros H. right. now apply IH.
Qed.

(** A name that [Object.prototype] does not define is found on an object
    only as an own property. *)
Lemma inherited_none (props : list (string * jsval)) (k : string) :
  ~ In k JS.Object_prototype -> JS.inherited (JObj props) k = JUndefined.
Proof.
  intros Hk. unfold JS.inherited.
  destruct (String.eqb_spec k "constructor") as [->|_];
    [exfalso; apply Hk; cbn; tauto|].
  destruct (String.eqb_spec k "__proto__") as [->|_];
    [exfalso; apply Hk; cbn; tauto|].
  rewrite List.app_nil_r.
  destruct (existsb (String.eqb k) JS.Object_prototype) eqn:E; [|reflexivity].
  exfalso. apply existsb_exists in E. destruct E as (x & Hx & E).
  apply String.eqb_eq in E. subst x. now apply Hk.
Qed.

Lemma lookup_own (props : list (string * jsval)) (k : string) :
  ~ In k JS.Object_prototype ->
  JS.lookup (JObj props) k
  = Some (match JS.assoc k props with Some v => v | None => JUndefined end).
Proof.
  intros Hk. unfold JS.lookup. destruct (JS.assoc k props); [reflexivity|].
  now rewrite inherited_none.
Qed.

Lemma field_labels (fs : list jsval) (fields : list (string * string)) :
  map_throw Spec.field_id_label fs = Some fields ->
  map_throw (fun f => JS.get f "label") fs = Some (map (fun fl => JStr (snd fl)) fields).
Proof.
  revert fields. induction fs as [|f fs IH]; intros fields H; cbn [map_throw] in *.
  - injection H as <-. reflexivity.
  - destruct (Spec.field_id_label f) as [[i l]|] eqn:Ef; [|discriminate].
    destruct (map_throw Spec.field_id_label fs) as [rest|]; [|discriminate].
    injection H as <-. rewrite (IH rest eq_refl).
    unfold Spec.field_id_label in Ef.
    destruct f as [| | | | | |props]; try discriminate.
    destruct (JS.assoc "id" props) as [[| | | |i'| |]|]; try discriminate.
    destruct (JS.assoc "label" props) as [[| | | |l'| |]|] eqn:El; try discriminate.
    injection Ef as <- <-. cbn [JS.get]. rewrite El. reflexivity.
Qed.

Lemma field_cells (fs : list jsval) (fields : list (string * string))
  (answers : list (string * jsval)) :
  map_throw Spec.field_id_label fs = Some fields ->
  Forall (fun fl => ~ In (fst fl) JS.Object_prototype) fields ->
  Forall (fun kv => JS.converts (snd kv) = true) answers ->
  map_throw (export_cell (JObj answers)) fs
  = Some (map (fun fl => cell_value (JS.assoc (fst fl) answers)) fields).
Proof.
  intros H Hplain Hconv. revert fields H Hplain.
  induction fs as [|f fs IH]; intros fields H Hplain; cbn [map_throw] in *.
  - injection H as <-. reflexivity.
  - destruct (Spec.field_id_label f) as [[i l]|] eqn:Ef; [|discriminate].
    destruct (map_throw Spec.field_id_label fs) as [rest|]; [|discriminate].
    injection H as <-. inversion Hplain as [|? ? Hi Hrest]; subst.
    rewrite (IH rest eq_refl Hrest).
    unfold Spec.field_id_label in Ef.
    destruct f as [| | | | | |props]; try discriminate.
    destruct (JS.assoc "id" props) as [[| | | |i'| |]|] eqn:Ei; try discriminate.
    destruct (JS.assoc "label" props) as [[| | | |l'| |]|]; try discriminate.
    injection Ef as <- <-. cbn [fst] in Hi.
    unfold export_cell. cbn [JS.get]. rewrite Ei. cbn [JS.converts JS.ToString map fst].
    rewrite (lookup_own answers i' Hi).
    destruct (JS.assoc i' answers) as [v|] eqn:Ev; [|reflexivity].
    destruct v as [| | | | |items|]; try reflexivity.
    rewrite Forall_forall in Hconv.
    pose proof (Hconv _ (assoc_In _ _ _ Ev)) as Hitems. cbn [snd] in Hitems.
    now rewrite Hitems.
Qed.

Lemma field_cells_convert (fields : list (string * string))
  (answers : list (string * jsval)) :
  Forall (fun kv => JS.converts (snd kv) = true) answers ->
  forallb JS.converts (map (fun fl => cell_value (JS.assoc (fst fl) answers)) fields) = true.
Proof.
  intros Hconv. apply forallb_forall. intros c Hc. apply in_map_iff in Hc.
  destruct Hc as (fl & <- & _). apply cell_value_converts.
  destruct (JS.assoc (fst fl) answers) as [v|] eqn:Ev; [|exact I].
  rewrite Forall_forall in Hconv. exact (Hconv _ (assoc_In _ _ _ Ev)).
Qed.

Lemma or_converts (v w : jsval) :
  JS.converts v = true -> JS.converts w = true -> JS.converts (JS.or v w) = true.
Proof. intros Hv Hw. unfold JS.or. now destruct (JS.truthy v). Qed.

Lemma export_rows (toLocaleString : string -> string) (fs : list jsval)
  (fields : list (string * string)) (responses : list responses.row)
  (rows : list (responses.row * list (string * jsval))) :
  map_throw Spec.field_id_label fs = Some fields ->
  Forall (fun fl => ~ In (fst fl) JS.Object_prototype) fields ->
  map_throw Spec.response_mapping responses = Some rows ->
  Forall response_converts rows ->
  exists cells,
    map_throw
      (fun response =>
         match JS.parse (responses.answers response) with
         | None => None
         | Some answers =>
             match map_throw (export_cell answers) fs with
             | None => None
             | Some cells =>
                 Some (JStr (toLocaleString (responses.submitted_at response))
                       :: JS.or (responses.submitter_name response) (JStr "")
                       :: JS.or (responses.submitter_email response) (JStr "")
                       :: cells)
             end
         end) responses = Some cells
    /\ forallb (forallb JS.converts) cells = true
    /\ map csv_line cells = map Spec.line (map (Spec.row toLocaleString fields) rows)
    /\ map fst rows = responses.
Proof.
  intros Hf Hplain. revert rows.
  induction responses as [|r rs IH]; intros rows H Hconv; cbn [map_throw] in *.
  - injection H as <-. exists []. repeat split.
  - destruct (Spec.response_mapping r) as [[r' answers]|] eqn:Er; [|discriminate].
    destruct (map_throw Spec.response_mapping rs) as [rest|]; [|discriminate].
    injection H as <-. inversion Hconv as [|? ? (Hn & He & Ha) Hrest]; subst.
    destruct (IH rest eq_refl Hrest) as (cells & Hc & Hv & Hl & Hr).
    unfold Spec.response_mapping in Er.
    destruct (JS.parse (responses.answers r)) as [[| | | | | |ps]|]; try discriminate.
    injection Er as <- <-. cbn [fst snd] in Hn, He, Ha.
    rewrite (field_cells fs fields ps Hf Hplain Ha), Hc.
    eexists. split; [reflexivity|]. split; [|split].
    + cbn [forallb JS.converts]. rewrite Hv, (field_cells_convert fields ps Ha).
      now rewrite !or_converts.
    + cbn [map]. rewrite Hl. f_equal.
      rewrite csv_line_texts. unfold Spec.row. cbn [map fst snd JS.ToString].
      do 4 f_equal. rewrite map_map. apply map_ext. intros fl. apply cell_value_text.
    + cbn [map fst]. now rewrite Hr.
Qed.

(** A value of a header stays valid when valid text is put before it. *)
Lemma valid_header_value_app (a b : string) :
  valid_header_value a = true ->
  valid_header_value (a ++ b) = valid_header_value b.
Proof.
  remember (String.length a) as n eqn:Hn. revert a Hn.
  induction n as [n IH] using lt_wf_ind. intros a Hn H.
  destruct a as [|c r]; [reflexivity|].
  change (String c r ++ b)%string with (String c (r ++ b)).
  cbn [valid_header_value] in *.
  destruct ((N_of_ascii c =? 9) || (32 <=? N_of_ascii c) && (N_of_ascii c <=? 126))%N.
  - apply (IH (String.length r)); [subst n; cbn; lia | reflexivity | exact H].
  - destruct ((N_of_ascii c =? 194) || (N_of_ascii c =? 195))%N; [|discriminate].
    destruct r as [|c' r']; [discriminate|].
    change (String c' r' ++ b)%string with (String c' (r' ++ b)). cbn iota.
    apply andb_true_iff in H. destruct H as [H1 H2]. rewrite H1. cbn [andb].
    apply (IH (String.length r')); [subst n; cbn; lia | reflexivity | exact H2].
Qed.

Lemma content_disposition_valid (title : string) :
  valid_header_value title = true ->
  valid_header_value (content_disposition title) = true.
Proof.
  intros H. unfold content_disposition.
  rewrite valid_header_value_app by reflexivity.
  change (valid_header_value (title ++ "_responses.csv" ++ String JS.dquote "") = true).
  now rewrite valid_header_value_app by exact H.
Qed.

(** The export, where it answers, is the CSV of the specification: for a
    stored form whose title a header can carry, whose fields carry an id and
    a label, no id being a name of [Object.prototype], and for stored answers
    that are mappings of values with a text. *)
Lemma exportResponsesAsCsv_is_Spec_csv (toLocaleString : string -> string)
  (db : Database) (id : string) (form : forms.row) (fields : list (string * string))
  (rows : list (responses.row * list (string * jsval))) :
  Sql.select_form db id = Some form ->
  JS.converts (forms.title form) = true ->
  valid_header_value (JS.ToString (forms.title form)) = true ->
  Spec.form_fields form = Some fields ->
  Forall (fun fl => ~ In (fst fl) JS.Object_prototype) fields ->
  map_throw Spec.response_mapping (Sql.select_responses db id) = Some rows ->
  Forall response_converts rows ->
  exportResponsesAsCsv toLocaleString db id
  = Attachment "text/csv" (content_disposition (JS.ToString (forms.title form)))
      (Spec.csv toLocaleString fields rows)
  /\ map fst rows = Sql.select_responses db id.
Proof.
  intros Hsel Htitle Hheader Hfields Hplain Hrows Hconv.
  unfold exportResponsesAsCsv. rewrite Hsel.
  unfold Spec.form_fields in Hfields.
  destruct (JS.parse (forms.fields form)) as [[| | | | |fs|]|]; try discriminate.
  rewrite (field_labels fs fields Hfields).
  destruct (export_rows toLocaleString fs fields _ rows Hfields Hplain Hrows Hconv)
    as (cells & Hc & Hv & Hl & Hr).
  rewrite Hc, Htitle, (content_disposition_valid _ Hheader).
  assert (Hlabels : forallb JS.converts (map (fun fl => JStr (snd fl)) fields) = true).
  { apply forallb_forall. intros c Hin. apply in_map_iff in Hin.
    now destruct Hin as (fl & <- & _). }
  cbn [forallb JS.converts]. rewrite Hlabels, Hv. cbn [andb].
  split; [|exact Hr].
  f_equal. unfold Spec.csv. f_equal. cbn [map]. rewrite Hl. f_equal.
  rewrite csv_line_texts. unfold Spec.header. cbn [map JS.ToString].
  do 4 f_equal. rewrite !map_map. reflexivity.
Qed.

(** The export throws whenever the title of the form cannot be carried by
    a header, whatever the fields and the responses are. *)
Lemma exportResponsesAsCsv_refused_title (toLocaleString : string -> string)
  (db : Database) (id : string) (form : forms.row) :
  Sql.select_form db id = Some form ->
  valid_header_value (content_disposition (JS.ToString (forms.title form))) = false ->
  exportResponsesAsCsv toLocaleString db id = Throw.
Proof.
  intros Hsel Hbad. unfold exportResponsesAsCsv. rewrite Hsel, Hbad.
  destruct (JS.parse (forms.fields form)) as [[| | | | |fs|]|]; try reflexivity.
  destruct (map_throw _ fs); [|reflexivity].
  destruct (map_throw _ (Sql.select_responses db id)); [|reflexivity].
  now rewrite andb_false_r.
Qed.

(** C3.  The export is meant to give a CSV for every form.  It does for a
    form titled in Latin-1, as on the example of the specification.  For a
    form whose title has a character beyond U+00FF (here a title in Cyrillic)
    or a control character, [res.setHeader] refuses the
    [Content-Disposition] built from the title and throws inside the callback
    of the query: the form is there, its response is listed, and the export
    sends no reply at all. *)
Theorem exportResponsesAsCsv_throws_on_title (toLocaleString : string -> string) :
  (exists form,
      getForm Scenario.db6 "form-2" = Json 200 form
      /\ JS.get form "title" = Some (JStr Scenario.klub))
  /\ (exists response, listResponsesForForm Scenario.db6 "form-2" = Json 200 (JArr [response]))
  /\ valid_header_value (content_disposition Scenario.klub) = false
  /\ exportResponsesAsCsv toLocaleString Scenario.db6 "form-2" = Throw
  /\ exportResponsesAsCsv toLocaleString Scenario.db6 "form-1"
     = Attachment "text/csv" (content_disposition "Club")
         (Spec.line ["Submitted At"; "Name"; "Email"; "Name"; "Tags"] ++ newline
          ++ Spec.line [toLocaleString "2024-05-01 10:00:07"; "Bob"; ""; ""; ""] ++ newline
          ++ Spec.line [toLocaleString "2024-05-01 10:00:07"; ""; "c@d.e"; ""; ""] ++ newline
          ++ Spec.line [toLocaleString "2024-05-01 10:00:05"; ""; ""; "Alice"; "a, b"]).
Proof.
  split; [eexists; split; vm_compute; reflexivity|].
  split; [eexists; vm_compute; reflexivity|].
  split; [vm_compute; reflexivity|].
  split; vm_compute; reflexivity.
Qed.

(** The specification's own example: one response [{name: "Alice", tags:
    ["a", "b"]}] to the form with the fields [name] and [tags]. *)
Lemma export_of_the_example (toLocaleString : string -> string) :
  exportResponsesAsCsv toLocaleString Scenario.db2 "form-1"
  = Attachment "text/csv" (content_disposition "Club")
      (Spec.line ["Submitted At"; "Name"; "Email"; "Name"; "Tags"]
       ++ newline
       ++ Spec.line [toLocaleString "2024-05-01 10:00:05"; ""; ""; "Alice"; "a, b"]).
Proof. vm_compute. reflexivity. Qed.

(** A field whose id is a name of [Object.prototype] and that has no answer
    shows the text of the inherited function, where the specification has the
    empty cell. *)
Lemma export_of_an_inherited_name (toLocaleString : string -> string) :
  let db :=
    snd (submitResponse
           (snd (createForm Scenario.db0
                   (Scenario.effects "form-1" "2024-05-01 10:00:00" "2024-05-01T10:00:00.250Z")
                   (JStr "Club") JUndefined
                   (JArr [JObj [("id", JStr "constructor"); ("label", JStr "Made by")]])))
           (Scenario.effects "resp-1" "2024-05-01 10:00:05" "2024-05-01T10:00:05.120Z")
           "form-1" (JObj []) JUndefined JUndefined) in
  exportResponsesAsCsv toLocaleString db "form-1"
  = Attachment "text/csv" (content_disposition "Club")
      (Spec.line ["Submitted At"; "Name"; "Email"; "Made by"]
       ++ newline
       ++ Spec.line [toLocaleString "2024-05-01 10:00:05"; ""; "";
                     "function Object() { [native code] }"]).
Proof. vm_compute. reflexivity. Qed.

(** C10.  In the export every answer that is not an array and is falsy (the
    empty string, 0, [false], [null]) gives the empty cell, written as two
    double quotes, and not its text: the export of a form is the table whose
    field cells are [Spec.cell] of the answers, and [Spec.cell] of such an
    answer is empty, where a truthy answer gives its text. *)
Theorem export_falsy_answer_is_empty_cell (toLocaleString : string -> string)
  (db : Database) (id : string) (form : forms.row) (fields : list (string * string))
  (rows : list (responses.row * list (string * jsval))) :
  Sql.select_form db id = Some form ->
  JS.converts (forms.title form) = true ->
  valid_header_value (JS.ToString (forms.title form)) = true ->
  Spec.form_fields form = Some fields ->
  Forall (fun fl => ~ In (fst fl) JS.Object_prototype) fields ->
  map_throw Spec.response_mapping (Sql.select_responses db id) = Some rows ->
  Forall response_converts rows ->
  exportResponsesAsCsv toLocaleString db id
  = Attachment "text/csv" (content_disposition (JS.ToString (forms.title form)))
      (String.concat newline
         (Spec.line ("Submitted At" :: "Name" :: "Email" :: map snd fields)
          :: map (fun ra =>
                    Spec.line
                      (toLocaleString (responses.submitted_at (fst ra))
                       :: JS.ToString (JS.or (responses.submitter_name (fst ra)) (JStr ""))
                       :: JS.ToString (JS.or (responses.submitter_email (fst ra)) (JStr ""))
                       :: map (fun fl => Spec.cell (JS.assoc (fst fl) (snd ra))) fields))
               rows))
  /\ map fst rows = Sql.select_responses db id
  /\ (forall ra fl v,
        In ra rows -> In fl fields -> JS.assoc (fst fl) (snd ra) = Some v ->
        JS.isArray v = false -> JS.truthy v = false ->
        Spec.cell (JS.assoc (fst fl) (snd ra)) = ""%string
        /\ (v = JStr "" \/ v = JNum 0 \/ v = JBool false \/ v = JNull \/ v = JUndefined))
  /\ (forall ra fl v,
        In ra rows -> In fl fields -> JS.assoc (fst fl) (snd ra) = Some v ->
        JS.isArray v = false -> JS.truthy v = true ->
        Spec.cell (JS.assoc (fst fl) (snd ra)) = JS.ToString v)
  /\ Spec.line [""%string] = String JS.dquote (String JS.dquote "").
Proof.
  intros Hsel Htitle Hheader Hfields Hplain Hrows Hconv.
  destruct (exportResponsesAsCsv_is_Spec_csv toLocaleString db id form fields rows
              Hsel Htitle Hheader Hfields Hplain Hrows Hconv) as [Hcsv Hfst].
  split; [rewrite Hcsv; unfold Spec.csv; cbn [map]; now rewrite map_map|].
  split; [exact Hfst|]. split; [|split; [|reflexivity]].
  - intros ra fl v _ _ Hv Harr Hfalsy. rewrite Hv.
    destruct v as [| |[]|n|s|xs|props]; try discriminate; cbn in *.
    + split; auto 10.
    + split; auto 10.
    + split; auto 10.
    + apply negb_false_iff, Z.eqb_eq in Hfalsy. subst n. split; auto 10.
    + apply negb_false_iff, String.eqb_eq in Hfalsy. subst s. split; auto 10.
  - intros ra fl v _ _ Hv Harr Htruthy. rewrite Hv.
    destruct v as [| |[]|n|s|xs|props]; try discriminate; cbn [Spec.cell];
      now rewrite ?Htruthy.
Qed.

Lemma export_falsy_answer_is_empty_cell_witness :
  exportResponsesAsCsv (fun text => text) Scenario.db4 "form-1"
  = Attachment "text/csv" (content_disposition "Club")
      (Spec.line ["Submitted At"; "Name"; "Email"; "Name"; "Tags"] ++ newline
       ++ Spec.line ["2024-05-01 10:00:07"; "Bob"; ""; ""; ""] ++ newline
       ++ Spec.line ["2024-05-01 10:00:07"; ""; "c@d.e"; ""; ""] ++ newline
       ++ Spec.line ["2024-05-01 10:00:05"; ""; ""; "Alice"; "a, b"]).
Proof.
  refine (proj1 (export_falsy_answer_is_empty_cell (fun text => text) Scenario.db4 "form-1"
              {| forms.id := "form-1";
                 forms.title := JStr "Club";
                 forms.description := JStr "";
                 forms.fields := JS.stringify Scenario.fields;
                 forms.created_at := "2024-05-01 10:00:00" |}
              [("name", "Name"); ("tags", "Tags")]%string
              [ ({| responses.id := "resp-2"; responses.form_id := "form-1";
                    responses.answers :=
                      JS.stringify (JObj [("name", JStr ""); ("tags", JNull)]);
                    responses.submitter_name := JStr "Bob";
                    responses.submitter_email := JNull;
                    responses.submitted_at := "2024-05-01 10:00:07" |},
                 [("name", JStr ""); ("tags", JNull)]);
                ({| responses.id := "resp-3"; responses.form_id := "form-1";
                    responses.answers :=
                      JS.stringify (JObj [("name", JNum 0); ("tags", JBool false)]);
                    responses.submitter_name := JNull;
                    responses.submitter_email := JStr "c@d.e";
                    responses.submitted_at := "2024-05-01 10:00:07" |},
                 [("name", JNum 0); ("tags", JBool false)]);
                ({| responses.id := "resp-1"; responses.form_id := "form-1";
                    responses.answers := JS.stringify Scenario.alice;
                    responses.submitter_name := JNull;
                    responses.submitter_email := JNull;
                    responses.submitted_at := "2024-05-01 10:00:05" |},
                 [("name", JStr "Alice"); ("tags", JArr [JStr "a"; JStr "b"])]) ]
              _ _ _ _ _ _ _)).
  - reflexivity.
  - reflexivity.
  - reflexivity.
  - reflexivity.
  - repeat constructor; cbn; intros H; repeat (destruct H as [H|H]; [discriminate|]);
      exact H.
  - reflexivity.
  - repeat constructor.
Defined.

(** ** The conditions used above hold along every run of the service *)

Lemma stored_json_open : stored_json (open_database [] []).
Proof. split; constructor. Qed.

Lemma createForm_keeps_stored_json (db : Database) (fx : Effects)
  (title description fields : jsval) :
  JS.json_value fields -> stored_json db ->
  stored_json (snd (createForm db fx title description fields)).
Proof.
  intros Hjs [Hf Hr]. unfold createForm, Sql.insert_form.
  destruct (invalid_form title fields); [now split|].
  destruct (existsb _ _); [now split|].
  split; [|exact Hr]. cbn [snd forms_rows].
  apply Forall_app. split; [exact Hf|].
  constructor; [|constructor]. exists fields. now apply JSON_facts.parse_stringify.
Qed.

Lemma updateForm_keeps_stored_json (db : Database) (id : string)
  (title description fields : jsval) :
  JS.json_value fields -> stored_json db ->
  stored_json (snd (updateForm db id title description fields)).
Proof.
  intros Hjs [Hf Hr]. unfold updateForm.
  destruct (invalid_form title fields); [now split|].
  assert (H : stored_json (fst (Sql.update_form db id title (JS.or description (JStr ""))
                                  (JS.stringify fields)))).
  { split; [|exact Hr]. cbn [fst Sql.update_form forms_rows].
    rewrite Forall_forall in *. intros f Hin. apply in_map_iff in Hin.
    destruct Hin as (g & <- & Hg).
    destruct (forms.id g =? id)%string; [|now apply Hf].
    exists fields. now apply JSON_facts.parse_stringify. }
  destruct (Sql.update_form _ _ _ _ _) as [db' n]. cbn [fst] in H.
  destruct (n =? 0)%nat; exact H.
Qed.

Lemma deleteForm_keeps_stored_json (db : Database) (id : string) :
  stored_json db -> stored_json (snd (deleteForm db id)).
Proof.
  intros [Hf Hr]. rewrite deleteForm_db. cbn [fst Sql.delete_form].
  split; cbn [forms_rows responses_rows].
  - rewrite Forall_forall in *. intros f Hin. apply filter_In in Hin. now apply Hf.
  - destruct (_ && _); [|exact Hr].
    rewrite Forall_forall in *. intros r Hin. apply filter_In in Hin. now apply Hr.
Qed.

Lemma submitResponse_keeps_stored_json (db : Database) (fx : Effects) (formId : string)
  (answers submitterName submitterEmail : jsval) :
  JS.json_value answers -> stored_json db ->
  stored_json (snd (submitResponse db fx formId answers submitterName submitterEmail)).
Proof.
  intros Hjs [Hf Hr]. unfold submitResponse, Sql.insert_response.
  destruct (_ || _); [now split|].
  destruct (Sql.select_form db formId); [|now split].
  destruct (existsb _ _); [now split|].
  destruct (_ && _); [now split|].
  split; [exact Hf|]. cbn [snd responses_rows].
  apply Forall_app. split; [exact Hr|].
  constructor; [|constructor]. exists answers. now apply JSON_facts.parse_stringify.
Qed.

Lemma NoDup_snoc {A : Type} (l : list A) (x : A) :
  NoDup l -> ~ In x l -> NoDup (l ++ [x]).
Proof.
  induction 1 as [|y l Hy Hl IH]; intros Hx; cbn.
  - constructor; [intros [] | constructor].
  - constructor.
    + intros Hin. apply in_app_or in Hin. destruct Hin as [Hin | [-> | []]].
      * now apply Hy.
      * apply Hx. now left.
    + apply IH. intros Hin. apply Hx. now right.
Qed.

Lemma createForm_keeps_primary_keys (db : Database) (fx : Effects)
  (title description fields : jsval) :
  primary_keys db -> primary_keys (snd (createForm db fx title description fields)).
Proof.
  unfold primary_keys. intros Hpk. unfold createForm, Sql.insert_form.
  destruct (invalid_form title fields); [exact Hpk|].
  destruct (existsb _ _) eqn:E; [exact Hpk|].
  cbn [snd forms_rows]. rewrite map_app. cbn [map forms.id].
  apply NoDup_snoc; [exact Hpk|].
  intros Hin. apply in_map_iff in Hin. destruct Hin as (g & Hid & Hg).
  assert (H : existsb (fun g0 => (forms.id g0 =? uuidv4 fx)%string) (forms_rows db) = true).
  { apply existsb_exists. exists g. split; [exact Hg | now apply String.eqb_eq]. }
  cbn [forms.id] in E. congruence.
Qed.

Lemma updateForm_keeps_primary_keys (db : Database) (id : string)
  (title description fields : jsval) :
  primary_keys db -> primary_keys (snd (updateForm db id title description fields)).
Proof.
  unfold primary_keys. intros Hpk. unfold updateForm.
  destruct (invalid_form title fields); [exact Hpk|].
  pose proof (proj1 (update_form_frame db id title (JS.or description (JStr ""))
                       (JS.stringify fields))) as H.
  destruct (Sql.update_form _ _ _ _ _) as [db' n]. cbn [fst] in H.
  destruct (n =? 0)%nat; cbn [snd]; now rewrite H.
Qed.

Lemma submitResponse_keeps_referential_integrity (db : Database) (fx : Effects)
  (formId : string) (answers submitterName submitterEmail : jsval) :
  referential_integrity db ->
  referential_integrity
    (snd (submitResponse db fx formId answers submitterName submitterEmail)).
Proof.
  unfold referential_integrity. intros Hri. unfold submitResponse, Sql.insert_response.
  destruct (_ || _); [exact Hri|].
  destruct (Sql.select_form db formId) as [form|] eqn:Hsel; [|exact Hri].
  destruct (existsb _ _); [exact Hri|].
  destruct (_ && _); [exact Hri|].
  cbn [snd responses_rows forms_rows]. apply Forall_app. split; [exact Hri|].
  constructor; [|constructor]. cbn [responses.form_id].
  unfold Sql.select_form in Hsel. apply find_some in Hsel. destruct Hsel as [Hin Hid].
  exists form. split; [exact Hin | now apply String.eqb_eq].
Qed.

(** On a connection that enforced foreign keys, [deleteForm] would keep every
    remaining response attached to a form. *)
Lemma deleteForm_keeps_referential_integrity_when_enforced (db : Database) (id : string) :
  foreign_keys db = true -> referential_integrity db ->
  referential_integrity (snd (deleteForm db id)).
Proof.
  unfold referential_integrity. intros Hfk Hri. rewrite deleteForm_db.
  cbn [fst Sql.delete_form forms_rows responses_rows]. rewrite Hfk. cbn [andb].
  rewrite Forall_forall in *.
  assert (Hkeep : forall r, In r (responses_rows db) -> responses.form_id r <> id ->
            exists f, In f (filter (fun f => negb (forms.id f =? id)%string) (forms_rows db))
                      /\ forms.id f = responses.form_id r).
  { intros r Hr Hne. destruct (Hri r Hr) as (f & Hf & Hid).
    exists f. split; [|exact Hid]. apply filter_In. split; [exact Hf|].
    apply negb_true_iff, String.eqb_neq. congruence. }
  destruct (existsb _ _) eqn:E.
  - intros r Hin. apply filter_In in Hin. destruct Hin as [Hr Hne].
    apply Hkeep; [exact Hr|]. now apply String.eqb_neq, negb_true_iff.
  - intros r Hr. apply Hkeep; [exact Hr|]. intros Heq.
    destruct (Hri r Hr) as (f & Hf & Hid).
    assert (H : existsb (fun f0 => (forms.id f0 =? id)%string) (forms_rows db) = true).
    { apply existsb_exists. exists f. split; [exact Hf|]. apply String.eqb_eq. congruence. }
    congruence.
Qed.

(** The server's connection does not enforce them: after the run of the
    examples and the deletion of the form, three responses reference a form
    that is gone. *)
Lemma deleteForm_breaks_referential_integrity :
  referential_integrity Scenario.db4
  /\ ~ referential_integrity (snd (deleteForm Scenario.db4 "form-1")).
Proof.
  split.
  - repeat constructor; eexists; (split; [left; reflexivity | reflexivity]).
  - intros H. inversion H as [|r rows (f & Hf & _) _]. destruct Hf.
Qed.

(** Quotients halfway between two one-decimal numbers: [toFixed] rounds the
    double, which lies on one side or the other of the decimal tie. *)
Lemma avgResponsesPerForm_ties :
  avgResponsesPerForm 20 3 = "0.1"%string
  /\ avgResponsesPerForm 20 1 = "0.1"%string
  /\ avgResponsesPerForm 4 1 = "0.3"%string
  /\ avgResponsesPerForm 3 2 = "0.7"%string.
Proof.
  split; [vm_compute; reflexivity|].
  split; [vm_compute; reflexivity|].
  split; vm_compute; reflexivity.
Qed.

(** The export of the run of the examples: the answers [""], [null], [0] and
    [false] all give the empty cell. *)
Lemma export_falsy_cells :
  exists disposition,
    exportResponsesAsCsv (fun text => text) Scenario.db4 "form-1"
    = Attachment "text/csv" disposition
        (Spec.line ["Submitted At"; "Name"; "Email"; "Name"; "Tags"] ++ newline
         ++ Spec.line ["2024-05-01 10:00:07"; "Bob"; ""; ""; ""] ++ newline
         ++ Spec.line ["2024-05-01 10:00:07"; ""; "c@d.e"; ""; ""] ++ newline
         ++ Spec.line ["2024-05-01 10:00:05"; ""; ""; "Alice"; "a, b"]).
Proof. eexists. vm_compute. reflexivity. Qed.

(* ===================================================================== *)
(** * Part III. Further properties of the handlers *)
(* ===================================================================== *)

(** ** Runs of the service *)

Lemma invalid_form_absent (title : jsval) : invalid_form title JUndefined = true.
Proof. unfold invalid_form. destruct (JS.truthy title); reflexivity. Qed.

Lemma serve_keeps_stored_json (db : Database) (req : request) :
  json_request req -> stored_json db -> stored_json (snd (serve db req)).
Proof.
  destruct req as [fx t d f | id t d f | id | fx formId a n e]; cbn [serve json_request].
  - intros [-> | Hjs] Hdb; [|now apply createForm_keeps_stored_json].
    unfold createForm. now rewrite invalid_form_absent.
  - intros [-> | Hjs] Hdb; [|now apply updateForm_keeps_stored_json].
    unfold updateForm. now rewrite invalid_form_absent.
  - intros _. apply deleteForm_keeps_stored_json.
  - intros [-> | Hjs] Hdb; [exact Hdb | now apply submitResponse_keeps_stored_json].
Qed.

Lemma serve_all_keeps_stored_json (reqs : list request) (db : Database) :
  Forall json_request reqs -> stored_json db -> stored_json (serve_all db reqs).
Proof.
  revert db. induction reqs as [|req reqs IH]; intros db Hreqs Hdb; [exact Hdb|].
  inversion Hreqs; subst. cbn [serve_all]. apply IH; [assumption|].
  now apply serve_keeps_stored_json.
Qed.

(** X1.  Whatever JSON bodies the write requests carry, and in whatever
    order they come, the texts the handlers leave in the [fields] and
    [answers] columns are texts [JSON.parse] accepts: after any run the
    listings and the dashboard answer 200 and no read throws. *)
Theorem reads_never_throw_after_a_run (db : Database) (reqs : list request) :
  stored_json db -> Forall json_request reqs ->
  stored_json (serve_all db reqs)
  /\ (exists forms, listForms (serve_all db reqs) = Json 200 (JArr forms))
  /\ (forall id, exists rs, listResponsesForForm (serve_all db reqs) id = Json 200 (JArr rs))
  /\ (exists rs, listAllResponses (serve_all db reqs) = Json 200 (JArr rs))
  /\ (exists stats, computeDashboardStats (serve_all db reqs) = Json 200 stats)
  /\ (forall id, getForm (serve_all db reqs) id <> Throw).
Proof.
  intros Hdb Hreqs.
  pose proof (serve_all_keeps_stored_json reqs db Hreqs Hdb) as H.
  set (db' := serve_all db reqs) in *.
  split; [exact H|]. split; [|split; [|split; [|split]]].
  - destruct (form_rows_render db' (Sql.order_by_desc forms.created_at (forms_rows db')) H)
      as [bodies Hb].
    { intros f Hin. eapply Permutation_in; [apply order_by_desc_perm | exact Hin]. }
    exists bodies. unfold listForms. now rewrite Hb.
  - intros id.
    destruct (response_rows_render db' (Sql.select_responses db' id) H) as [bodies Hb].
    { intros r Hin. unfold Sql.select_responses in Hin.
      apply (Permutation_in _ (order_by_desc_perm _ _)) in Hin.
      apply filter_In in Hin. tauto. }
    exists bodies. unfold listResponsesForForm. now rewrite Hb.
  - destruct (joined_rows_render db' (Sql.select_joined db') H) as [bodies Hb].
    { intros rf Hin. eapply Permutation_in; [apply order_by_desc_perm | exact Hin]. }
    exists bodies. unfold listAllResponses. now rewrite Hb.
  - destruct (joined_rows_render db' (firstn 5 (Sql.select_joined db')) H) as [bodies Hb].
    { intros rf Hin. apply In_firstn in Hin.
      eapply Permutation_in; [apply order_by_desc_perm | exact Hin]. }
    eexists. unfold computeDashboardStats. rewrite Hb. reflexivity.
  - intros id. unfold getForm.
    destruct (Sql.select_form db' id) as [row|] eqn:Hsel; [|discriminate].
    unfold Sql.select_form in Hsel. apply find_some in Hsel. destruct Hsel as [Hin _].
    destruct H as [Hf _]. rewrite Forall_forall in Hf. destruct (Hf row Hin) as [v Hv].
    unfold form_of_row. rewrite Hv. discriminate.
Qed.

Lemma reads_never_throw_after_a_run_witness :
  exists forms,
    listForms
      (serve_all Scenario.db0
         [CreateForm (Scenario.effects "form-1" "2024-05-01 10:00:00" "2024-05-01T10:00:00.250Z")
            (JStr "Club") JUndefined Scenario.fields;
          SubmitResponse (Scenario.effects "resp-1" "2024-05-01 10:00:05" "2024-05-01T10:00:05.120Z")
            "form-1" Scenario.alice JUndefined JUndefined;
          UpdateForm "form-1" (JStr "Members") (JStr "d") (JArr []);
          DeleteForm "form-1"])
    = Json 200 (JArr forms).
Proof.
  refine (proj1 (proj2 (reads_never_throw_after_a_run Scenario.db0 _ _ _))).
  - split; constructor.
  - repeat constructor; right; cbn; repeat split; reflexivity.
Defined.

Lemma NoDup_map_filter {A : Type} (key : A -> string) (keep : A -> bool) (rows : list A) :
  NoDup (map key rows) -> NoDup (map key (filter keep rows)).
Proof.
  intros Hrows. induction rows as [|x rows IH]; [exact Hrows|].
  cbn [map filter] in *. inversion Hrows as [|? ? Hx Hl]; subst.
  destruct (keep x); [|now apply IH].
  cbn [map]. constructor; [|now apply IH].
  intros Hin. apply Hx. apply in_map_iff in Hin. destruct Hin as (y & Hy & Hin).
  apply filter_In in Hin. apply in_map_iff. exists y. tauto.
Qed.

Lemma createForm_responses (db : Database) (fx : Effects) (t d f : jsval) :
  responses_rows (snd (createForm db fx t d f)) = responses_rows db.
Proof.
  unfold createForm, Sql.insert_form. destruct (invalid_form t f); [reflexivity|].
  destruct (existsb _ _); reflexivity.
Qed.

Lemma updateForm_responses (db : Database) (id : string) (t d f : jsval) :
  responses_rows (snd (updateForm db id t d f)) = responses_rows db.
Proof.
  unfold updateForm. destruct (invalid_form t f); [reflexivity|].
  cbn. destruct (_ =? _)%nat; reflexivity.
Qed.

Lemma submitResponse_forms (db : Database) (fx : Effects) (formId : string) (a n e : jsval) :
  forms_rows (snd (submitResponse db fx formId a n e)) = forms_rows db.
Proof.
  unfold submitResponse, Sql.insert_response. destruct (_ || _); [reflexivity|].
  destruct (Sql.select_form db formId); [|reflexivity].
  destruct (existsb _ _); [reflexivity|]. destruct (_ && _); reflexivity.
Qed.

Lemma serve_keeps_primary_keys (db : Database) (req : request) :
  primary_keys db -> primary_keys (snd (serve db req)).
Proof.
  destruct req as [fx t d f | id t d f | id | fx formId a n e]; cbn [serve].
  - apply createForm_keeps_primary_keys.
  - apply updateForm_keeps_primary_keys.
  - unfold primary_keys. rewrite deleteForm_db. cbn [fst Sql.delete_form forms_rows].
    apply NoDup_map_filter.
  - unfold primary_keys. now rewrite submitResponse_forms.
Qed.

Lemma serve_keeps_response_keys (db : Database) (req : request) :
  response_keys db -> response_keys (snd (serve db req)).
Proof.
  unfold response_keys.
  destruct req as [fx t d f | id t d f | id | fx formId a n e]; cbn [serve].
  - now rewrite createForm_responses.
  - now rewrite updateForm_responses.
  - rewrite deleteForm_db. cbn [fst Sql.delete_form responses_rows].
    destruct (_ && _); [apply NoDup_map_filter | trivial].
  - intros Hnd. unfold submitResponse, Sql.insert_response.
    destruct (_ || _); [exact Hnd|].
    destruct (Sql.select_form db formId); [|exact Hnd].
    destruct (existsb _ _) eqn:E; [exact Hnd|]. destruct (_ && _); [exact Hnd|].
    cbn [snd responses_rows]. rewrite map_app. cbn [map responses.id].
    apply NoDup_snoc; [exact Hnd|].
    intros Hin. apply in_map_iff in Hin. destruct Hin as (q & Hid & Hq).
    assert (H : existsb (fun q0 => (responses.id q0 =? uuidv4 fx)%string)
                  (responses_rows db) = true).
    { apply existsb_exists. exists q. split; [exact Hq | now apply String.eqb_eq]. }
    cbn [responses.id] in E. congruence.
Qed.

Lemma serve_keeps_foreign_keys (db : Database) (req : request) :
  foreign_keys (snd (serve db req)) = foreign_keys db.
Proof.
  pose (fx0 := {| uuidv4 := ""; CURRENT_TIMESTAMP := ""; toISOString := "" |}).
  destruct req as [fx t d f | id t d f | id | fx formId a n e]; cbn [serve].
  - apply (handlers_keep_foreign_keys db fx "" t d f).
  - apply (handlers_keep_foreign_keys db fx0 id t d f).
  - apply (handlers_keep_foreign_keys db fx0 id JUndefined JUndefined JUndefined).
  - apply (handlers_keep_foreign_keys db fx formId a n e).
Qed.

(** X2.  The identifiers stay unique along every run, whatever [uuidv4]
    returns: the two primary keys refuse a duplicate.  The connection keeps
    its foreign-key setting: no request switches enforcement on. *)
Theorem keys_stay_unique_along_a_run (db : Database) (reqs : list request) :
  primary_keys db -> response_keys db ->
  primary_keys (serve_all db reqs)
  /\ response_keys (serve_all db reqs)
  /\ foreign_keys (serve_all db reqs) = foreign_keys db.
Proof.
  revert db. induction reqs as [|req reqs IH]; intros db Hpk Hrk; [auto|].
  cbn [serve_all].
  destruct (IH (snd (serve db req))) as (H1 & H2 & H3).
  - now apply serve_keeps_primary_keys.
  - now apply serve_keeps_response_keys.
  - repeat split; [exact H1 | exact H2 |]. rewrite H3. apply serve_keeps_foreign_keys.
Qed.

Lemma keys_stay_unique_along_a_run_witness :
  primary_keys
    (serve_all Scenario.db0
       [CreateForm (Scenario.effects "form-1" "2024-05-01 10:00:00" "2024-05-01T10:00:00.250Z")
          (JStr "Club") JUndefined Scenario.fields;
        CreateForm (Scenario.effects "form-1" "2024-05-01 10:00:01" "2024-05-01T10:00:01.250Z")
          (JStr "Again") JUndefined Scenario.fields])
  /\ response_keys
       (serve_all Scenario.db0
          [CreateForm (Scenario.effects "form-1" "2024-05-01 10:00:00" "2024-05-01T10:00:00.250Z")
             (JStr "Club") JUndefined Scenario.fields;
           CreateForm (Scenario.effects "form-1" "2024-05-01 10:00:01" "2024-05-01T10:00:01.250Z")
             (JStr "Again") JUndefined Scenario.fields])
  /\ foreign_keys
       (serve_all Scenario.db0
          [CreateForm (Scenario.effects "form-1" "2024-05-01 10:00:00" "2024-05-01T10:00:00.250Z")
             (JStr "Club") JUndefined Scenario.fields;
           CreateForm (Scenario.effects "form-1" "2024-05-01 10:00:01" "2024-05-01T10:00:01.250Z")
             (JStr "Again") JUndefined Scenario.fields])
     = foreign_keys Scenario.db0.
Proof.
  apply keys_stay_unique_along_a_run; constructor.
Defined.

Lemma createForm_keeps_referential_integrity (db : Database) (fx : Effects) (t d f : jsval) :
  referential_integrity db -> referential_integrity (snd (createForm db fx t d f)).
Proof.
  unfold referential_integrity. intros Hri. unfold createForm, Sql.insert_form.
  destruct (invalid_form t f); [exact Hri|]. destruct (existsb _ _); [exact Hri|].
  cbn [snd forms_rows responses_rows].
  eapply Forall_impl; [|exact Hri]. cbn beta. intros r (g & Hg & Hid).
  exists g. split; [apply in_or_app; now left | exact Hid].
Qed.

Lemma updateForm_keeps_referential_integrity (db : Database) (id : string) (t d f : jsval) :
  referential_integrity db -> referential_integrity (snd (updateForm db id t d f)).
Proof.
  unfold referential_integrity. intros Hri. rewrite updateForm_responses.
  eapply Forall_impl; [|exact Hri]. cbn beta. intros r (g & Hg & Hid).
  assert (Hin : In (responses.form_id r) (map forms.id (forms_rows db))).
  { rewrite <- Hid. now apply in_map. }
  assert (Hids : map forms.id (forms_rows (snd (updateForm db id t d f)))
                 = map forms.id (forms_rows db)).
  { unfold updateForm. destruct (invalid_form t f); [reflexivity|].
    pose proof (proj1 (update_form_frame db id t (JS.or d (JStr "")) (JS.stringify f))) as H.
    destruct (Sql.update_form _ _ _ _ _) as [db' k]. cbn [fst] in H.
    destruct (k =? 0)%nat; exact H. }
  rewrite <- Hids in Hin. apply in_map_iff in Hin. destruct Hin as (g' & Hg' & Hin).
  exists g'. split; assumption.
Qed.

Lemma serve_all_without_delete (reqs : list request) (db : Database) :
  forallb (fun req => negb (is_delete req)) reqs = true ->
  referential_integrity db -> referential_integrity (serve_all db reqs).
Proof.
  revert db. induction reqs as [|req reqs IH]; intros db Hreqs Hri; [exact Hri|].
  cbn [forallb] in Hreqs. apply andb_true_iff in Hreqs. destruct Hreqs as [Hreq Hreqs].
  cbn [serve_all]. apply IH; [exact Hreqs|].
  destruct req as [fx t d f | id t d f | id | fx formId a n e]; cbn [serve].
  - now apply createForm_keeps_referential_integrity.
  - now apply updateForm_keeps_referential_integrity.
  - discriminate.
  - now apply submitResponse_keeps_referential_integrity.
Qed.

(** X3.  As long as no form is deleted, every stored response references a
    stored form: [submitResponse] inserts only after finding the form, and
    creating or updating forms removes none.  Then the join of
    [listAllResponses] and of the dashboard leaves no response out. *)
Theorem responses_keep_their_form_without_delete (db : Database) (reqs : list request) :
  referential_integrity db -> primary_keys db ->
  forallb (fun req => negb (is_delete req)) reqs = true ->
  referential_integrity (serve_all db reqs)
  /\ map fst (Sql.joined (serve_all db reqs)) = responses_rows (serve_all db reqs).
Proof.
  intros Hri Hpk Hreqs.
  pose proof (serve_all_without_delete reqs db Hreqs Hri) as H.
  split; [exact H|]. apply joined_all_responses; [|exact H].
  clear -Hpk. revert db Hpk. induction reqs as [|req reqs IH]; intros db Hpk; [exact Hpk|].
  cbn [serve_all]. apply IH. now apply serve_keeps_primary_keys.
Qed.

Lemma responses_keep_their_form_without_delete_witness :
  referential_integrity
    (serve_all Scenario.db1
       [SubmitResponse (Scenario.effects "resp-1" "2024-05-01 10:00:05" "2024-05-01T10:00:05.120Z")
          "form-1" Scenario.alice JUndefined JUndefined;
        UpdateForm "form-1" (JStr "Members") (JStr "d") (JArr [])])
  /\ map fst
       (Sql.joined
          (serve_all Scenario.db1
             [SubmitResponse
                (Scenario.effects "resp-1" "2024-05-01 10:00:05" "2024-05-01T10:00:05.120Z")
                "form-1" Scenario.alice JUndefined JUndefined;
              UpdateForm "form-1" (JStr "Members") (JStr "d") (JArr [])]))
     = responses_rows
         (serve_all Scenario.db1
            [SubmitResponse
               (Scenario.effects "resp-1" "2024-05-01 10:00:05" "2024-05-01T10:00:05.120Z")
               "form-1" Scenario.alice JUndefined JUndefined;
             UpdateForm "form-1" (JStr "Members") (JStr "d") (JArr [])]).
Proof.
  apply responses_keep_their_form_without_delete.
  - constructor.
  - repeat constructor. intros [].
  - reflexivity.
Defined.

(** ** Deleting *)

Lemma filter_none {A : Type} (p : A -> bool) (l : list A) :
  find p l = None -> filter p l = [] /\ filter (fun x => negb (p x)) l = l.
Proof.
  induction l as [|x l IH]; [now split|]. cbn [find filter].
  destruct (p x); [discriminate|]. intros H. destruct (IH H) as [H1 H2].
  cbn [negb]. now rewrite H2.
Qed.

Lemma find_filter {A : Type} (p q : A -> bool) (l : list A) :
  (forall x, p x = true -> q x = true) -> find p (filter q l) = find p l.
Proof.
  intros Hpq. induction l as [|x l IH]; [reflexivity|]. cbn [find filter].
  destruct (p x) eqn:Ep.
  - rewrite (Hpq x Ep). cbn [find]. now rewrite Ep.
  - destruct (q x); [|exact IH]. cbn [find]. now rewrite Ep.
Qed.

Lemma find_filter_negb {A : Type} (p : A -> bool) (l : list A) :
  find p (filter (fun x => negb (p x)) l) = None.
Proof.
  induction l as [|x l IH]; [reflexivity|]. cbn [filter].
  destruct (p x) eqn:Ep; cbn [negb]; [exact IH|]. cbn [find]. now rewrite Ep.
Qed.

Lemma delete_form_absent (db : Database) (id : string) :
  Sql.select_form db id = None -> Sql.delete_form db id = (db, 0%nat).
Proof.
  unfold Sql.select_form, Sql.delete_form. intros H.
  destruct (filter_none _ _ H) as [H1 H2]. rewrite H1, H2.
  assert (He : existsb (fun f => (forms.id f =? id)%string) (forms_rows db) = false).
  { apply not_true_is_false. intros He. apply existsb_exists in He.
    destruct He as (f & Hin & Hid). apply (find_none _ _ H) in Hin. congruence. }
  rewrite He, andb_false_r. destruct db; reflexivity.
Qed.

Lemma delete_form_changes (db : Database) (id : string) :
  (snd (Sql.delete_form db id) =? 0)%nat
  = match Sql.select_form db id with Some _ => false | None => true end.
Proof.
  unfold Sql.delete_form, Sql.select_form. cbn [snd].
  induction (forms_rows db) as [|f rows IH]; [reflexivity|].
  cbn [filter find]. destruct (forms.id f =? id)%string; [reflexivity | exact IH].
Qed.

Lemma deleteForm_reply (db : Database) (id : string) :
  fst (deleteForm db id)
  = match Sql.select_form db id with
    | Some _ => Json 200 (JObj [("message", JStr "Form deleted successfully")])
    | None => Json 404 (error "Form not found")
    end.
Proof.
  pose proof (delete_form_changes db id) as H. unfold deleteForm.
  destruct (Sql.delete_form db id) as [db' n]. cbn [snd] in H. rewrite H.
  destruct (Sql.select_form db id); reflexivity.
Qed.

Lemma select_form_deleted (db : Database) (id : string) :
  Sql.select_form (snd (deleteForm db id)) id = None.
Proof.
  rewrite deleteForm_db. unfold Sql.select_form. cbn [Sql.delete_form fst forms_rows].
  apply (find_filter_negb (fun f => (forms.id f =? id)%string)).
Qed.

Lemma select_form_not_deleted (db : Database) (id id' : string) :
  id' <> id -> Sql.select_form (snd (deleteForm db id)) id' = Sql.select_form db id'.
Proof.
  intros Hne. rewrite deleteForm_db. unfold Sql.select_form.
  cbn [Sql.delete_form fst forms_rows]. apply find_filter.
  intros f Hf. apply String.eqb_eq in Hf. apply negb_true_iff. apply String.eqb_neq.
  congruence.
Qed.

(** X4.  Deleting an id no form carries answers 404 and leaves the database
    as it was.  After [deleteForm] on an id, whether it answered 200 or 404,
    the id is gone for every handler that looks the form up: [getForm], a
    second [deleteForm], [updateForm] and [submitResponse] answer 404; the
    other forms read as before. *)
Theorem deleteForm_then_not_found (db : Database) (id : string) :
  (Sql.select_form db id = None ->
   deleteForm db id = (Json 404 (error "Form not found"), db))
  /\ (forall form, Sql.select_form db id = Some form ->
      fst (deleteForm db id) = Json 200 (JObj [("message", JStr "Form deleted successfully")]))
  /\ getForm (snd (deleteForm db id)) id = Json 404 (error "Form not found")
  /\ fst (deleteForm (snd (deleteForm db id)) id) = Json 404 (error "Form not found")
  /\ (forall t d f, invalid_form t f = false ->
      fst (updateForm (snd (deleteForm db id)) id t d f) = Json 404 (error "Form not found"))
  /\ (forall fx a n e, JS.truthy a = true -> JS.typeof_object a = true ->
      submitResponse (snd (deleteForm db id)) fx id a n e
      = (Json 404 (error "Form not found"), snd (deleteForm db id)))
  /\ (forall id', id' <> id -> getForm (snd (deleteForm db id)) id' = getForm db id').
Proof.
  split; [|split; [|split; [|split; [|split; [|split]]]]].
  - intros H. unfold deleteForm. now rewrite (delete_form_absent db id H).
  - intros form H. now rewrite deleteForm_reply, H.
  - unfold getForm. now rewrite select_form_deleted.
  - now rewrite deleteForm_reply, select_form_deleted.
  - intros t d f Hv. unfold updateForm. rewrite Hv.
    pose proof (update_form_changes (snd (deleteForm db id)) id t (JS.or d (JStr ""))
                  (JS.stringify f)) as H.
    destruct (Sql.update_form _ _ _ _ _) as [db' n]. cbn [snd] in H.
    rewrite H, select_form_deleted. reflexivity.
  - intros fx a n e Ht Ho. unfold submitResponse. rewrite Ht, Ho. cbn [negb orb].
    now rewrite select_form_deleted.
  - intros id' Hne. unfold getForm. now rewrite select_form_not_deleted.
Qed.

Lemma deleteForm_then_not_found_witness :
  deleteForm Scenario.db1 "form-9" = (Json 404 (error "Form not found"), Scenario.db1)
  /\ fst (deleteForm Scenario.db1 "form-1")
     = Json 200 (JObj [("message", JStr "Form deleted successfully")]).
Proof.
  split.
  - apply (proj1 (deleteForm_then_not_found Scenario.db1 "form-9")). reflexivity.
  - apply (proj1 (proj2 (deleteForm_then_not_found Scenario.db1 "form-1"))
             {| forms.id := "form-1"; forms.title := JStr "Club";
                forms.description := JStr "";
                forms.fields := JS.stringify Scenario.fields;
                forms.created_at := "2024-05-01 10:00:00" |}).
    reflexivity.
Defined.

(** ** Reading under an unknown id *)

Lemma select_responses_unknown (db : Database) (id : string) :
  referential_integrity db -> Sql.select_form db id = None ->
  Sql.select_responses db id = [].
Proof.
  unfold referential_integrity, Sql.select_responses, Sql.select_form. intros Hri Hnone.
  assert (H : filter (fun r => (responses.form_id r =? id)%string) (responses_rows db) = []).
  { induction Hri as [|r rows (f & Hin & Hid) _ IH]; [reflexivity|]. cbn [filter].
    destruct (String.eqb_spec (responses.form_id r) id) as [E|_]; [|exact IH].
    exfalso. apply (find_none _ _ Hnone) in Hin. apply String.eqb_neq in Hin. congruence. }
  now rewrite H.
Qed.

(** X5.  The listing of a form's responses does not look the form up: for an
    id no form carries it answers 200 with an empty array (when every stored
    response has its form), where [getForm] and the export answer 404. *)
Theorem listResponsesForForm_unknown_form (toLocaleString : string -> string)
  (db : Database) (id : string) :
  referential_integrity db -> Sql.select_form db id = None ->
  listResponsesForForm db id = Json 200 (JArr [])
  /\ getForm db id = Json 404 (error "Form not found")
  /\ exportResponsesAsCsv toLocaleString db id = Json 404 (error "Form not found").
Proof.
  intros Hri Hnone. split; [|split].
  - unfold listResponsesForForm. now rewrite select_responses_unknown.
  - unfold getForm. now rewrite Hnone.
  - unfold exportResponsesAsCsv. now rewrite Hnone.
Qed.

Lemma listResponsesForForm_unknown_form_witness :
  listResponsesForForm Scenario.db2 "form-9" = Json 200 (JArr [])
  /\ getForm Scenario.db2 "form-9" = Json 404 (error "Form not found")
  /\ exportResponsesAsCsv (fun t => t) Scenario.db2 "form-9"
     = Json 404 (error "Form not found").
Proof.
  apply listResponsesForForm_unknown_form.
  - repeat constructor.
    exists {| forms.id := "form-1"; forms.title := JStr "Club";
              forms.description := JStr "";
              forms.fields := JS.stringify Scenario.fields;
              forms.created_at := "2024-05-01 10:00:00" |}.
    split; [now left | reflexivity].
  - reflexivity.
Defined.

(** ** Identifiers drawn twice *)

Lemma existsb_stored {A : Type} (key : A -> string) (id : string) (rows : list A) :
  In id (map key rows) -> existsb (fun r => (key r =? id)%string) rows = true.
Proof.
  intros H. apply in_map_iff in H. destruct H as (r & Hr & Hin).
  apply existsb_exists. exists r. split; [exact Hin | now apply String.eqb_eq].
Qed.

(** X6.  When [uuidv4] returns an identifier a stored row already carries,
    the insert fails on the primary key: [createForm] and [submitResponse]
    answer 500 with their own message and the database is left as it was; no
    row is replaced. *)
Theorem duplicate_identifier_is_refused (db : Database) (fx : Effects) :
  (forall title description fields,
      invalid_form title fields = false ->
      In (uuidv4 fx) (map forms.id (forms_rows db)) ->
      createForm db fx title description fields
      = (Json 500 (error "Failed to create form"), db))
  /\ (forall formId form answers name email,
         JS.truthy answers = true -> JS.typeof_object answers = true ->
         Sql.select_form db formId = Some form ->
         In (uuidv4 fx) (map responses.id (responses_rows db)) ->
         submitResponse db fx formId answers name email
         = (Json 500 (error "Failed to submit response"), db)).
Proof.
  split.
  - intros t d f Hv Hin. unfold createForm, Sql.insert_form. rewrite Hv.
    cbn [forms.id]. now rewrite (existsb_stored forms.id).
  - intros formId form a n e Ht Ho Hsel Hin. unfold submitResponse, Sql.insert_response.
    rewrite Ht, Ho, Hsel. cbn [negb orb responses.id].
    now rewrite (existsb_stored responses.id).
Qed.

Lemma duplicate_identifier_is_refused_witness :
  createForm Scenario.db2
    (Scenario.effects "form-1" "2024-05-02 08:00:00" "2024-05-02T08:00:00.000Z")
    (JStr "Other") JUndefined (JArr [])
  = (Json 500 (error "Failed to create form"), Scenario.db2)
  /\ submitResponse Scenario.db2
       (Scenario.effects "resp-1" "2024-05-02 08:00:00" "2024-05-02T08:00:00.000Z")
       "form-1" (JObj []) JUndefined JUndefined
     = (Json 500 (error "Failed to submit response"), Scenario.db2).
Proof.
  split.
  - apply (proj1 (duplicate_identifier_is_refused Scenario.db2 _)); [reflexivity|].
    now left.
  - apply (proj2 (duplicate_identifier_is_refused Scenario.db2 _) "form-1"
             {| forms.id := "form-1"; forms.title := JStr "Club";
                forms.description := JStr "";
                forms.fields := JS.stringify Scenario.fields;
                forms.created_at := "2024-05-01 10:00:00" |});
      [reflexivity | reflexivity | reflexivity | now left].
Defined.

(** ** Reading after writing *)

Lemma map_throw_perm {A B : Type} (f : A -> option B) (xs xs' : list A) :
  Permutation xs xs' ->
  forall ys, map_throw f xs = Some ys ->
  exists ys', map_throw f xs' = Some ys' /\ Permutation ys ys'.
Proof.
  induction 1 as [|x l l' _ IH|x y l|l l' l'' _ IH1 _ IH2]; intros ys H.
  - exists ys. split; [exact H | apply Permutation_refl].
  - cbn [map_throw] in *. destruct (f x) as [b|]; [|discriminate].
    destruct (map_throw f l) as [bs|]; [|discriminate]. injection H as <-.
    destruct (IH bs eq_refl) as (bs' & -> & Hp). exists (b :: bs'). split; [reflexivity|].
    now constructor.
  - cbn [map_throw] in *. destruct (f y) as [b|]; [|discriminate].
    destruct (f x) as [c|]; [|discriminate].
    destruct (map_throw f l) as [bs|]; [|discriminate]. injection H as <-.
    exists (c :: b :: bs). split; [reflexivity | constructor].
  - destruct (IH1 ys H) as (ys' & H' & Hp). destruct (IH2 ys' H') as (ys'' & H'' & Hp').
    exists ys''. split; [exact H'' | now apply Permutation_trans with ys'].
Qed.

Lemma order_by_desc_newest {A : Type} (key : A -> string) (rows : list A) (x : A) :
  Forall (fun r => (key x <=? key r)%string = false) rows ->
  Sql.order_by_desc key (rows ++ [x])%list = x :: Sql.order_by_desc key rows.
Proof.
  induction 1 as [|r rows Hr _ IH]; [reflexivity|].
  cbn [app Sql.order_by_desc]. rewrite IH. cbn [Sql.insert_desc]. now rewrite Hr.
Qed.

Lemma order_by_desc_snoc {A : Type} (key : A -> string) (rows : list A) (x : A) :
  Permutation (x :: Sql.order_by_desc key rows) (Sql.order_by_desc key (rows ++ [x])%list).
Proof.
  apply Permutation_trans with (x :: rows).
  - constructor. apply order_by_desc_perm.
  - apply Permutation_trans with (rows ++ [x])%list.
    + apply Permutation_cons_append.
    + apply Permutation_sym. apply order_by_desc_perm.
Qed.

(** X7.  A created form is listed: [listForms] after a successful
    [createForm] returns the forms it returned before and the new one, read
    back with the title and the description (empty when none was given) as
    the [TEXT] columns keep them (a string as it is), the fields as sent and
    the store's timestamp; when that timestamp is later
    than every stored one, the new form comes first and the others follow in
    their former order. *)
Theorem createForm_then_listForms (db : Database) (fx : Effects)
  (title description fields : jsval) (forms : list jsval) :
  JS.truthy title = true -> JS.isArray fields = true -> JS.json_value fields ->
  fresh_form_id db (uuidv4 fx) ->
  listForms db = Json 200 (JArr forms) ->
  exists forms',
    listForms (snd (createForm db fx title description fields)) = Json 200 (JArr forms')
    /\ Permutation
         (JObj [("id", JStr (uuidv4 fx));
                ("title", Sql.bind_text title);
                ("description", Sql.bind_text (JS.or description (JStr "")));
                ("fields", fields);
                ("created_at", JStr (CURRENT_TIMESTAMP fx));
                ("createdAt", JStr (CURRENT_TIMESTAMP fx))] :: forms) forms'
    /\ (Forall (fun f => (CURRENT_TIMESTAMP fx <=? forms.created_at f)%string = false)
          (forms_rows db) ->
        forms'
        = JObj [("id", JStr (uuidv4 fx));
                ("title", Sql.bind_text title);
                ("description", Sql.bind_text (JS.or description (JStr "")));
                ("fields", fields);
                ("created_at", JStr (CURRENT_TIMESTAMP fx));
                ("createdAt", JStr (CURRENT_TIMESTAMP fx))] :: forms).
Proof.
  intros Ht Harr Hjs Hfresh Hlist.
  unfold createForm, invalid_form.
  destruct fields as [| | | | |xs|]; try discriminate.
  rewrite Ht. cbn [JS.truthy JS.isArray negb orb].
  rewrite insert_form_fresh by exact Hfresh. cbn [snd].
  unfold listForms in *. cbn [forms_rows].
  destruct (map_throw form_of_row (Sql.order_by_desc forms.created_at (forms_rows db)))
    as [old|] eqn:Eold; [|discriminate].
  injection Hlist as <-.
  set (row := Sql.stored_form
                {| forms.id := uuidv4 fx; forms.title := title;
                   forms.description := JS.or description (JStr "");
                   forms.fields := JS.stringify (JArr xs);
                   forms.created_at := CURRENT_TIMESTAMP fx |}).
  set (new := JObj [("id", JStr (uuidv4 fx)); ("title", Sql.bind_text title);
                    ("description", Sql.bind_text (JS.or description (JStr "")));
                    ("fields", JArr xs);
                    ("created_at", JStr (CURRENT_TIMESTAMP fx));
                    ("createdAt", JStr (CURRENT_TIMESTAMP fx))]).
  assert (Hrow : form_of_row row = Some new).
  { unfold form_of_row, row, Sql.stored_form. cbn [forms.fields].
    now rewrite JSON_facts.parse_stringify by exact Hjs. }
  assert (Hcons : map_throw form_of_row
                    (row :: Sql.order_by_desc forms.created_at (forms_rows db))
                  = Some (new :: old)).
  { cbn [map_throw]. now rewrite Hrow, Eold. }
  destruct (map_throw_perm form_of_row _ _
              (order_by_desc_snoc forms.created_at (forms_rows db) row) _ Hcons)
    as (forms' & Hforms' & Hperm).
  exists forms'. rewrite Hforms'. split; [reflexivity|]. split; [exact Hperm|].
  intros Hnew. rewrite (order_by_desc_newest forms.created_at) in Hforms' by exact Hnew.
  congruence.
Qed.

Lemma createForm_then_listForms_witness :
  exists forms',
    listForms
      (snd (createForm Scenario.db1
              (Scenario.effects "form-2" "2024-05-02 08:00:00" "2024-05-02T08:00:00.000Z")
              (JStr "Events") JUndefined (JArr [])))
    = Json 200 (JArr forms')
    /\ List.length forms' = 2%nat.
Proof.
  destruct (createForm_then_listForms Scenario.db1
              (Scenario.effects "form-2" "2024-05-02 08:00:00" "2024-05-02T08:00:00.000Z")
              (JStr "Events") JUndefined (JArr [])
              [JObj [("id", JStr "form-1"); ("title", JStr "Club");
                     ("description", JStr ""); ("fields", Scenario.fields);
                     ("created_at", JStr "2024-05-01 10:00:00");
                     ("createdAt", JStr "2024-05-01 10:00:00")]])
    as (forms' & Hlist & _ & Hfirst).
  - reflexivity.
  - reflexivity.
  - exact I.
  - repeat constructor. discriminate.
  - vm_compute. reflexivity.
  - exists forms'. split; [exact Hlist|]. rewrite Hfirst; [reflexivity|].
    repeat constructor.
Defined.

(** A title and a description that are not strings are listed as the text
    kept of them: the number 5 as ["5"], an object as ["[object Object]"],
    while the reply to the request echoes the values sent. *)
Lemma createForm_lists_the_text_kept :
  exists db',
    createForm Scenario.db0
      (Scenario.effects "form-1" "2024-05-01 10:00:00" "2024-05-01T10:00:00.250Z")
      (JNum 5) (JObj [("a", JNum 1)]) (JArr [])
    = (Json 201 (JObj [("id", JStr "form-1"); ("title", JNum 5);
                       ("description", JObj [("a", JNum 1)]); ("fields", JArr []);
                       ("createdAt", JStr "2024-05-01T10:00:00.250Z")]), db')
    /\ listForms db'
       = Json 200 (JArr [JObj [("id", JStr "form-1"); ("title", JStr "5");
                               ("description", JStr "[object Object]");
                               ("fields", JArr []);
                               ("created_at", JStr "2024-05-01 10:00:00");
                               ("createdAt", JStr "2024-05-01 10:00:00")]]).
Proof.
  eexists. split; [reflexivity | vm_compute; reflexivity].
Qed.

Lemma filter_snoc {A : Type} (p : A -> bool) (l : list A) (x : A) :
  filter p (l ++ [x])%list = (filter p l ++ if p x then [x] else [])%list.
Proof.
  rewrite filter_app. reflexivity.
Qed.

(** X8.  A stored response is listed: [listResponsesForForm] on the form
    after a successful [submitResponse] returns what it returned before and
    the new response, read back with the answers as sent, the submitter name
    and email as the [TEXT] columns keep them (a string as it is, [null]
    when none was given) and the store's timestamp; first
    when that timestamp is later than those of the form's other responses.
    The listings of the other forms are what they were. *)
Theorem submitResponse_then_listResponsesForForm (db : Database) (fx : Effects)
  (formId : string) (form : forms.row) (answers name email : jsval) (rs : list jsval) :
  JS.truthy answers = true -> JS.typeof_object answers = true -> JS.json_value answers ->
  Sql.select_form db formId = Some form ->
  fresh_response_id db (uuidv4 fx) ->
  listResponsesForForm db formId = Json 200 (JArr rs) ->
  exists rs',
    listResponsesForForm (snd (submitResponse db fx formId answers name email)) formId
    = Json 200 (JArr rs')
    /\ Permutation
         (JObj [("id", JStr (uuidv4 fx));
                ("formId", JStr formId);
                ("answers", answers);
                ("submitterName", Sql.bind_text (JS.or name JNull));
                ("submitterEmail", Sql.bind_text (JS.or email JNull));
                ("submittedAt", JStr (CURRENT_TIMESTAMP fx))] :: rs) rs'
    /\ (Forall (fun r => (CURRENT_TIMESTAMP fx <=? responses.submitted_at r)%string = false)
          (Sql.select_responses db formId) ->
        rs'
        = JObj [("id", JStr (uuidv4 fx));
                ("formId", JStr formId);
                ("answers", answers);
                ("submitterName", Sql.bind_text (JS.or name JNull));
                ("submitterEmail", Sql.bind_text (JS.or email JNull));
                ("submittedAt", JStr (CURRENT_TIMESTAMP fx))] :: rs)
    /\ (forall id', id' <> formId ->
        listResponsesForForm (snd (submitResponse db fx formId answers name email)) id'
        = listResponsesForForm db id').
Proof.
  intros Ht Ho Hjs Hsel Hfresh Hlist.
  unfold submitResponse. rewrite Ht, Ho, Hsel. cbn [negb orb].
  rewrite (insert_response_fresh db _ form) by (exact Hfresh || exact Hsel). cbn [snd].
  set (row := Sql.stored_response
                {| responses.id := uuidv4 fx; responses.form_id := formId;
                   responses.answers := JS.stringify answers;
                   responses.submitter_name := JS.or name JNull;
                   responses.submitter_email := JS.or email JNull;
                   responses.submitted_at := CURRENT_TIMESTAMP fx |}).
  set (new := JObj [("id", JStr (uuidv4 fx)); ("formId", JStr formId);
                    ("answers", answers);
                    ("submitterName", Sql.bind_text (JS.or name JNull));
                    ("submitterEmail", Sql.bind_text (JS.or email JNull));
                    ("submittedAt", JStr (CURRENT_TIMESTAMP fx))]).
  assert (Hrow : response_of_row row = Some new).
  { unfold response_of_row, row, Sql.stored_response. cbn [responses.answers].
    now rewrite JSON_facts.parse_stringify by exact Hjs. }
  unfold listResponsesForForm in *. unfold Sql.select_responses in *.
  cbn [responses_rows].
  set (mine := filter (fun r => (responses.form_id r =? formId)%string) (responses_rows db))
    in *.
  assert (Hmine : filter (fun r => (responses.form_id r =? formId)%string)
                    (responses_rows db ++ [row])%list = (mine ++ [row])%list).
  { rewrite filter_snoc. cbn [responses.form_id row Sql.stored_response]. now rewrite String.eqb_refl. }
  rewrite Hmine.
  destruct (map_throw response_of_row (Sql.order_by_desc responses.submitted_at mine))
    as [old|] eqn:Eold; [|discriminate].
  injection Hlist as <-.
  assert (Hcons : map_throw response_of_row
                    (row :: Sql.order_by_desc responses.submitted_at mine)
                  = Some (new :: old)).
  { cbn [map_throw]. now rewrite Hrow, Eold. }
  destruct (map_throw_perm response_of_row _ _
              (order_by_desc_snoc responses.submitted_at mine row) _ Hcons)
    as (rs' & Hrs' & Hperm).
  exists rs'. rewrite Hrs'. split; [reflexivity|]. split; [exact Hperm|]. split.
  - intros Hnew.
    assert (Hnew' : Forall (fun r => (responses.submitted_at row
                                      <=? responses.submitted_at r)%string = false) mine).
    { eapply Permutation_Forall; [apply order_by_desc_perm | exact Hnew]. }
    apply (order_by_desc_newest responses.submitted_at) in Hnew'.
    rewrite Hnew' in Hrs'. congruence.
  - intros id' Hne. rewrite filter_snoc. cbn [responses.form_id row Sql.stored_response].
    apply String.eqb_neq in Hne. rewrite String.eqb_sym, Hne.
    now rewrite List.app_nil_r.
Qed.

Lemma submitResponse_then_listResponsesForForm_witness :
  exists rs',
    listResponsesForForm
      (snd (submitResponse Scenario.db1
              (Scenario.effects "resp-1" "2024-05-01 10:00:05" "2024-05-01T10:00:05.120Z")
              "form-1" Scenario.alice (JStr "") JUndefined)) "form-1"
    = Json 200 (JArr rs')
    /\ rs' = [JObj [("id", JStr "resp-1"); ("formId", JStr "form-1");
                    ("answers", Scenario.alice);
                    ("submitterName", JNull); ("submitterEmail", JNull);
                    ("submittedAt", JStr "2024-05-01 10:00:05")]].
Proof.
  destruct (submitResponse_then_listResponsesForForm Scenario.db1
              (Scenario.effects "resp-1" "2024-05-01 10:00:05" "2024-05-01T10:00:05.120Z")
              "form-1"
              {| forms.id := "form-1"; forms.title := JStr "Club";
                 forms.description := JStr "";
                 forms.fields := JS.stringify Scenario.fields;
                 forms.created_at := "2024-05-01 10:00:00" |}
              Scenario.alice (JStr "") JUndefined [])
    as (rs' & Hlist & _ & Hfirst & _).
  - reflexivity.
  - reflexivity.
  - cbn. repeat split; repeat constructor.
  - reflexivity.
  - constructor.
  - reflexivity.
  - exists rs'. split; [exact Hlist|]. apply Hfirst. constructor.
Defined.

(** A submitter name and email that are not strings are listed as the text
    kept of them. *)
Lemma submitResponse_lists_the_text_kept :
  exists body db',
    submitResponse Scenario.db1
      (Scenario.effects "resp-1" "2024-05-01 10:00:05" "2024-05-01T10:00:05.120Z")
      "form-1" (JObj []) (JNum 5) (JArr [JStr "e"])
    = (Json 201 body, db')
    /\ JS.get body "submitterName" = Some (JNum 5)
    /\ listResponsesForForm db' "form-1"
       = Json 200 (JArr [JObj [("id", JStr "resp-1"); ("formId", JStr "form-1");
                               ("answers", JObj []);
                               ("submitterName", JStr "5");
                               ("submitterEmail", JStr "[object Object]");
                               ("submittedAt", JStr "2024-05-01 10:00:05")]]).
Proof.
  eexists. eexists. split; [reflexivity|]. split; [reflexivity | vm_compute; reflexivity].
Qed.

(** ** Updates of the same form *)

Lemma update_form_again (db : Database) (id : string) (t1 d1 t2 d2 : jsval)
  (fs1 fs2 : string) :
  Sql.update_form (fst (Sql.update_form db id t1 d1 fs1)) id t2 d2 fs2
  = Sql.update_form db id t2 d2 fs2.
Proof.
  unfold Sql.update_form. cbn [fst foreign_keys forms_rows responses_rows].
  f_equal; [f_equal|].
  - rewrite map_map. apply map_ext. intros f.
    destruct (forms.id f =? id)%string eqn:E; cbn [forms.id]; now rewrite E.
  - induction (forms_rows db) as [|f rows IH]; [reflexivity|]. cbn [map filter].
    destruct (forms.id f =? id)%string eqn:E; cbn [forms.id]; rewrite E; cbn [List.length];
      now rewrite IH.
Qed.

Lemma updateForm_db (db : Database) (id : string) (t d f : jsval) :
  invalid_form t f = false ->
  snd (updateForm db id t d f)
  = fst (Sql.update_form db id t (JS.or d (JStr "")) (JS.stringify f)).
Proof.
  intros Hv. unfold updateForm. rewrite Hv.
  destruct (Sql.update_form _ _ _ _ _) as [db' n]. now destruct (n =? 0)%nat.
Qed.

(** X9.  An update replaces what an earlier update of the same form wrote:
    after any [updateForm] on an id, a valid [updateForm] on that id answers
    and leaves the database as it would have without the earlier one; so
    sending the same update twice changes nothing more and gets the same
    reply. *)
Theorem updateForm_last_write_wins (db : Database) (id : string)
  (t1 d1 f1 t2 d2 f2 : jsval) :
  (invalid_form t2 f2 = false ->
   updateForm (snd (updateForm db id t1 d1 f1)) id t2 d2 f2 = updateForm db id t2 d2 f2)
  /\ updateForm (snd (updateForm db id t2 d2 f2)) id t2 d2 f2 = updateForm db id t2 d2 f2.
Proof.
  assert (H : forall t d f, invalid_form t2 f2 = false ->
              updateForm (snd (updateForm db id t d f)) id t2 d2 f2
              = updateForm db id t2 d2 f2).
  { intros t d f Hv. destruct (invalid_form t f) eqn:Hv1.
    - unfold updateForm at 2. now rewrite Hv1.
    - rewrite (updateForm_db db id t d f Hv1). unfold updateForm. rewrite Hv.
      now rewrite update_form_again. }
  split; [apply H|].
  destruct (invalid_form t2 f2) eqn:Hv; [|now apply H].
  unfold updateForm. now rewrite Hv.
Qed.

Lemma updateForm_last_write_wins_witness :
  updateForm (snd (updateForm Scenario.db2 "form-1" (JStr "Draft") JUndefined (JArr [])))
    "form-1" (JStr "Members") (JStr "d") Scenario.fields
  = updateForm Scenario.db2 "form-1" (JStr "Members") (JStr "d") Scenario.fields.
Proof.
  apply (proj1 (updateForm_last_write_wins Scenario.db2 "form-1" (JStr "Draft") JUndefined
                  (JArr []) (JStr "Members") (JStr "d") Scenario.fields)).
  reflexivity.
Defined.

(** ** The average of a whole number of responses per form *)

(** X10.  When the responses are a whole multiple [k] of the forms, the
    average shown is [k] with one decimal, [k.0]: the division is exact and
    [toFixed(1)] adds the decimal.  With forms and no response it is [0.0],
    where without any form it is [0]. *)
Theorem avgResponsesPerForm_whole (totalForms k : Z) :
  0 < totalForms < 2 ^ 53 -> 0 <= k -> k * totalForms < 2 ^ 48 ->
  avgResponsesPerForm totalForms (k * totalForms) = (JS.Number_toString k ++ ".0")%string.
Proof.
  intros Hf Hk Hr. unfold avgResponsesPerForm.
  destruct (Z.ltb_spec 0 totalForms) as [_|]; [|lia].
  destruct (Number_facts.toFixed1_nearest (k * totalForms) totalForms) as (n & Hn & -> & Herr);
    [nia | lia |].
  assert (E : n = 10 * k) by nia. subst n.
  rewrite (Z.mul_comm 10 k), Z.div_mul, Z.mod_mul by lia.
  reflexivity.
Qed.

Lemma avgResponsesPerForm_whole_witness :
  avgResponsesPerForm 4 (3 * 4) = "3.0"%string
  /\ avgResponsesPerForm 7 (0 * 7) = "0.0"%string.
Proof.
  split.
  - apply (avgResponsesPerForm_whole 4 3); lia.
  - apply (avgResponsesPerForm_whole 7 0); lia.
Defined.

(** ** What the CSV lines do not do *)

Lemma concat_cons (sep x : string) (l : list string) :
  l <> [] -> String.concat sep (x :: l) = (x ++ sep ++ String.concat sep l)%string.
Proof.
  destruct l; [congruence | reflexivity].
Qed.

Lemma csv_line_cons (c : jsval) (row : list jsval) :
  row <> [] ->
  csv_line (c :: row)
  = (String JS.dquote (JS.ToString c ++ String JS.dquote "") ++ "," ++ csv_line row)%string.
Proof.
  intros H. unfold csv_line. cbn [map]. apply concat_cons.
  destruct row; [congruence | discriminate].
Qed.

(** X11.  A cell is put between quotes as it is: a quote inside it is not
    doubled or escaped.  So a cell whose text holds a quote, a comma and a
    quote gives the very line that two cells give, and the line does not
    tell how many cells the row had. *)
Theorem csv_line_does_not_escape (before after : list jsval) (x y : string) :
  csv_line (before ++ [JStr (x ++ cell_separator ++ y)] ++ after)%list
  = csv_line (before ++ [JStr x; JStr y] ++ after)%list.
Proof.
  induction before as [|c before IH].
  - cbn [app]. destruct after as [|a after].
    + unfold csv_line, cell_separator. cbn [map String.concat JS.ToString].
      cbn [append]. f_equal. rewrite !append_assoc. reflexivity.
    + rewrite (csv_line_cons (JStr (x ++ cell_separator ++ y))) by discriminate.
      rewrite (csv_line_cons (JStr x)), (csv_line_cons (JStr y)) by discriminate.
      cbn [JS.ToString]. unfold cell_separator. cbn [append]. f_equal.
      rewrite !append_assoc. reflexivity.
  - cbn [app] in IH |- *.
    rewrite (csv_line_cons c (before ++ _ :: after)%list) by (destruct before; discriminate).
    rewrite (csv_line_cons c (before ++ _ :: _ :: after)%list)
      by (destruct before; discriminate).
    now rewrite IH.
Qed.

(** ** A field that is [null] *)

Lemma map_throw_none {A B : Type} (f : A -> option B) (xs : list A) (x : A) :
  In x xs -> f x = None -> map_throw f xs = None.
Proof.
  intros Hin Hx. induction xs as [|y xs IH]; [contradiction|]. cbn [map_throw].
  destruct Hin as [->|Hin]; [now rewrite Hx|].
  destruct (f y); [|reflexivity]. now rewrite (IH Hin).
Qed.

(** X12.  The guard of [createForm] looks at [fields] only as far as it being
    an array.  A form one of whose fields is [null] is created (201), is
    listed and read like any other, and its export throws inside the database
    callback, whatever the responses: reading [label] of [null] fails, and no
    reply is sent. *)
Theorem createForm_null_field_then_export (toLocaleString : string -> string)
  (db : Database) (fx : Effects) (title description : jsval) (fields : list jsval) :
  JS.truthy title = true -> JS.json_value (JArr fields) -> In JNull fields ->
  fresh_form_id db (uuidv4 fx) ->
  (exists body, fst (createForm db fx title description (JArr fields)) = Json 201 body)
  /\ (exists form,
         getForm (snd (createForm db fx title description (JArr fields))) (uuidv4 fx)
         = Json 200 form)
  /\ exportResponsesAsCsv toLocaleString
       (snd (createForm db fx title description (JArr fields))) (uuidv4 fx) = Throw.
Proof.
  intros Ht Hjs Hnull Hfresh. unfold createForm, invalid_form.
  rewrite Ht. cbn [JS.truthy JS.isArray negb orb].
  rewrite insert_form_fresh by exact Hfresh. cbn [fst snd].
  split; [eauto|].
  unfold getForm, exportResponsesAsCsv, Sql.select_form. cbn [forms_rows].
  rewrite (find_app_fresh forms.id) by (exact Hfresh || reflexivity).
  unfold form_of_row, Sql.stored_form. cbn [forms.fields].
  rewrite JSON_facts.parse_stringify by exact Hjs.
  split; [eauto|].
  now rewrite (map_throw_none (fun f => JS.get f "label") fields JNull Hnull).
Qed.

Lemma createForm_null_field_then_export_witness :
  exportResponsesAsCsv (fun t => t)
    (snd (createForm Scenario.db0
            (Scenario.effects "form-1" "2024-05-01 10:00:00" "2024-05-01T10:00:00.250Z")
            (JStr "Club") JUndefined
            (JArr [JObj [("id", JStr "name"); ("label", JStr "Name")]; JNull])))
    "form-1" = Throw.
Proof.
  apply (createForm_null_field_then_export (fun t => t) Scenario.db0
           (Scenario.effects "form-1" "2024-05-01 10:00:00" "2024-05-01T10:00:00.250Z")
           (JStr "Club") JUndefined
           [JObj [("id", JStr "name"); ("label", JStr "Name")]; JNull]).
  - reflexivity.
  - cbn. repeat split.
  - right. now left.
  - constructor.
Defined.

(** * Part IV. The client *)

(** ** Objects *)

Lemma array_index_text (k : string) (i : N) :
  JS.array_index k = Some i -> k = NilZero.string_of_uint (N.to_uint i).
Proof.
  unfold JS.array_index. destruct (NilZero.uint_of_string k) as [d|]; [|discriminate].
  destruct (_ =? k)%string eqn:E; [|discriminate]. cbn [andb].
  destruct (_ <=? _)%N; [|discriminate]. intros H. injection H as <-.
  apply String.eqb_eq in E. now symmetry.
Qed.

Lemma precedes_neq (k1 k2 : string) : precedes k1 k2 -> k1 <> k2.
Proof.
  unfold precedes. intros H E. subst k2.
  destruct (JS.array_index k1); [lia | congruence].
Qed.

Lemma assoc_none (k : string) (props : list (string * jsval)) :
  JS.assoc k props = None <-> ~ In k (map fst props).
Proof.
  induction props as [|[k' v'] r IH]; cbn [JS.assoc map fst In]; [tauto|].
  destruct (String.eqb_spec k' k) as [E|E].
  - split; [discriminate | intros H; exfalso; apply H; now left].
  - rewrite IH. tauto.
Qed.

Lemma map_fst_replace_value (k : string) (v : jsval) (props : list (string * jsval)) :
  map fst (JS.replace_value k v props) = map fst props.
Proof.
  induction props as [|[k' v'] r IH]; [reflexivity|]. cbn [JS.replace_value].
  destruct (k' =? k)%string; cbn [map fst]; [reflexivity | now rewrite IH].
Qed.

Lemma StronglySorted_snoc {A : Type} (R : A -> A -> Prop) (l : list A) (x : A) :
  StronglySorted R (l ++ [x])%list <-> StronglySorted R l /\ Forall (fun y => R y x) l.
Proof.
  induction l as [|a l IH]; cbn [app].
  - split; [intros _; split; constructor | intros _; repeat constructor].
  - split.
    + intros H. apply StronglySorted_inv in H. destruct H as [Hs Hf].
      apply IH in Hs. destruct Hs as [Hs Hl]. apply Forall_app in Hf.
      destruct Hf as [Hf Hx]. inversion Hx; subst.
      split; [now constructor | now constructor].
    + intros [Hs Hf]. apply StronglySorted_inv in Hs. destruct Hs as [Hs Ha].
      inversion Hf; subst. constructor.
      * apply IH. now split.
      * apply Forall_app. split; [exact Ha | now repeat constructor].
Qed.

Lemma insert_index_last (i : N) (k : string) (v : jsval) (props : list (string * jsval)) :
  JS.array_index k = Some i ->
  Forall (fun k' => precedes k' k) (map fst props) ->
  JS.insert_index i k v props = (props ++ [(k, v)])%list.
Proof.
  intros Hk. induction props as [|[k' v'] r IH]; [reflexivity|].
  cbn [map fst]. intros H. inversion H as [|? ? Hp Hr]; subst.
  cbn [JS.insert_index app]. unfold precedes in Hp. rewrite Hk in Hp.
  destruct (JS.array_index k') as [j|]; [|contradiction].
  apply N.ltb_lt in Hp. rewrite Hp. now rewrite IH.
Qed.

Lemma define_property_last (props : list (string * jsval)) (kv : string * jsval) :
  Forall (fun k' => precedes k' (fst kv)) (map fst props) ->
  JS.define_property props kv = (props ++ [kv])%list.
Proof.
  destruct kv as [k v]. cbn [fst]. intros H. unfold JS.define_property.
  assert (Hnone : JS.assoc k props = None).
  { apply assoc_none. intros Hin. rewrite Forall_forall in H.
    now apply (precedes_neq k k (H k Hin)). }
  rewrite Hnone. destruct (JS.array_index k) as [i|] eqn:Hk; [|reflexivity].
  now apply insert_index_last.
Qed.

Lemma object_of_members_ordered (props : list (string * jsval)) :
  ordered props -> JS.object_of_members props = props.
Proof.
  unfold ordered, JS.object_of_members.
  induction props as [|kv props IH] using rev_ind; [reflexivity|].
  rewrite map_app. cbn [map]. intros H. apply StronglySorted_snoc in H.
  destruct H as [Hs Hf]. rewrite fold_left_app. cbn [fold_left].
  rewrite IH by exact Hs. now apply define_property_last.
Qed.

Lemma insert_index_keys (i : N) (k : string) (v : jsval) (props : list (string * jsval)) :
  forall k', In k' (map fst (JS.insert_index i k v props)) <-> k' = k \/ In k' (map fst props).
Proof.
  induction props as [|[k1 v1] r IH]; intros k'; cbn [JS.insert_index map fst In].
  - intuition congruence.
  - destruct (JS.array_index k1) as [j|].
    + destruct (j <? i)%N; cbn [map fst In]; [rewrite IH|]; intuition congruence.
    + cbn [map fst In]. intuition congruence.
Qed.

Lemma insert_index_ordered (i : N) (k : string) (v : jsval) (props : list (string * jsval)) :
  JS.array_index k = Some i -> ~ In k (map fst props) -> ordered props ->
  ordered (JS.insert_index i k v props).
Proof.
  intros Hk. unfold ordered.
  induction props as [|[k1 v1] r IH]; intros Hnew Hs.
  - cbn. repeat constructor.
  - cbn [map fst] in Hs, Hnew. apply StronglySorted_inv in Hs. destruct Hs as [Hs Hf].
    cbn [JS.insert_index].
    assert (Hfirst : forall j, JS.array_index k1 = Some j -> (j <? i)%N = false ->
                     precedes k k1).
    { intros j Hj Hlt. unfold precedes. rewrite Hk, Hj. apply N.ltb_ge in Hlt.
      destruct (N.eq_dec i j) as [E|E]; [|lia]. subst j.
      exfalso. apply Hnew. left.
      now rewrite (array_index_text _ _ Hk), (array_index_text _ _ Hj). }
    assert (Hrest : precedes k k1 -> Forall (precedes k) (map fst r)).
    { intros Hp. eapply Forall_impl; [|exact Hf]. cbn beta. intros k2.
      unfold precedes in *. rewrite Hk in *.
      destruct (JS.array_index k1), (JS.array_index k2); try tauto; lia. }
    destruct (JS.array_index k1) as [j|] eqn:Hj.
    + destruct (j <? i)%N eqn:Hlt.
      * cbn [map fst]. constructor.
        -- apply IH; [intros Hin; apply Hnew; now right | exact Hs].
        -- apply Forall_forall. intros k' Hin. apply insert_index_keys in Hin.
           destruct Hin as [->|Hin].
           ++ unfold precedes. rewrite Hj, Hk. now apply N.ltb_lt.
           ++ rewrite Forall_forall in Hf. now apply Hf.
      * cbn [map fst]. constructor; [now constructor|].
        constructor; [exact (Hfirst j eq_refl Hlt)|].
        apply Hrest. exact (Hfirst j eq_refl Hlt).
    + assert (Hp : precedes k k1) by (unfold precedes; now rewrite Hk, Hj).
      cbn [map fst]. constructor; [now constructor|].
      constructor; [exact Hp | now apply Hrest].
Qed.

Lemma define_property_ordered (props : list (string * jsval)) (kv : string * jsval) :
  ordered props -> ordered (JS.define_property props kv).
Proof.
  destruct kv as [k v]. intros Hs. unfold JS.define_property.
  destruct (JS.assoc k props) as [old|] eqn:Hold.
  - unfold ordered. now rewrite map_fst_replace_value.
  - apply assoc_none in Hold.
    destruct (JS.array_index k) as [i|] eqn:Hk.
    + now apply insert_index_ordered.
    + unfold ordered. rewrite map_app. cbn [map fst]. apply StronglySorted_snoc.
      split; [exact Hs|]. apply Forall_forall. intros k' Hin. unfold precedes.
      rewrite Hk. destruct (JS.array_index k'); [exact I | congruence].
Qed.

Lemma fold_define_property_ordered (members acc : list (string * jsval)) :
  ordered acc -> ordered (fold_left JS.define_property members acc).
Proof.
  revert acc. induction members as [|kv r IH]; intros acc H; [exact H|].
  cbn [fold_left]. apply IH. now apply define_property_ordered.
Qed.

Lemma object_of_members_is_ordered (members : list (string * jsval)) :
  ordered (JS.object_of_members members).
Proof.
  apply fold_define_property_ordered. constructor.
Qed.
Lemma replace_value_values (P : jsval -> Prop) (k : string) (v : jsval)
  (props : list (string * jsval)) :
  Forall (fun kv => P (snd kv)) props -> P v ->
  Forall (fun kv => P (snd kv)) (JS.replace_value k v props).
Proof.
  intros H Hv. induction H as [|[k' v'] r Hkv Hr IH]; [constructor|].
  cbn [JS.replace_value]. destruct (k' =? k)%string; constructor; assumption.
Qed.

Lemma insert_index_values (P : jsval -> Prop) (i : N) (k : string) (v : jsval)
  (props : list (string * jsval)) :
  Forall (fun kv => P (snd kv)) props -> P v ->
  Forall (fun kv => P (snd kv)) (JS.insert_index i k v props).
Proof.
  intros H Hv. induction H as [|[k' v'] r Hkv Hr IH]; [now repeat constructor|].
  cbn [JS.insert_index]. destruct (JS.array_index k') as [j|].
  - destruct (j <? i)%N; repeat (constructor; try assumption).
  - repeat (constructor; try assumption).
Qed.

Lemma define_property_values (P : jsval -> Prop) (props : list (string * jsval))
  (kv : string * jsval) :
  Forall (fun kv => P (snd kv)) props -> P (snd kv) ->
  Forall (fun kv => P (snd kv)) (JS.define_property props kv).
Proof.
  destruct kv as [k v]. cbn [snd]. intros H Hv. unfold JS.define_property.
  destruct (JS.assoc k props); [now apply replace_value_values|].
  destruct (JS.array_index k); [now apply insert_index_values|].
  apply Forall_app. split; [exact H | now repeat constructor].
Qed.

Lemma fold_define_property_values (P : jsval -> Prop) (members acc : list (string * jsval)) :
  Forall (fun kv => P (snd kv)) members -> Forall (fun kv => P (snd kv)) acc ->
  Forall (fun kv => P (snd kv)) (fold_left JS.define_property members acc).
Proof.
  intros H. revert acc. induction H as [|kv r Hkv _ IH]; intros acc Hacc; [exact Hacc|].
  cbn [fold_left]. apply IH. now apply define_property_values.
Qed.

(** An object with its keys in order and JSON values is a JSON value. *)
Lemma json_object (props : list (string * jsval)) :
  ordered props -> Forall (fun kv => JS.json_value (snd kv)) props ->
  JS.json_value (JObj props).
Proof.
  intros Ho Hv. apply JSON_facts.json_value_obj. split; [exact Hv|].
  now apply object_of_members_ordered.
Qed.

Lemma object_of_members_json (members : list (string * jsval)) :
  Forall (fun kv => JS.json_value (snd kv)) members ->
  JS.json_value (JObj (JS.object_of_members members)).
Proof.
  intros H. apply json_object; [apply object_of_members_is_ordered|].
  apply fold_define_property_values; [exact H | constructor].
Qed.

Lemma indexed_values (P : jsval -> Prop) (xs : list jsval) :
  Forall P xs -> Forall (fun kv => P (snd kv)) (Obj.indexed xs).
Proof.
  unfold Obj.indexed. generalize (seq 0 (List.length xs)). intros ns H. revert ns.
  induction H as [|x xs Hx _ IH]; intros [|n ns]; cbn [map combine]; constructor;
    [exact Hx | apply IH].
Qed.

Lemma own_json (v : jsval) :
  JS.json_value v -> Forall (fun kv => JS.json_value (snd kv)) (Obj.own v).
Proof.
  destruct v as [| | | |s|xs|props]; cbn [Obj.own]; intros H; try constructor.
  - apply indexed_values. apply Forall_forall. intros x Hx.
    apply in_map_iff in Hx. destruct Hx as (c & <- & _). exact I.
  - apply indexed_values. now apply JSON_facts.json_value_arr.
  - now apply JSON_facts.json_value_obj in H.
Qed.

Lemma spread_json (a b : jsval) :
  JS.json_value a -> JS.json_value b -> JS.json_value (Obj.spread a b).
Proof.
  intros Ha Hb. unfold Obj.spread. apply object_of_members_json.
  apply Forall_app. split; now apply own_json.
Qed.

(** Reading what was written. *)
Lemma assoc_replace_value (k k' : string) (v : jsval) (props : list (string * jsval)) :
  JS.assoc k' (JS.replace_value k v props)
  = if (k =? k')%string
    then match JS.assoc k props with Some _ => Some v | None => None end
    else JS.assoc k' props.
Proof.
  induction props as [|[k1 v1] r IH]; cbn [JS.replace_value JS.assoc].
  - now destruct (k =? k')%string.
  - destruct (String.eqb_spec k1 k) as [E1|E1]; cbn [JS.assoc].
    + subst k1. destruct (String.eqb_spec k k'); reflexivity.
    + rewrite IH. destruct (String.eqb_spec k k') as [E|E].
      * subst k'. apply String.eqb_neq in E1. now rewrite E1.
      * reflexivity.
Qed.

Lemma assoc_insert_index (i : N) (k k' : string) (v : jsval)
  (props : list (string * jsval)) :
  JS.assoc k props = None ->
  JS.assoc k' (JS.insert_index i k v props)
  = if (k =? k')%string then Some v else JS.assoc k' props.
Proof.
  induction props as [|[k1 v1] r IH]; cbn [JS.insert_index JS.assoc]; [reflexivity|].
  destruct (String.eqb_spec k1 k) as [E1|E1]; [discriminate|]. intros Hnone.
  assert (Hhead : JS.assoc k' ((k, v) :: (k1, v1) :: r)
                  = if (k =? k')%string then Some v else JS.assoc k' ((k1, v1) :: r))
    by reflexivity.
  destruct (JS.array_index k1) as [j|]; [|exact Hhead].
  destruct (j <? i)%N; [|exact Hhead].
  cbn [JS.assoc]. rewrite IH by exact Hnone.
  destruct (String.eqb_spec k k') as [E|E]; [|reflexivity].
  subst k'. apply String.eqb_neq in E1. now rewrite E1.
Qed.

Lemma assoc_app_last (k k' : string) (v : jsval) (props : list (string * jsval)) :
  JS.assoc k props = None ->
  JS.assoc k' (props ++ [(k, v)])%list
  = if (k =? k')%string then Some v else JS.assoc k' props.
Proof.
  induction props as [|[k1 v1] r IH]; cbn [app JS.assoc]; [reflexivity|].
  destruct (String.eqb_spec k1 k) as [E1|E1]; [discriminate|]. intros Hnone.
  rewrite IH by exact Hnone.
  destruct (String.eqb_spec k k') as [E|E]; [|reflexivity].
  subst k'. apply String.eqb_neq in E1. now rewrite E1.
Qed.

Lemma assoc_define_property (k k' : string) (v : jsval) (props : list (string * jsval)) :
  JS.assoc k' (JS.define_property props (k, v))
  = if (k =? k')%string then Some v else JS.assoc k' props.
Proof.
  unfold JS.define_property. destruct (JS.assoc k props) as [old|] eqn:Hold.
  - rewrite assoc_replace_value, Hold. reflexivity.
  - destruct (JS.array_index k); [now apply assoc_insert_index | now apply assoc_app_last].
Qed.

Lemma object_of_members_snoc (members : list (string * jsval)) (kv : string * jsval) :
  JS.object_of_members (members ++ [kv])
  = JS.define_property (JS.object_of_members members) kv.
Proof.
  unfold JS.object_of_members. now rewrite fold_left_app.
Qed.

(** ** The builder *)

Lemma map_index_Forall {A B : Type} (P : A -> Prop) (Q : B -> Prop) (f : A -> nat -> B)
  (xs : list A) :
  (forall x i, P x -> Q (f x i)) -> forall i, Forall P xs -> Forall Q (map_index f i xs).
Proof.
  intros Hf i H. revert i. induction H as [|x xs Hx _ IH]; intros i; cbn [map_index];
    constructor; [now apply Hf | apply IH].
Qed.

Lemma filter_index_Forall {A : Type} (P : A -> Prop) (p : A -> nat -> bool) (xs : list A) :
  forall i, Forall P xs -> Forall P (filter_index p i xs).
Proof.
  intros i H. revert i. induction H as [|x xs Hx _ IH]; intros i; cbn [filter_index];
    [constructor|]. destruct (p x i); [constructor; [exact Hx|] |]; apply IH.
Qed.

Lemma ordered_literal (props : list (string * jsval)) :
  JS.object_of_members props = props -> ordered props.
Proof.
  intros <-. apply object_of_members_is_ordered.
Qed.

Lemma newField_json (now : Z) : JS.json_value (FormBuilder.newField now).
Proof.
  apply json_object; [now apply ordered_literal | repeat constructor].
Qed.

Lemma updates_of_json (c : FormBuilder.change) : JS.json_value (FormBuilder.updates_of c).
Proof.
  destruct c; (apply json_object; [now apply ordered_literal|]); repeat constructor.
  cbn [snd]. apply JSON_facts.json_value_arr. apply Forall_forall. intros x Hx.
  apply in_map_iff in Hx. destruct Hx as (o & <- & _). exact I.
Qed.

Lemma apply_json (fields : list jsval) (e : FormBuilder.edit) :
  Forall JS.json_value fields -> Forall JS.json_value (FormBuilder.apply fields e).
Proof.
  intros H. destruct e as [now | index c | index]; cbn [FormBuilder.apply].
  - apply Forall_app. split; [exact H|]. constructor; [apply newField_json | constructor].
  - unfold FormBuilder.updateField. apply (map_index_Forall JS.json_value); [|exact H].
    intros x i Hx. destruct (i =? index)%nat; [|exact Hx].
    apply spread_json; [exact Hx | apply updates_of_json].
  - now apply filter_index_Forall.
Qed.

Lemma edits_json (es : list FormBuilder.edit) (fields : list jsval) :
  Forall JS.json_value fields -> Forall JS.json_value (FormBuilder.edits fields es).
Proof.
  unfold FormBuilder.edits. revert fields.
  induction es as [|e es IH]; intros fields H; [exact H|].
  cbn [fold_left]. apply IH. now apply apply_json.
Qed.

Lemma with_body_json (db : Database) (props : list (string * jsval))
  (route : jsval -> option (reply * Database)) :
  JS.json_value (JObj props) ->
  Z.of_nat (String.length (JS.stringify (JObj props))) <= body_limit ->
  with_body db (JObj props) route = route (JObj props).
Proof.
  intros H Hn. unfold with_body. apply Z.ltb_ge in Hn. rewrite Hn.
  now rewrite JSON_facts.parse_stringify.
Qed.

Lemma with_body_large (db : Database) (props : list (string * jsval))
  (route : jsval -> option (reply * Database)) :
  body_limit < Z.of_nat (String.length (JS.stringify (JObj props))) ->
  with_body db (JObj props) route = Some (error_middleware, db).
Proof.
  intros Hn. unfold with_body. apply Z.ltb_lt in Hn. now rewrite Hn.
Qed.

Lemma or_text (s : string) : JS.or (JStr s) (JStr "") = JStr s.
Proof.
  unfold JS.or. cbn [JS.truthy]. destruct (String.eqb_spec s ""); [now subst | reflexivity].
Qed.

Lemma truthy_text (s : string) : JS.truthy (JStr s) = true <-> s <> "".
Proof.
  cbn [JS.truthy]. rewrite negb_true_iff. apply String.eqb_neq.
Qed.

Lemma formData_json (t d : string) (fields : list jsval) :
  Forall JS.json_value fields ->
  JS.json_value (JObj [("title", JStr t); ("description", JStr d); ("fields", JArr fields)]).
Proof.
  intros H. apply json_object; [now apply ordered_literal|].
  repeat constructor. cbn [snd]. now apply JSON_facts.json_value_arr.
Qed.

Lemma createForm_stores (db : Database) (fx : Effects) (title description : jsval)
  (fields : list jsval) :
  JS.truthy title = true -> Forall JS.json_value fields -> fresh_form_id db (uuidv4 fx) ->
  exists body db',
    createForm db fx title description (JArr fields) = (Json 201 body, db')
    /\ getForm db' (uuidv4 fx)
       = Json 200 (JObj [("id", JStr (uuidv4 fx));
                         ("title", Sql.bind_text title);
                         ("description", Sql.bind_text (JS.or description (JStr "")));
                         ("fields", JArr fields);
                         ("created_at", JStr (CURRENT_TIMESTAMP fx));
                         ("createdAt", JStr (CURRENT_TIMESTAMP fx))]).
Proof.
  intros Ht Hjs Hfresh. unfold createForm, invalid_form.
  rewrite Ht. cbn [JS.truthy JS.isArray negb orb].
  rewrite insert_form_fresh by exact Hfresh.
  eexists. eexists. split; [reflexivity|].
  unfold getForm, Sql.select_form. cbn [forms_rows].
  rewrite (find_app_fresh forms.id) by (exact Hfresh || reflexivity).
  unfold form_of_row, Sql.stored_form.
  cbn [forms.fields forms.id forms.title forms.description forms.created_at].
  rewrite JSON_facts.parse_stringify by now apply JSON_facts.json_value_arr.
  reflexivity.
Qed.

Lemma updateForm_stores (db : Database) (id : string) (title description : jsval)
  (fields : list jsval) (old : forms.row) :
  JS.truthy title = true -> Forall JS.json_value fields ->
  Sql.select_form db id = Some old ->
  exists db',
    updateForm db id title description (JArr fields)
    = (Json 200 (JObj [("id", JStr id); ("title", title);
                       ("description", JS.or description (JStr ""));
                       ("fields", JArr fields)]), db')
    /\ getForm db' id
       = Json 200 (JObj [("id", JStr (forms.id old));
                         ("title", Sql.bind_text title);
                         ("description", Sql.bind_text (JS.or description (JStr "")));
                         ("fields", JArr fields);
                         ("created_at", JStr (forms.created_at old));
                         ("createdAt", JStr (forms.created_at old))]).
Proof.
  intros Ht Hjs Hold.
  assert (Hv : invalid_form title (JArr fields) = false).
  { unfold invalid_form. now rewrite Ht. }
  pose proof (updateForm_db db id title description (JArr fields) Hv) as Hdb.
  pose proof (update_form_changes db id title (JS.or description (JStr ""))
                (JS.stringify (JArr fields))) as Hch.
  rewrite Hold in Hch.
  exists (fst (Sql.update_form db id title (JS.or description (JStr ""))
                 (JS.stringify (JArr fields)))).
  split.
  - unfold updateForm in *. rewrite Hv in *.
    destruct (Sql.update_form _ _ _ _ _) as [db' n]. cbn [snd fst] in *. now rewrite Hch.
  - unfold getForm. rewrite (update_form_select_same _ _ _ _ _ old Hold).
    unfold form_of_row, updated_row.
    cbn [forms.fields forms.id forms.title forms.description forms.created_at].
    rewrite JSON_facts.parse_stringify by now apply JSON_facts.json_value_arr.
    reflexivity.
Qed.

(** X13.  What the builder saves, the server accepts.  When [handleSave]
    passes its two checks (a title that is not blank, at least one field) and
    the fields are JSON values, it sends the trimmed title and description
    and the fields as they are, and the request is never answered 400.
    Within the size [express.json()] accepts, a new form is created and
    reads back through [getForm] with exactly that title, description and
    fields; an edited form is replaced likewise, keeping its id and creation
    time, and the answer is 404 only when the form is gone.  Beyond that
    size the error middleware answers 500 and nothing is stored. *)
Theorem handleSave_is_accepted (db : Database) (fx : Effects)
  (title description : string) (fields : list jsval) :
  Forall JS.json_value fields -> Str.trim title <> "" -> fields <> [] ->
  FormBuilder.handleSave None title description fields
  = FormBuilder.Post (FormBuilder.formData title description fields)
  /\ (forall id,
         FormBuilder.handleSave (Some id) title description fields
         = FormBuilder.Put id (FormBuilder.formData title description fields))
  /\ (body_limit
      < Z.of_nat (String.length
                    (JS.stringify (FormBuilder.formData title description fields))) ->
      post_forms db fx (FormBuilder.formData title description fields)
      = Some (error_middleware, db)
      /\ forall id,
           put_forms db id (FormBuilder.formData title description fields)
           = Some (error_middleware, db))
  /\ (Z.of_nat (String.length
                   (JS.stringify (FormBuilder.formData title description fields)))
      <= body_limit ->
      post_forms db fx (FormBuilder.formData title description fields)
      = Some (createForm db fx (JStr (Str.trim title)) (JStr (Str.trim description))
                (JArr fields))
      /\ (fresh_form_id db (uuidv4 fx) ->
          exists body db',
            post_forms db fx (FormBuilder.formData title description fields)
            = Some (Json 201 body, db')
            /\ getForm db' (uuidv4 fx)
               = Json 200 (JObj [("id", JStr (uuidv4 fx));
                                 ("title", JStr (Str.trim title));
                                 ("description", JStr (Str.trim description));
                                 ("fields", JArr fields);
                                 ("created_at", JStr (CURRENT_TIMESTAMP fx));
                                 ("createdAt", JStr (CURRENT_TIMESTAMP fx))]))
      /\ forall id,
           put_forms db id (FormBuilder.formData title description fields)
           = Some (updateForm db id (JStr (Str.trim title)) (JStr (Str.trim description))
                     (JArr fields))
           /\ (Sql.select_form db id = None ->
               exists db',
                 put_forms db id (FormBuilder.formData title description fields)
                 = Some (Json 404 (error "Form not found"), db'))
           /\ (forall old, Sql.select_form db id = Some old ->
               exists body db',
                 put_forms db id (FormBuilder.formData title description fields)
                 = Some (Json 200 body, db')
                 /\ getForm db' id
                    = Json 200 (JObj [("id", JStr id);
                                      ("title", JStr (Str.trim title));
                                      ("description", JStr (Str.trim description));
                                      ("fields", JArr fields);
                                      ("created_at", JStr (forms.created_at old));
                                      ("createdAt", JStr (forms.created_at old))]))).
Proof.
  intros Hjs Htitle Hfields.
  assert (Ht : JS.truthy (JStr (Str.trim title)) = true) by now apply truthy_text.
  assert (Hsave : forall form,
             FormBuilder.handleSave form title description fields
             = match form with
               | Some id => FormBuilder.Put id (FormBuilder.formData title description fields)
               | None => FormBuilder.Post (FormBuilder.formData title description fields)
               end).
  { intros form. unfold FormBuilder.handleSave. rewrite Ht. cbn [negb].
    destruct fields; [congruence | reflexivity]. }
  split; [apply (Hsave None)|]. split; [intros id; apply (Hsave (Some id))|].
  unfold post_forms, put_forms, FormBuilder.formData. split.
  - intros Hlarge. split; [|intros id]; now apply with_body_large.
  - intros Hsmall.
    pose proof (formData_json (Str.trim title) (Str.trim description) fields Hjs) as Hdata.
    rewrite !(with_body_json db _ _ Hdata Hsmall). cbn [JS.get JS.assoc String.eqb Ascii.eqb Bool.eqb].
    split; [reflexivity|]. split.
    + intros Hfresh.
      destruct (createForm_stores db fx (JStr (Str.trim title)) (JStr (Str.trim description))
                  fields Ht Hjs Hfresh) as (body & db' & Hc & Hg).
      exists body, db'. split; [now rewrite Hc|]. now rewrite or_text in Hg.
    + intros id. rewrite !(with_body_json db _ _ Hdata Hsmall).
      cbn [JS.get JS.assoc String.eqb Ascii.eqb Bool.eqb].
      split; [reflexivity|]. split.
      * intros Hnone. unfold updateForm, invalid_form. rewrite Ht.
        cbn [JS.truthy JS.isArray negb orb].
        pose proof (update_form_changes db id (JStr (Str.trim title))
                      (JS.or (JStr (Str.trim description)) (JStr ""))
                      (JS.stringify (JArr fields))) as Hch.
        rewrite Hnone in Hch.
        destruct (Sql.update_form _ _ _ _ _) as [db' n]. cbn [snd] in Hch. rewrite Hch.
        now exists db'.
      * intros old Hold.
        destruct (updateForm_stores db id (JStr (Str.trim title))
                    (JStr (Str.trim description)) fields old Ht Hjs Hold)
          as (db' & Hu & Hg).
        eexists. exists db'. split; [now rewrite Hu|].
        rewrite or_text in Hg. rewrite Hg.
        unfold Sql.select_form in Hold. apply find_some in Hold.
        destruct Hold as [_ Hid]. apply String.eqb_eq in Hid. now rewrite Hid.
Qed.

Lemma handleSave_is_accepted_witness :
  exists body db',
    post_forms Scenario.db0
      (Scenario.effects "form-1" "2024-05-01 10:00:00" "2024-05-01T10:00:00.250Z")
      (FormBuilder.formData "  Club " "" [FormBuilder.newField 1714557600000])
    = Some (Json 201 body, db').
Proof.
  destruct (handleSave_is_accepted Scenario.db0
              (Scenario.effects "form-1" "2024-05-01 10:00:00" "2024-05-01T10:00:00.250Z")
              "  Club " "" [FormBuilder.newField 1714557600000])
    as (_ & _ & _ & Hsmall).
  - constructor; [apply newField_json | constructor].
  - vm_compute. discriminate.
  - discriminate.
  - destruct Hsmall as (_ & Hfresh & _).
    + apply Z.leb_le. vm_compute. reflexivity.
    + destruct (Hfresh ltac:(constructor)) as (body & db' & H & _).
      exists body, db'. exact H.
Defined.

(** *** Blank titles *)

Lemma drop_first_ws (c : ascii) (r : string) :
  JS.is_ws c = true -> Str.drop_first Str.white_space (String c r) = Some r.
Proof.
  unfold JS.is_ws. intros H. rewrite <- (ascii_N_embedding c).
  repeat (apply orb_true_iff in H; destruct H as [H|H]);
    apply N.eqb_eq in H; rewrite H; reflexivity.
Qed.

Lemma drop_leading_blank (s : string) :
  forallb JS.is_ws (list_ascii_of_string s) = true ->
  forall n, (String.length s <= n)%nat -> Str.drop_leading Str.white_space n s = "".
Proof.
  induction s as [|c r IH]; intros Hs n Hn.
  - now destruct n.
  - cbn [list_ascii_of_string forallb] in Hs. apply andb_true_iff in Hs.
    destruct Hs as [Hc Hr]. cbn [String.length] in Hn. destruct n as [|n]; [lia|].
    cbn [Str.drop_leading]. rewrite (drop_first_ws c r Hc). apply IH; [exact Hr | lia].
Qed.

Lemma trim_blank (s : string) :
  forallb JS.is_ws (list_ascii_of_string s) = true -> Str.trim s = "".
Proof.
  intros H. unfold Str.trim, Str.trimStart.
  now rewrite (drop_leading_blank s H (String.length s) (Nat.le_refl _)).
Qed.

(** X14.  The builder is stricter than the server.  A title made of spaces,
    tabs and line breaks only is refused by [handleSave] with an alert, and
    so is an empty list of fields under a title that is not blank; nothing is
    sent.  The server would have created the form in both cases. *)
Theorem handleSave_is_stricter_than_createForm (db : Database) (fx : Effects)
  (form : option string) (title description : string) (fields : list jsval) :
  fresh_form_id db (uuidv4 fx) ->
  (title <> "" -> forallb JS.is_ws (list_ascii_of_string title) = true ->
   FormBuilder.handleSave form title description fields
   = FormBuilder.Alert "Please enter a form title"
   /\ exists body db',
        createForm db fx (JStr title) (JStr description) (JArr fields)
        = (Json 201 body, db'))
  /\ (Str.trim title <> "" ->
      FormBuilder.handleSave form title description []
      = FormBuilder.Alert "Please add at least one field"
      /\ exists body db',
           createForm db fx (JStr (Str.trim title)) (JStr description) (JArr [])
           = (Json 201 body, db')).
Proof.
  intros Hfresh.
  assert (Hcreate : forall t fs, t <> "" ->
            exists body db',
              createForm db fx (JStr t) (JStr description) (JArr fs) = (Json 201 body, db')).
  { intros t fs Ht. unfold createForm, invalid_form.
    rewrite (proj2 (truthy_text t) Ht). cbn [JS.truthy JS.isArray negb orb].
    rewrite insert_form_fresh by exact Hfresh. eauto. }
  split.
  - intros Hne Hblank. split; [|now apply Hcreate].
    unfold FormBuilder.handleSave. now rewrite (trim_blank title Hblank).
  - intros Hne. split; [|now apply Hcreate].
    unfold FormBuilder.handleSave. now rewrite (proj2 (truthy_text _) Hne).
Qed.

Lemma handleSave_is_stricter_than_createForm_witness :
  FormBuilder.handleSave None "   " "" [FormBuilder.newField 5]
  = FormBuilder.Alert "Please enter a form title"
  /\ FormBuilder.handleSave None "Club" "" []
     = FormBuilder.Alert "Please add at least one field".
Proof.
  split.
  - apply (proj1 (handleSave_is_stricter_than_createForm Scenario.db0
                    (Scenario.effects "form-1" "t" "t") None "   " ""
                    [FormBuilder.newField 5] ltac:(constructor)));
      [discriminate | reflexivity].
  - apply (proj2 (handleSave_is_stricter_than_createForm Scenario.db0
                    (Scenario.effects "form-1" "t" "t") None "Club" ""
                    [] ltac:(constructor))).
    vm_compute. discriminate.
Defined.

(** *** The ids of the fields *)

Lemma Number_toString_inj (a b : Z) : JS.Number_toString a = JS.Number_toString b -> a = b.
Proof.
  unfold JS.Number_toString. intros H. apply DecimalZ.to_int_inj.
  assert (Hn : forall n, NilZero.int_of_string (NilZero.string_of_int (Z.to_int n))
                         = Some (Z.to_int n)).
  { intros n. apply NilZero.isi; destruct n as [|p|p]; cbn; try discriminate;
      intros E; injection E as E; now apply (DecimalPos.Unsigned.to_uint_nonnil p). }
  pose proof (Hn a) as Ha. rewrite H, Hn in Ha. now injection Ha.
Qed.

Lemma built_spread (now : Z) (field : jsval) (c : FormBuilder.change) :
  built now field -> built now (Obj.spread field (FormBuilder.updates_of c)).
Proof.
  intros (props & -> & Ho & Hid).
  assert (H : forall k v, (k =? "id")%string = false ->
              built now (Obj.spread (JObj props) (JObj [(k, v)]))).
  { intros k v Hk. unfold Obj.spread. cbn [Obj.own].
    rewrite object_of_members_snoc, (object_of_members_ordered props Ho).
    eexists. split; [reflexivity|]. split; [now apply define_property_ordered|].
    now rewrite assoc_define_property, Hk. }
  destruct c; cbn [FormBuilder.updates_of]; now apply H.
Qed.

Lemma built_newField (now : Z) : built now (FormBuilder.newField now).
Proof.
  eexists. split; [reflexivity|]. split; [now apply ordered_literal | reflexivity].
Qed.

Lemma map_index_Forall2 {A B : Type} (R : A -> B -> Prop) (f : B -> nat -> B)
  (xs : list A) (ys : list B) :
  (forall x y i, R x y -> R x (f y i)) ->
  Forall2 R xs ys -> forall i, Forall2 R xs (map_index f i ys).
Proof.
  intros Hf H. induction H as [|x y xs ys Hxy _ IH]; intros i; cbn [map_index];
    constructor; [now apply Hf | apply IH].
Qed.

Lemma filter_index_Forall2 {A B : Type} (R : A -> B -> Prop) (q : nat -> bool)
  (xs : list A) (ys : list B) :
  Forall2 R xs ys ->
  forall i, Forall2 R (filter_index (fun _ j => q j) i xs) (filter_index (fun _ j => q j) i ys).
Proof.
  intros H. induction H as [|x y xs ys Hxy _ IH]; intros i; cbn [filter_index];
    [constructor|]. destruct (q i); [constructor; [exact Hxy|] |]; apply IH.
Qed.

Lemma filter_index_In {A : Type} (p : A -> nat -> bool) (xs : list A) (x : A) :
  forall i, In x (filter_index p i xs) -> In x xs.
Proof.
  induction xs as [|y xs IH]; intros i; cbn [filter_index]; [trivial|].
  destruct (p y i); cbn [In]; intros H; [destruct H as [H|H]|]; eauto.
Qed.

Lemma filter_index_NoDup {A : Type} (p : A -> nat -> bool) (xs : list A) :
  NoDup xs -> forall i, NoDup (filter_index p i xs).
Proof.
  induction 1 as [|x xs Hx _ IH]; intros i; cbn [filter_index]; [constructor|].
  destruct (p x i); [|apply IH]. constructor; [|apply IH].
  intros Hin. apply Hx. now apply filter_index_In in Hin.
Qed.

Lemma added_app (es es' : list FormBuilder.edit) :
  added (es ++ es') = (added es ++ added es')%list.
Proof.
  unfold added. apply flat_map_app.
Qed.

(** The fields of a new form are the fields added and not removed, each
    under the id it was given. *)
Lemma edits_built (es : list FormBuilder.edit) :
  NoDup (added es) ->
  exists nows, Forall2 built nows (FormBuilder.edits [] es)
               /\ NoDup nows /\ incl nows (added es).
Proof.
  induction es as [|e es IH] using rev_ind; intros Hnd.
  - exists []. repeat split; [constructor | constructor | intros x []].
  - rewrite added_app in Hnd. unfold FormBuilder.edits. rewrite fold_left_app.
    cbn [fold_left]. fold (FormBuilder.edits [] es).
    destruct (IH (NoDup_app_remove_r _ _ Hnd)) as (nows & Hb & Hn & Hincl).
    rewrite added_app.
    destruct e as [now | index c | index]; cbn [FormBuilder.apply].
    + exists (nows ++ [now])%list. split; [|split].
      * apply Forall2_app; [exact Hb|]. constructor; [apply built_newField | constructor].
      * apply NoDup_snoc; [exact Hn|]. intros Hin. apply Hincl in Hin.
        cbn [added flat_map app] in Hnd.
        apply NoDup_remove_2 in Hnd. apply Hnd. rewrite List.app_nil_r. exact Hin.
      * intros x Hx. apply in_app_or in Hx. apply in_or_app.
        destruct Hx as [Hx|Hx]; [left; now apply Hincl | right; exact Hx].
    + exists nows. split; [|split; [exact Hn|]].
      * apply map_index_Forall2; [|exact Hb]. intros n f i Hf.
        destruct (i =? index)%nat; [now apply built_spread | exact Hf].
      * intros x Hx. apply in_or_app. left. now apply Hincl.
    + exists (filter_index (fun _ i => negb (i =? index)%nat) 0 nows). split; [|split].
      * apply (filter_index_Forall2 built (fun i => negb (i =? index)%nat)). exact Hb.
      * now apply filter_index_NoDup.
      * intros x Hx. apply filter_index_In in Hx. apply in_or_app. left. now apply Hincl.
Qed.

Lemma built_ids (nows : list Z) (fields : list jsval) :
  Forall2 built nows fields ->
  field_ids fields
  = map (fun now => Some (JStr ("field_" ++ JS.Number_toString now))) nows.
Proof.
  unfold field_ids.
  induction 1 as [|n f nows fields (props & -> & _ & Hid) _ IH]; [reflexivity|].
  cbn [map JS.get]. now rewrite Hid, IH.
Qed.

(** X15.  The fields of a new form keep distinct ids as long as no two of
    them were added within the same millisecond: whatever is added, changed
    and removed, each field carries the id [field_] followed by the time it
    was added at, and the changes leave it alone.  Nothing else keeps the ids
    apart: two fields added at the same time carry the same id. *)
Theorem field_ids_stay_distinct (es : list FormBuilder.edit) :
  NoDup (added es) ->
  NoDup (field_ids (FormBuilder.edits [] es))
  /\ Forall (fun id => exists now,
                 In now (added es)
                 /\ id = Some (JStr ("field_" ++ JS.Number_toString now)))
       (field_ids (FormBuilder.edits [] es))
  /\ (forall now fields,
         ~ NoDup (field_ids (FormBuilder.addField now (FormBuilder.addField now fields)))).
Proof.
  intros Hnd. destruct (edits_built es Hnd) as (nows & Hb & Hn & Hincl).
  rewrite (built_ids _ _ Hb). split; [|split].
  - clear Hb Hincl. induction Hn as [|n nows Hnot _ IH]; cbn [map]; constructor; [|exact IH].
    intros Hin. apply in_map_iff in Hin. destruct Hin as (m & Hm & Hin).
    injection Hm as Hm. apply Number_toString_inj in Hm. now subst m.
  - apply Forall_forall. intros id Hin. apply in_map_iff in Hin.
    destruct Hin as (now & <- & Hin). exists now. split; [now apply Hincl | reflexivity].
  - intros now fields H. unfold FormBuilder.addField, field_ids in H.
    rewrite <- List.app_assoc, map_app in H. apply NoDup_app_remove_l in H.
    cbn [app map] in H. inversion H as [|? ? Hnot _]; subst. apply Hnot. now left.
Qed.

Lemma field_ids_stay_distinct_witness :
  NoDup (field_ids
           (FormBuilder.edits []
              [FormBuilder.Add 1714557600000;
               FormBuilder.Add 1714557600250;
               FormBuilder.Change 0 (FormBuilder.Label "Name");
               FormBuilder.Remove 1;
               FormBuilder.Add 1714557601000])).
Proof.
  apply field_ids_stay_distinct. cbn [added flat_map app].
  repeat constructor; cbn [In]; intros H; repeat (destruct H as [H|H]; [discriminate|]);
    exact H.
Defined.

(** *** The options box *)

Lemma split_one_line (a : string) : one_line a -> Str.split "010" a = [a].
Proof.
  unfold one_line. induction a as [|c a IH]; [reflexivity|].
  cbn [list_ascii_of_string In Str.split]. intros H.
  destruct (Ascii.eqb_spec c "010") as [E|_]; [exfalso; apply H; now left|].
  rewrite IH; [reflexivity | tauto].
Qed.

Lemma split_line (a b : string) :
  one_line a -> Str.split "010" (a ++ String "010" b) = a :: Str.split "010" b.
Proof.
  unfold one_line. induction a as [|c a IH]; [reflexivity|].
  cbn [list_ascii_of_string In append Str.split]. intros H.
  destruct (Ascii.eqb_spec c "010") as [E|_]; [exfalso; apply H; now left|].
  rewrite IH; [reflexivity | tauto].
Qed.

Lemma split_lines (o : string) (os : list string) :
  Forall one_line (o :: os) -> Str.split "010" (String.concat newline (o :: os)) = o :: os.
Proof.
  revert o. induction os as [|o' os IH]; intros o H; inversion H as [|? ? Ho Hos]; subst.
  - now apply split_one_line.
  - rewrite concat_cons by discriminate. unfold newline at 1. cbn [append].
    rewrite split_line by exact Ho. now rewrite IH.
Qed.

Lemma split_pieces (s : string) : Forall one_line (Str.split "010" s).
Proof.
  induction s as [|c s IH]; cbn [Str.split].
  - repeat constructor. intros [].
  - destruct (Ascii.eqb_spec c "010") as [E|E].
    + constructor; [intros [] | exact IH].
    + destruct (Str.split "010" s) as [|piece rest]; inversion IH; subst.
      * repeat constructor. cbn. intros [H|[]]. congruence.
      * constructor; [|assumption]. unfold one_line in *. cbn [list_ascii_of_string In].
        intros [H|H]; [congruence | contradiction].
Qed.

Lemma join_texts (sep : string) (os : list string) :
  JS.join sep (map JStr os) = String.concat sep os.
Proof.
  unfold JS.join. rewrite map_map. cbn [JS.ToString]. now rewrite map_id.
Qed.

(** X16.  The options box shows the options one per line and reads them back
    unchanged: for options none of which is blank or holds a line break,
    [options_of_value] of the text shown is the list itself, and for a field
    without options it is the empty list.  Whatever is typed in the box, the
    options read from it are such options: blank lines are dropped, and no
    option is trimmed. *)
Theorem options_box_round_trip (field : jsval) (os : list string) (typed : string) :
  (JS.get field "options" = Some (JArr (map JStr os)) ->
   Forall (fun o => one_line o /\ Str.trim o <> "") os ->
   exists value,
     FormBuilder.options_value field = Some value
     /\ FormBuilder.options_of_value value = os)
  /\ (JS.get field "options" = Some JUndefined ->
      exists value,
        FormBuilder.options_value field = Some value
        /\ FormBuilder.options_of_value value = [])
  /\ Forall (fun o => one_line o /\ Str.trim o <> "") (FormBuilder.options_of_value typed).
Proof.
  split; [|split].
  - intros Hget Hos. unfold FormBuilder.options_value. rewrite Hget.
    eexists. split; [reflexivity|]. rewrite join_texts.
    unfold FormBuilder.options_of_value.
    destruct os as [|o os]; [reflexivity|].
    rewrite split_lines by (eapply Forall_impl; [|exact Hos]; cbn beta; tauto).
    apply forallb_filter_id. apply forallb_forall. intros x Hx.
    rewrite Forall_forall in Hos. apply truthy_text. now apply Hos.
  - intros Hget. unfold FormBuilder.options_value. rewrite Hget.
    eexists. split; reflexivity.
  - unfold FormBuilder.options_of_value. apply Forall_forall. intros o Ho.
    apply filter_In in Ho. destruct Ho as [Hin Ht]. split.
    + pose proof (split_pieces typed) as H. rewrite Forall_forall in H. now apply H.
    + now apply truthy_text.
Qed.

Lemma options_box_round_trip_witness :
  exists value,
    FormBuilder.options_value
      (JObj [("id", JStr "field_5"); ("type", JStr "select");
             ("options", JArr (map JStr ["Beginner"; " Advanced user "]))])
    = Some value
    /\ FormBuilder.options_of_value value = ["Beginner"; " Advanced user "].
Proof.
  apply (proj1 (options_box_round_trip
                  (JObj [("id", JStr "field_5"); ("type", JStr "select");
                         ("options", JArr (map JStr ["Beginner"; " Advanced user "]))])
                  ["Beginner"; " Advanced user "] "")).
  - reflexivity.
  - repeat constructor; try (vm_compute; discriminate);
      cbn; intros H; repeat (destruct H as [H|H]; [discriminate|]); exact H.
Defined.

(** ** The viewer *)

Lemma member_handleFieldChange (formData : list (string * jsval)) (k k' : string)
  (v : jsval) :
  ordered formData ->
  Obj.member (FormViewer.handleFieldChange k v formData) k'
  = if (k =? k')%string then v else Obj.member formData k'.
Proof.
  intros Ho. unfold FormViewer.handleFieldChange, Obj.member.
  rewrite object_of_members_snoc, (object_of_members_ordered _ Ho), assoc_define_property.
  now destruct (k =? k')%string.
Qed.

Lemma handle_ordered (formData : list (string * jsval)) (e : FormViewer.event) :
  ordered (FormViewer.handle formData e).
Proof.
  destruct e; apply object_of_members_is_ordered.
Qed.

Lemma events_ordered (es : list FormViewer.event) (formData : list (string * jsval)) :
  ordered formData -> ordered (FormViewer.events formData es).
Proof.
  unfold FormViewer.events. revert formData.
  induction es as [|e es IH]; intros formData H; [exact H|].
  cbn [fold_left]. apply IH. apply handle_ordered.
Qed.

Lemma selectedValues_json (formData : list (string * jsval)) (k : string) :
  Forall (fun kv => JS.json_value (snd kv)) formData ->
  Forall JS.json_value (FormViewer.selectedValues formData k).
Proof.
  intros H. unfold FormViewer.selectedValues, Obj.member.
  destruct (JS.assoc k formData) as [v|] eqn:Hv.
  - assert (Hjs : JS.json_value v).
    { clear -H Hv. induction H as [|[k1 v1] r H1 _ IH]; [discriminate|].
      cbn [JS.assoc] in Hv. destruct (k1 =? k)%string; [|now apply IH].
      injection Hv as <-. exact H1. }
    unfold JS.or. destruct (JS.truthy v); [|constructor].
    destruct v; try constructor. now apply JSON_facts.json_value_arr.
  - destruct (existsb _ _); constructor.
Qed.

Lemma handle_json (formData : list (string * jsval)) (e : FormViewer.event) :
  Forall (fun kv => JS.json_value (snd kv)) formData ->
  Forall (fun kv => JS.json_value (snd kv)) (FormViewer.handle formData e).
Proof.
  intros H.
  assert (Hset : forall k v, JS.json_value v ->
                 Forall (fun kv => JS.json_value (snd kv))
                   (FormViewer.handleFieldChange k v formData)).
  { intros k v Hv. unfold FormViewer.handleFieldChange.
    apply fold_define_property_values; [|constructor].
    apply Forall_app. split; [exact H | now repeat constructor]. }
  destruct e as [k value | k option]; cbn [FormViewer.handle]; [now apply Hset|].
  unfold FormViewer.checkbox_onChange. apply Hset. apply JSON_facts.json_value_arr.
  pose proof (selectedValues_json formData k H) as Hsel.
  destruct (negb _).
  - apply Forall_app. split; [exact Hsel | now repeat constructor].
  - apply Forall_forall. intros x Hx. apply filter_In in Hx.
    rewrite Forall_forall in Hsel. now apply Hsel.
Qed.

(** What the viewer collects is an object of JSON values. *)
Lemma events_json (es : list FormViewer.event) :
  JS.json_value (JObj (FormViewer.events [] es)).
Proof.
  apply json_object; [apply events_ordered; constructor|].
  unfold FormViewer.events.
  assert (H : Forall (fun kv : string * jsval => JS.json_value (snd kv)) []) by constructor.
  revert H. generalize (@nil (string * jsval)).
  induction es as [|e es IH]; intros formData H; [exact H|].
  cbn [fold_left]. apply IH. now apply handle_json.
Qed.

Lemma map_throw_In {A B : Type} (f : A -> option B) (xs : list A) (ys : list B)
  (x : A) (y : B) :
  map_throw f xs = Some ys -> In x xs -> f x = Some y -> In y ys.
Proof.
  revert ys. induction xs as [|a xs IH]; intros ys H Hin Hx; [contradiction|].
  cbn [map_throw] in H. destruct (f a) as [b|] eqn:Ha; [|discriminate].
  destruct (map_throw f xs) as [bs|]; [|discriminate]. injection H as <-.
  destruct Hin as [->|Hin].
  - left. congruence.
  - right. now apply (IH bs).
Qed.

(** A response stored is a response listed. *)
Lemma submitResponse_listed (db : Database) (fx : Effects) (formId : string)
  (form : forms.row) (answers name email : jsval) :
  stored_json db ->
  JS.truthy answers = true -> JS.typeof_object answers = true -> JS.json_value answers ->
  Sql.select_form db formId = Some form -> fresh_response_id db (uuidv4 fx) ->
  exists body db' rs,
    submitResponse db fx formId answers name email = (Json 201 body, db')
    /\ listResponsesForForm db' formId = Json 200 (JArr rs)
    /\ In (JObj [("id", JStr (uuidv4 fx));
                 ("formId", JStr formId);
                 ("answers", answers);
                 ("submitterName", Sql.bind_text (JS.or name JNull));
                 ("submitterEmail", Sql.bind_text (JS.or email JNull));
                 ("submittedAt", JStr (CURRENT_TIMESTAMP fx))]) rs.
Proof.
  intros Hstored Ht Ho Hjs Hsel Hfresh.
  pose proof (submitResponse_keeps_stored_json db fx formId answers name email Hjs
                Hstored) as Hkept.
  unfold submitResponse in *. rewrite Ht, Ho, Hsel in *. cbn [negb orb] in *.
  rewrite (insert_response_fresh db _ form) in * by (exact Hfresh || exact Hsel).
  cbn [snd] in Hkept.
  set (row := Sql.stored_response
                {| responses.id := uuidv4 fx; responses.form_id := formId;
                   responses.answers := JS.stringify answers;
                   responses.submitter_name := JS.or name JNull;
                   responses.submitter_email := JS.or email JNull;
                   responses.submitted_at := CURRENT_TIMESTAMP fx |}) in *.
  set (db' := {| foreign_keys := foreign_keys db; forms_rows := forms_rows db;
                 responses_rows := (responses_rows db ++ [row])%list |}) in *.
  assert (Hin : In row (Sql.select_responses db' formId)).
  { unfold Sql.select_responses.
    apply (Permutation_in _ (Permutation_sym (order_by_desc_perm _ _))).
    apply filter_In. split.
    - cbn [db' responses_rows]. apply in_or_app. right. now left.
    - cbn [row Sql.stored_response responses.form_id]. apply String.eqb_refl. }
  destruct (response_rows_render db' (Sql.select_responses db' formId)) as [rs Hrs].
  - exact Hkept.
  - intros r Hr. unfold Sql.select_responses in Hr.
    apply (Permutation_in _ (order_by_desc_perm _ _)) in Hr.
    now apply filter_In in Hr.
  - eexists. exists db', rs. split; [reflexivity|].
    unfold listResponsesForForm. rewrite Hrs. split; [reflexivity|].
    apply (map_throw_In _ _ _ row _ Hrs Hin).
    unfold response_of_row. cbn [row Sql.stored_response responses.answers].
    now rewrite JSON_facts.parse_stringify by exact Hjs.
Qed.

Lemma stringify_defined (props : list (string * jsval)) :
  JS.stringify (JObj props) = JS.stringify (JObj (filter defined props)).
Proof.
  cbn [JS.stringify]. do 3 f_equal.
  induction props as [|[k v] r IH]; [reflexivity|].
  cbn [filter]. unfold defined at 1. cbn [snd].
  destruct v; rewrite IH; reflexivity.
Qed.

Lemma with_body_defined (db : Database) (props : list (string * jsval))
  (route : jsval -> option (reply * Database)) :
  JS.json_value (JObj (filter defined props)) ->
  Z.of_nat (String.length (JS.stringify (JObj props))) <= body_limit ->
  with_body db (JObj props) route = route (JObj (filter defined props)).
Proof.
  intros H Hn. unfold with_body. apply Z.ltb_ge in Hn. rewrite Hn.
  rewrite stringify_defined. now rewrite JSON_facts.parse_stringify.
Qed.

Lemma or_undefined (s : string) :
  JS.or (JS.or (JStr s) JUndefined) JNull = JS.or (JStr s) JNull.
Proof.
  unfold JS.or. now destruct (JS.truthy (JStr s)) eqn:E; [rewrite E|].
Qed.

(** A text, or [null] for none, is stored as it is. *)
Lemma bind_text_or_null (s : string) :
  Sql.bind_text (JS.or (JStr s) JNull) = JS.or (JStr s) JNull.
Proof.
  unfold JS.or. now destruct (JS.truthy (JStr s)).
Qed.

(** What the viewer submits reaches [submitResponse] with the answers as
    they are and the trimmed name and email, absent when blank. *)
Lemma post_responses_of_viewer (db : Database) (fx : Effects) (formId : string)
  (formData : list (string * jsval)) (name email : string) :
  JS.json_value (JObj formData) ->
  Z.of_nat
    (String.length
       (JS.stringify
          (JObj [("answers", JObj formData);
                 ("submitterName", JS.or (JStr (Str.trim name)) JUndefined);
                 ("submitterEmail", JS.or (JStr (Str.trim email)) JUndefined)])))
  <= body_limit ->
  post_responses db fx formId
    (JObj [("answers", JObj formData);
           ("submitterName", JS.or (JStr (Str.trim name)) JUndefined);
           ("submitterEmail", JS.or (JStr (Str.trim email)) JUndefined)])
  = Some (submitResponse db fx formId (JObj formData)
            (JS.or (JStr (Str.trim name)) JUndefined)
            (JS.or (JStr (Str.trim email)) JUndefined)).
Proof.
  intros Hjs Hn. unfold post_responses. rewrite with_body_defined.
  - unfold JS.or.
    destruct (JS.truthy (JStr (Str.trim name))), (JS.truthy (JStr (Str.trim email)));
      reflexivity.
  - apply json_object.
    + apply ordered_literal. unfold JS.or.
      destruct (JS.truthy (JStr (Str.trim name))), (JS.truthy (JStr (Str.trim email)));
        reflexivity.
    + unfold JS.or.
      destruct (JS.truthy (JStr (Str.trim name))), (JS.truthy (JStr (Str.trim email)));
        cbn [filter defined snd]; (constructor; [exact Hjs|]); repeat constructor.
  - exact Hn.
Qed.

(** X17.  What is entered in the viewer is what the server stores.  When
    [handleSubmit] sends the answers collected from any typing and clicking,
    the request is not refused: within the size [express.json()] accepts and
    for a stored form it is answered 201, and the listing of the form's
    responses then holds the response with exactly the answers collected, and
    with the trimmed name and email, [null] when left blank. *)
Theorem viewer_submission_is_stored (db : Database) (fx : Effects) (formId : string)
  (form : forms.row) (fields : list jsval) (es : list FormViewer.event)
  (name email : string) (data : jsval) :
  FormViewer.handleSubmit FormViewer.fill fields (FormViewer.events [] es) name email
  = Some (FormViewer.Submit data) ->
  Z.of_nat (String.length (JS.stringify data)) <= body_limit ->
  stored_json db -> Sql.select_form db formId = Some form ->
  fresh_response_id db (uuidv4 fx) ->
  exists body db' rs,
    post_responses db fx formId data = Some (Json 201 body, db')
    /\ listResponsesForForm db' formId = Json 200 (JArr rs)
    /\ In (JObj [("id", JStr (uuidv4 fx));
                 ("formId", JStr formId);
                 ("answers", JObj (FormViewer.events [] es));
                 ("submitterName", JS.or (JStr (Str.trim name)) JNull);
                 ("submitterEmail", JS.or (JStr (Str.trim email)) JNull);
                 ("submittedAt", JStr (CURRENT_TIMESTAMP fx))]) rs.
Proof.
  intros Hsubmit Hsize Hstored Hsel Hfresh.
  unfold FormViewer.handleSubmit in Hsubmit.
  destruct (filter_throw _ fields) as [missingRows|]; [|discriminate].
  destruct (map_throw _ missingRows) as [missingFields|]; [|discriminate].
  destruct (0 <? List.length missingFields)%nat; [discriminate|].
  injection Hsubmit as <-.
  rewrite post_responses_of_viewer by (apply events_json || exact Hsize).
  destruct (submitResponse_listed db fx formId form (JObj (FormViewer.events [] es))
              (JS.or (JStr (Str.trim name)) JUndefined)
              (JS.or (JStr (Str.trim email)) JUndefined) Hstored eq_refl eq_refl
              (events_json es) Hsel Hfresh) as (body & db' & rs & Hs & Hl & Hin).
  exists body, db', rs. split; [now rewrite Hs|]. split; [exact Hl|].
  now rewrite !or_undefined, !bind_text_or_null in Hin.
Qed.

Lemma viewer_submission_is_stored_witness :
  exists body db' rs,
    post_responses Scenario.db1
      (Scenario.effects "resp-1" "2024-05-01 10:00:05" "2024-05-01T10:00:05.120Z") "form-1"
      (JObj [("answers", JObj [("name", JStr "Alice"); ("tags", JArr [JStr "b"])]);
             ("submitterName", JStr "Alice"); ("submitterEmail", JUndefined)])
    = Some (Json 201 body, db')
    /\ listResponsesForForm db' "form-1" = Json 200 (JArr rs)
    /\ In (JObj [("id", JStr "resp-1");
                 ("formId", JStr "form-1");
                 ("answers", JObj [("name", JStr "Alice"); ("tags", JArr [JStr "b"])]);
                 ("submitterName", JStr "Alice");
                 ("submitterEmail", JNull);
                 ("submittedAt", JStr "2024-05-01 10:00:05")]) rs.
Proof.
  apply (viewer_submission_is_stored Scenario.db1
           (Scenario.effects "resp-1" "2024-05-01 10:00:05" "2024-05-01T10:00:05.120Z")
           "form-1"
           {| forms.id := "form-1"; forms.title := JStr "Club";
              forms.description := JStr "";
              forms.fields := JS.stringify Scenario.fields;
              forms.created_at := "2024-05-01 10:00:00" |}
           [JObj [("id", JStr "name"); ("label", JStr "Name"); ("required", JBool true)];
            JObj [("id", JStr "tags"); ("label", JStr "Tags"); ("required", JBool false)]]
           [FormViewer.Input "name" "Alice";
            FormViewer.Click "tags" "a"; FormViewer.Click "tags" "b";
            FormViewer.Click "tags" "a"]
           " Alice " "  ").
  - vm_compute. reflexivity.
  - apply Z.leb_le. vm_compute. reflexivity.
  - split; [|constructor]. repeat constructor. eexists. vm_compute. reflexivity.
  - reflexivity.
  - constructor.
Defined.

Lemma falsy_or_empty (answer : jsval) :
  negb (JS.truthy answer) || Obj.is_string answer "" = negb (JS.truthy answer).
Proof.
  destruct answer as [| |b|n|s| |]; cbn [JS.truthy Obj.is_string negb orb];
    try reflexivity; try apply orb_false_r.
  rewrite negb_involutive. apply orb_diag.
Qed.

Lemma missing_object (formData : list (string * jsval)) (props : list (string * jsval)) :
  exists b,
    FormViewer.missing formData (JObj props) = Some b
    /\ (b = false <-> answered formData (JObj props)).
Proof.
  unfold FormViewer.missing, answered. cbn [JS.get].
  set (required := match JS.assoc "required" props with Some v => v | None => JUndefined end).
  set (id := match JS.assoc "id" props with Some v => v | None => JUndefined end).
  destruct (JS.truthy required) eqn:Hr.
  - eexists. split; [reflexivity|]. rewrite falsy_or_empty, negb_false_iff. split.
    + intros H r i Er _ Ei. injection Er as <-. injection Ei as <-. exact H.
    + intros H. now apply (H required id).
  - exists false. split; [reflexivity|]. split; [|reflexivity].
    intros _ r i Er Ht. injection Er as <-. congruence.
Qed.

Lemma filter_throw_objects (formData : list (string * jsval)) (fields : list jsval) :
  Forall (fun field => exists props, field = JObj props) fields ->
  exists rows,
    filter_throw (FormViewer.missing formData) fields = Some rows
    /\ Forall (fun field => exists props, field = JObj props) rows
    /\ (rows = [] <-> Forall (answered formData) fields).
Proof.
  induction 1 as [|field fields (props & ->) _ (rows & Hrows & Hobj & Hiff)].
  - exists []. repeat split; constructor.
  - cbn [filter_throw]. destruct (missing_object formData props) as (b & -> & Hb).
    rewrite Hrows. eexists. split; [reflexivity|]. destruct b.
    + split; [constructor; eauto|]. split; [discriminate|].
      intros H. inversion H as [|? ? Ha _]; subst. apply Hb in Ha. discriminate.
    + split; [exact Hobj|]. rewrite Hiff. split.
      * intros H. constructor; [now apply Hb | exact H].
      * intros H. now inversion H.
Qed.

Lemma labels_of_objects (rows : list jsval) :
  Forall (fun field => exists props, field = JObj props) rows ->
  exists labels,
    map_throw (fun field => JS.get field "label") rows = Some labels
    /\ List.length labels = List.length rows.
Proof.
  induction 1 as [|field rows (props & ->) _ (labels & Hl & Hn)].
  - now exists [].
  - cbn [map_throw JS.get]. rewrite Hl. eexists. split; [reflexivity|].
    cbn [List.length]. now rewrite Hn.
Qed.

(** X18.  In fill mode [handleSubmit] sends the answers exactly when every
    required field has an answer that is truthy, and alerts otherwise; the
    further test against the empty text changes nothing.  It never throws on
    fields that are objects, and in preview mode it does nothing. *)
Theorem handleSubmit_checks_required (fields : list jsval)
  (formData : list (string * jsval)) (name email : string) :
  Forall (fun field => exists props, field = JObj props) fields ->
  FormViewer.handleSubmit FormViewer.preview fields formData name email
  = Some FormViewer.Nothing
  /\ ((exists data,
          FormViewer.handleSubmit FormViewer.fill fields formData name email
          = Some (FormViewer.Submit data))
      <-> Forall (answered formData) fields)
  /\ ((exists message,
          FormViewer.handleSubmit FormViewer.fill fields formData name email
          = Some (FormViewer.Alert message))
      <-> ~ Forall (answered formData) fields).
Proof.
  intros Hfields. split; [reflexivity|].
  destruct (filter_throw_objects formData fields Hfields) as (rows & Hrows & Hobj & Hiff).
  destruct (labels_of_objects rows Hobj) as (labels & Hlabels & Hn).
  unfold FormViewer.handleSubmit. rewrite Hrows, Hlabels, Hn.
  destruct rows as [|row rows]; cbn [List.length Nat.ltb Nat.leb].
  - assert (Hall : Forall (answered formData) fields) by now apply Hiff.
    split; split; intros H; eauto.
    + destruct H as [message H]. discriminate.
    + contradiction.
  - assert (Hnot : ~ Forall (answered formData) fields).
    { intros H. apply Hiff in H. discriminate. }
    split; split; intros H; eauto.
    + destruct H as [data H]. discriminate.
    + contradiction.
Qed.

Lemma handleSubmit_checks_required_witness :
  exists data,
    FormViewer.handleSubmit FormViewer.fill
      [JObj [("id", JStr "name"); ("label", JStr "Name"); ("required", JBool true)];
       JObj [("id", JStr "tags"); ("label", JStr "Tags"); ("required", JBool true)]]
      (FormViewer.events []
         [FormViewer.Input "name" "Alice";
          FormViewer.Click "tags" "a"; FormViewer.Click "tags" "a"])
      "" ""
    = Some (FormViewer.Submit data).
Proof.
  apply (proj1 (proj2 (handleSubmit_checks_required
                         [JObj [("id", JStr "name"); ("label", JStr "Name");
                                ("required", JBool true)];
                          JObj [("id", JStr "tags"); ("label", JStr "Tags");
                                ("required", JBool true)]]
                         (FormViewer.events []
                            [FormViewer.Input "name" "Alice";
                             FormViewer.Click "tags" "a"; FormViewer.Click "tags" "a"])
                         "" "" ltac:(repeat constructor; eauto)))).
  repeat constructor; intros required id Hr _ Hi; injection Hi as <-; reflexivity.
Defined.

(** *** Boxes *)

Lemma selectedValues_handleFieldChange (formData : list (string * jsval))
  (k k' : string) (v : jsval) :
  ordered formData ->
  FormViewer.selectedValues (FormViewer.handleFieldChange k v formData) k'
  = if (k =? k')%string
    then match JS.or v (JStr "") with JArr xs => xs | _ => [] end
    else FormViewer.selectedValues formData k'.
Proof.
  intros Ho. unfold FormViewer.selectedValues. rewrite member_handleFieldChange by exact Ho.
  now destruct (k =? k')%string.
Qed.

Lemma includes_filter (xs : list jsval) (o o' : string) :
  FormViewer.includes (filter (fun v => negb (Obj.is_string v o')) xs) o
  = FormViewer.includes xs o && negb (o' =? o)%string.
Proof.
  unfold FormViewer.includes. induction xs as [|x xs IH]; [reflexivity|].
  cbn [filter existsb]. destruct (Obj.is_string x o') eqn:E'; cbn [negb existsb].
  - rewrite IH. destruct x; try discriminate. cbn [Obj.is_string] in *.
    apply String.eqb_eq in E'. subst s.
    destruct (o' =? o)%string; cbn [negb orb]; [now rewrite !andb_false_r | reflexivity].
  - rewrite IH. destruct (Obj.is_string x o) eqn:E; cbn [orb]; [|reflexivity].
    destruct x; try discriminate. cbn [Obj.is_string] in *.
    apply String.eqb_eq in E. subst s. rewrite String.eqb_sym in E'. rewrite E'. reflexivity.
Qed.

Lemma includes_snoc (xs : list jsval) (o o' : string) :
  FormViewer.includes (xs ++ [JStr o'])%list o
  = FormViewer.includes xs o || (o' =? o)%string.
Proof.
  unfold FormViewer.includes. rewrite existsb_app. cbn [existsb Obj.is_string].
  now rewrite orb_false_r.
Qed.

Lemma handle_includes (formData : list (string * jsval)) (fieldId option : string)
  (e : FormViewer.event) :
  ordered formData -> types_in fieldId e = false ->
  FormViewer.includes (FormViewer.selectedValues (FormViewer.handle formData e) fieldId)
    option
  = xorb (FormViewer.includes (FormViewer.selectedValues formData fieldId) option)
      (clicks_on fieldId option e).
Proof.
  intros Ho Hty. destruct e as [k value | k o]; cbn [FormViewer.handle clicks_on types_in] in *.
  - rewrite selectedValues_handleFieldChange, Hty by exact Ho. now rewrite xorb_false_r.
  - unfold FormViewer.checkbox_onChange. rewrite selectedValues_handleFieldChange by exact Ho.
    destruct (String.eqb_spec k fieldId) as [->|Hk]; cbn [andb];
      [|now rewrite xorb_false_r].
    cbn [JS.or JS.truthy].
    set (selected := FormViewer.selectedValues formData fieldId).
    destruct (FormViewer.includes selected o) eqn:Hin; cbn [negb].
    + rewrite includes_filter.
      destruct (String.eqb_spec o option) as [->|Hne]; cbn [negb].
      * now rewrite Hin.
      * now rewrite andb_true_r, xorb_false_r.
    + rewrite includes_snoc.
      destruct (String.eqb_spec o option) as [->|Hne].
      * now rewrite Hin.
      * now rewrite orb_false_r, xorb_false_r.
Qed.

Lemma handle_keeps_array (formData : list (string * jsval)) (fieldId : string)
  (e : FormViewer.event) :
  ordered formData -> types_in fieldId e = false ->
  (exists xs, Obj.member formData fieldId = JArr xs)
  \/ (exists o, e = FormViewer.Click fieldId o) ->
  exists xs, Obj.member (FormViewer.handle formData e) fieldId = JArr xs.
Proof.
  intros Ho Hty H. destruct e as [k value | k o]; cbn [FormViewer.handle types_in] in *.
  - rewrite member_handleFieldChange, Hty by exact Ho.
    destruct H as [H|[o H]]; [exact H | discriminate].
  - unfold FormViewer.checkbox_onChange. rewrite member_handleFieldChange by exact Ho.
    destruct (String.eqb_spec k fieldId) as [->|Hk]; [eauto|].
    destruct H as [H|[o' H]]; [exact H | congruence].
Qed.

(** X19.  A box is ticked exactly when it was clicked an odd number of times:
    after any typing and clicking that does not type into the field itself,
    an option is among the selected values of the field if and only if it
    was before and its box was clicked an even number of times, or it was not
    and the number is odd.  Once a box of the field has been clicked the
    answer is an array, which is truthy even when nothing is ticked any
    more: the field then counts as answered. *)
Theorem checkbox_clicks_parity (fieldId option : string) (es : list FormViewer.event)
  (formData : list (string * jsval)) :
  ordered formData ->
  forallb (fun e => negb (types_in fieldId e)) es = true ->
  FormViewer.includes (FormViewer.selectedValues (FormViewer.events formData es) fieldId)
    option
  = xorb (FormViewer.includes (FormViewer.selectedValues formData fieldId) option)
      (Nat.odd (List.length (filter (clicks_on fieldId option) es)))
  /\ ((exists o, In (FormViewer.Click fieldId o) es) ->
      JS.truthy (Obj.member (FormViewer.events formData es) fieldId) = true).
Proof.
  intros Ho Hes. split.
  - revert formData Ho. unfold FormViewer.events.
    induction es as [|e es IH]; intros formData Ho.
    + cbn. now rewrite xorb_false_r.
    + cbn [forallb] in Hes. apply andb_true_iff in Hes. destruct Hes as [He Hes].
      apply negb_true_iff in He. cbn [fold_left filter].
      rewrite (IH Hes) by apply handle_ordered.
      rewrite (handle_includes formData fieldId option e Ho He).
      destruct (clicks_on fieldId option e); cbn [List.length].
      * rewrite Nat.odd_succ, <- Nat.negb_odd. 
        destruct (FormViewer.includes _ _), (Nat.odd _); reflexivity.
      * now rewrite xorb_false_r.
  - intros Hclick.
    assert (H : exists xs, Obj.member (FormViewer.events formData es) fieldId = JArr xs).
    { assert (Hor : (exists xs, Obj.member formData fieldId = JArr xs)
                    \/ (exists o, In (FormViewer.Click fieldId o) es)) by now right.
      clear Hclick. revert formData Ho Hor. unfold FormViewer.events.
      induction es as [|e es IH]; intros formData Ho Hor.
      - destruct Hor as [H|[o []]]. exact H.
      - cbn [forallb] in Hes. apply andb_true_iff in Hes. destruct Hes as [He Hes].
        apply negb_true_iff in He. cbn [fold_left].
        apply (IH Hes); [apply handle_ordered|].
        destruct Hor as [H|[o [H|H]]].
        + left. apply handle_keeps_array; [exact Ho | exact He | now left].
        + left. apply handle_keeps_array; [exact Ho | exact He | right; eauto].
        + right. eauto. }
    destruct H as [xs ->]. reflexivity.
Qed.

Lemma checkbox_clicks_parity_witness :
  FormViewer.includes
    (FormViewer.selectedValues
       (FormViewer.events []
          [FormViewer.Click "tags" "a"; FormViewer.Input "name" "Alice";
           FormViewer.Click "tags" "b"; FormViewer.Click "tags" "a"]) "tags") "a"
  = false.
Proof.
  apply (proj1 (checkbox_clicks_parity "tags" "a"
                  [FormViewer.Click "tags" "a"; FormViewer.Input "name" "Alice";
                   FormViewer.Click "tags" "b"; FormViewer.Click "tags" "a"] []
                  ltac:(constructor) eq_refl)).
Defined.

(** ** The application *)

Lemma step_keeps_form (s s' : App.state) (e : App.event) :
  App.of_forms e -> App.step s e = Some s' ->
  (match App.currentView s with
   | App.edit_form | App.view_form | App.fill_form =>
       exists form, App.selectedForm s = Some form /\ JS.truthy form = true
   | _ => App.selectedForm s = None
   end) ->
  match App.currentView s' with
  | App.edit_form | App.view_form | App.fill_form =>
      exists form, App.selectedForm s' = Some form /\ JS.truthy form = true
  | _ => App.selectedForm s' = None
  end.
Proof.
  intros He Hstep Hs.
  destruct e as [formId mode forms | view | | form | form | form | |];
    cbn [App.step App.of_forms] in *.
  - unfold App.url_effect in Hstep.
    destruct formId as [id|]; [|now injection Hstep as <-].
    destruct forms as [loaded|]; [|now injection Hstep as <-].
    destruct (JS.truthy (JStr id)); [|now injection Hstep as <-].
    destruct (find_throw _ loaded) as [[form|]|]; [| now injection Hstep as <- | discriminate].
    destruct (JS.truthy form) eqn:Hform; [|now injection Hstep as <-].
    injection Hstep as <-. cbn.
    destruct mode as [m|]; [destruct (m =? "fill")%string|]; eauto.
  - injection Hstep as <-. now destruct view.
  - now injection Hstep as <-.
  - injection Hstep as <-. destruct He as [props ->]. cbn. eauto.
  - injection Hstep as <-. destruct He as [props ->]. cbn. eauto.
  - injection Hstep as <-. destruct He as [props ->]. cbn. eauto.
  - now injection Hstep as <-.
  - now injection Hstep as <-.
Qed.

(** X20.  The application never shows an empty page.  Whatever the user
    does and whatever the URL says, a form is selected exactly in the three
    views that show one (editing, preview, filling), so [renderCurrentView]
    never falls into its [null] branches; the handlers that leave a form
    always clear the selection. *)
Theorem renderCurrentView_never_null (es : list App.event) (s : App.state)
  (formsLoading : bool) (formsError : option string) :
  Forall App.of_forms es -> App.run App.initial es = Some s ->
  App.renderCurrentView formsLoading formsError s <> App.null
  /\ (App.selectedForm s <> None
      <-> In (App.currentView s) [App.edit_form; App.view_form; App.fill_form]).
Proof.
  intros Hes Hrun.
  assert (Hinv : match App.currentView s with
                 | App.edit_form | App.view_form | App.fill_form =>
                     exists form, App.selectedForm s = Some form /\ JS.truthy form = true
                 | _ => App.selectedForm s = None
                 end).
  { assert (H0 : match App.currentView App.initial with
                 | App.edit_form | App.view_form | App.fill_form =>
                     exists form, App.selectedForm App.initial = Some form
                                  /\ JS.truthy form = true
                 | _ => App.selectedForm App.initial = None
                 end) by reflexivity.
    revert Hrun H0. generalize App.initial.
    induction Hes as [|e es He _ IH]; intros s0 Hrun H0; cbn [App.run] in Hrun.
    - now injection Hrun as <-.
    - destruct (App.step s0 e) as [s1|] eqn:Hstep; [|discriminate].
      apply (IH s1 Hrun). exact (step_keeps_form s0 s1 e He Hstep H0). }
  split.
  - unfold App.renderCurrentView.
    destruct (App.currentView s);
      try destruct Hinv as (form & -> & ->);
      destruct formsLoading; cbn [andb];
      try discriminate;
      destruct formsError as [message|]; try discriminate;
      try (destruct (JS.truthy (JStr message)); cbn [andb]; discriminate).
  - destruct (App.currentView s); try destruct Hinv as (form & -> & _);
      try rewrite Hinv; cbn [In]; split; intros H;
      try discriminate; try congruence; try tauto;
      repeat (destruct H as [H|H]; try discriminate); try contradiction.
Qed.

Lemma renderCurrentView_never_null_witness :
  App.renderCurrentView false None
    {| App.currentView := App.fill_form;
       App.selectedForm := Some (JObj [("id", JStr "form-1"); ("title", JStr "Club")]) |}
  <> App.null.
Proof.
  apply (proj1 (renderCurrentView_never_null
                  [App.ViewChange App.to_dashboard;
                   App.UrlEffect (Some "form-1") (Some "fill")
                     (Some [JObj [("id", JStr "form-0"); ("title", JStr "Old")];
                            JObj [("id", JStr "form-1"); ("title", JStr "Club")]]);
                   App.DeleteForm]
                  _ false None ltac:(repeat constructor) eq_refl)).
Defined.

(** ** The message of an error *)




(** ** The dashboard *)

Lemma map_throw_Forall2 {A B : Type} (f : A -> option B) (xs : list A) (ys : list B) :
  map_throw f xs = Some ys -> Forall2 (fun x y => f x = Some y) xs ys.
Proof.
  revert ys. induction xs as [|x xs IH]; intros ys H; cbn [map_throw] in H.
  - injection H as <-. constructor.
  - destruct (f x) as [y|] eqn:Hx; [|discriminate].
    destruct (map_throw f xs) as [ys'|]; [|discriminate]. injection H as <-.
    constructor; [exact Hx | now apply IH].
Qed.

Lemma filter_throw_counts {A B : Type} (R : A -> B -> Prop) (p : B -> option bool)
  (q : A -> bool) (xs : list A) (ys : list B) :
  Forall2 R xs ys -> (forall x y, R x y -> p y = Some (q x)) ->
  exists kept, filter_throw p ys = Some kept
               /\ List.length kept = List.length (filter q xs).
Proof.
  intros H Hp. induction H as [|x y xs ys Hxy _ (kept & Hk & Hn)].
  - now exists [].
  - cbn [filter_throw filter]. rewrite (Hp x y Hxy), Hk. eexists. split; [reflexivity|].
    destruct (q x); cbn [List.length]; now rewrite Hn.
Qed.

Lemma map_throw_values {A B C : Type} (R : A -> B -> Prop) (f : B -> option C)
  (g : A -> C) (xs : list A) (ys : list B) :
  Forall2 R xs ys -> (forall x y, R x y -> f y = Some (g x)) ->
  map_throw f ys = Some (map g xs).
Proof.
  intros H Hf. induction H as [|x y xs ys Hxy _ IH]; [reflexivity|].
  cbn [map_throw map]. now rewrite (Hf x y Hxy), IH.
Qed.

Lemma one_owner {B : Type} (owner : B -> string) (k : string) (bs : list B) :
  NoDup (map owner bs) -> In k (map owner bs) ->
  list_sum (map (fun b => if (k =? owner b)%string then 1%nat else 0%nat) bs) = 1%nat.
Proof.
  unfold list_sum. induction bs as [|b bs IH]; cbn [map fold_right]; [contradiction|].
  intros Hnd Hin. inversion Hnd as [|? ? Hb Hbs]; subst.
  destruct (String.eqb_spec k (owner b)) as [->|Hne].
  - f_equal. clear -Hb. induction bs as [|c bs IH]; [reflexivity|]. cbn [map fold_right].
    destruct (String.eqb_spec (owner b) (owner c)) as [E|_].
    + exfalso. apply Hb. left. now symmetry.
    + apply IH. intros H. apply Hb. now right.
  - apply IH; [exact Hbs|]. destruct Hin as [E|Hin]; [congruence | exact Hin].
Qed.

(** Rows shared out among owners with distinct names, each row to the owner
    it names: the shares add up to the rows. *)
Lemma shares_add_up {A B : Type} (key : A -> string) (owner : B -> string)
  (bs : list B) (xs : list A) :
  NoDup (map owner bs) -> Forall (fun x => In (key x) (map owner bs)) xs ->
  list_sum (map (fun b => List.length (filter (fun x => (key x =? owner b)%string) xs)) bs)
  = List.length xs.
Proof.
  intros Hnd. induction 1 as [|x xs Hx _ IH].
  - clear Hnd. unfold list_sum. induction bs as [|b bs IHb]; [reflexivity|].
    cbn [map fold_right filter List.length Nat.add]. exact IHb.
  - assert (Hsplit :
        list_sum (map (fun b => List.length
                                  (filter (fun y => (key y =? owner b)%string) (x :: xs))) bs)
        = (list_sum (map (fun b => if (key x =? owner b)%string then 1%nat else 0%nat) bs)
           + list_sum (map (fun b => List.length
                                       (filter (fun y => (key y =? owner b)%string) xs)) bs))%nat).
    { clear. unfold list_sum. induction bs as [|b bs IHb]; [reflexivity|].
      cbn [map fold_right]. rewrite IHb. cbn [filter].
      destruct (key x =? owner b)%string; cbn [List.length]; lia. }
    rewrite Hsplit, IH, (one_owner owner (key x) bs Hnd Hx). reflexivity.
Qed.

Lemma sum_of_counts (f : forms.row -> nat) (rows : list forms.row) :
  fold_right Z.add 0 (map (fun row => Z.of_nat (f row)) rows)
  = Z.of_nat (list_sum (map f rows)).
Proof.
  unfold list_sum. induction rows as [|row rows IH]; [reflexivity|]. cbn [map fold_right].
  rewrite IH. lia.
Qed.

Lemma max_bounds (counts : list Z) :
  Forall (fun c => 0 <= c) counts ->
  1 <= fold_right Z.max 1 counts
  /\ Forall (fun c => 0 <= c <= fold_right Z.max 1 counts) counts.
Proof.
  induction 1 as [|c counts Hc _ [IH1 IH2]]; cbn [fold_right]; [split; [lia | constructor]|].
  split; [lia|]. constructor; [lia|].
  eapply Forall_impl; [|exact IH2]. cbn beta. lia.
Qed.

Lemma joined_form_stored (db : Database) (rf : responses.row * jsval) :
  In rf (Sql.joined db) -> In (responses.form_id (fst rf)) (map forms.id (forms_rows db)).
Proof.
  unfold Sql.joined. intros H. apply in_flat_map in H. destruct H as (r & _ & H).
  apply in_map_iff in H. destruct H as (f & <- & Hf). apply filter_In in Hf.
  destruct Hf as [Hin Hid]. apply String.eqb_eq in Hid. cbn [fst]. rewrite <- Hid.
  now apply in_map.
Qed.

(** X22.  The bars of the dashboard add up.  With the forms and the
    responses the dashboard loads from [listForms] and [listAllResponses],
    the response counts of the forms add up to the number of responses
    listed, each response being counted for exactly one form; this is the
    total the statistics show when every stored response has its form.
    Every count lies between 0 and [maxResponses], which is at least 1: a bar
    is never wider than the whole and the division is never by zero. *)
Theorem Dashboard_counts_add_up (db : Database) (forms responses : list jsval) :
  primary_keys db ->
  listForms db = Json 200 (JArr forms) ->
  listAllResponses db = Json 200 (JArr responses) ->
  exists counts maxResponses,
    map_throw (Dashboard.responseCount (Some responses)) forms = Some counts
    /\ Dashboard.maxResponses (Some responses) forms = Some maxResponses
    /\ 1 <= maxResponses
    /\ Forall (fun c => 0 <= c <= maxResponses) counts
    /\ fold_right Z.add 0 counts = Z.of_nat (List.length responses)
    /\ (referential_integrity db ->
        fold_right Z.add 0 counts = Z.of_nat (List.length (responses_rows db))).
Proof.
  intros Hpk Hforms Hresponses.
  unfold listForms in Hforms. unfold listAllResponses in Hresponses.
  set (rows := Sql.order_by_desc forms.created_at (forms_rows db)) in *.
  set (joined := Sql.select_joined db) in *.
  destruct (map_throw form_of_row rows) as [fs|] eqn:Hfs; [|discriminate].
  injection Hforms as ->.
  destruct (map_throw joined_response_of_row joined) as [rs|] eqn:Hrs; [|discriminate].
  injection Hresponses as ->.
  apply map_throw_Forall2 in Hfs. pose proof (map_throw_length _ _ _ Hrs) as Hlen.
  apply map_throw_Forall2 in Hrs.
  set (count := fun row : forms.row =>
                  List.length (filter (fun rf : responses.row * jsval =>
                                         (responses.form_id (fst rf) =? forms.id row)%string)
                                 joined)).
  assert (Hcounts : map_throw (Dashboard.responseCount (Some responses)) forms
                    = Some (map (fun row => Z.of_nat (count row)) rows)).
  { apply (map_throw_values (fun row form => form_of_row row = Some form)); [exact Hfs|].
    intros row form Hrow. unfold form_of_row in Hrow.
    destruct (JS.parse (forms.fields row)) as [fields|]; [|discriminate].
    injection Hrow as <-. unfold Dashboard.responseCount.
    destruct (filter_throw_counts
                (fun rf r => joined_response_of_row rf = Some r)
                (fun r => match JS.get r "formId",
                                JS.get (JObj [("id", JStr (forms.id row));
                                              ("title", forms.title row);
                                              ("description", forms.description row);
                                              ("fields", fields);
                                              ("created_at", JStr (forms.created_at row));
                                              ("createdAt", JStr (forms.created_at row))])
                                  "id" with
                          | Some formId, Some id => Some (same formId id)
                          | _, _ => None
                          end)
                (fun rf => (responses.form_id (fst rf) =? forms.id row)%string)
                joined responses Hrs) as (kept & -> & Hkept).
    - intros [r title] obj Hobj. unfold joined_response_of_row in Hobj.
      destruct (JS.parse (responses.answers r)) as [answers|]; [|discriminate].
      injection Hobj as <-. reflexivity.
    - now rewrite Hkept. }
  assert (Hperm : Permutation rows (forms_rows db)) by apply order_by_desc_perm.
  assert (Hsum : list_sum (map count rows) = List.length joined).
  { apply (shares_add_up (fun rf : responses.row * jsval => responses.form_id (fst rf))
             forms.id rows joined).
    - apply (Permutation_NoDup (Permutation_map forms.id (Permutation_sym Hperm))). exact Hpk.
    - apply Forall_forall. intros rf Hin.
      apply (Permutation_in _ (Permutation_map forms.id (Permutation_sym Hperm))).
      apply joined_form_stored.
      apply (Permutation_in _ (order_by_desc_perm
                                 (fun rf : responses.row * jsval =>
                                    responses.submitted_at (fst rf)) (Sql.joined db))).
      exact Hin. }
  destruct (max_bounds (map (fun row => Z.of_nat (count row)) rows)) as [Hmax Hall].
  { apply Forall_forall. intros c Hc. apply in_map_iff in Hc. destruct Hc as (row & <- & _).
    lia. }
  eexists. eexists. split; [exact Hcounts|].
  unfold Dashboard.maxResponses. rewrite Hcounts. split; [reflexivity|].
  split; [exact Hmax|]. split; [exact Hall|].
  rewrite sum_of_counts, Hsum, Hlen. split; [reflexivity|].
  intros Hri. f_equal. unfold joined, Sql.select_joined.
  rewrite (Permutation_length
             (order_by_desc_perm (fun rf : responses.row * jsval =>
                                    responses.submitted_at (fst rf)) (Sql.joined db))).
  rewrite <- (joined_all_responses db Hpk Hri). now rewrite length_map.
Qed.

Lemma Dashboard_counts_add_up_witness :
  exists forms responses counts,
    listForms Scenario.db4 = Json 200 (JArr forms)
    /\ listAllResponses Scenario.db4 = Json 200 (JArr responses)
    /\ map_throw (Dashboard.responseCount (Some responses)) forms = Some counts
    /\ fold_right Z.add 0 counts = 3.
Proof.
  destruct (listForms Scenario.db4) as [status [| | | | |forms|]| |] eqn:Hforms;
    try (vm_compute in Hforms; discriminate).
  destruct (listAllResponses Scenario.db4) as [status' [| | | | |responses|]| |]
    eqn:Hresponses; try (vm_compute in Hresponses; discriminate).
  assert (Hs : status = 200) by (vm_compute in Hforms; now injection Hforms).
  assert (Hs' : status' = 200) by (vm_compute in Hresponses; now injection Hresponses).
  subst status status'.
  destruct (Dashboard_counts_add_up Scenario.db4 forms responses)
    as (counts & m & Hcounts & _ & _ & _ & _ & Htotal).
  - repeat constructor. intros [].
  - exact Hforms.
  - exact Hresponses.
  - exists forms, responses, counts. repeat split; try assumption.
    rewrite Htotal; [reflexivity|].
    repeat constructor;
      (exists {| forms.id := "form-1"; forms.title := JStr "Club";
                 forms.description := JStr "";
                 forms.fields := JS.stringify Scenario.fields;
                 forms.created_at := "2024-05-01 10:00:00" |};
       split; [now left | reflexivity]).
Defined.

(** * Part V. Deleting, seen from the listings *)

Lemma insert_desc_first {A : Type} (key : A -> string) (x : A) (l : list A) :
  Forall (fun y => (key y <=? key x)%string = true) l -> Sql.insert_desc key x l = x :: l.
Proof.
  destruct l as [|y l]; [reflexivity|]. intros H. inversion H as [|? ? Hy _]; subst.
  cbn [Sql.insert_desc]. now rewrite Hy.
Qed.

Lemma insert_desc_filter {A : Type} (key : A -> string) (p : A -> bool) (x : A)
  (l : list A) :
  descending key l ->
  filter p (Sql.insert_desc key x l)
  = if p x then Sql.insert_desc key x (filter p l) else filter p l.
Proof.
  unfold descending. induction l as [|y l IH]; intros Hs.
  - cbn. now destruct (p x).
  - apply StronglySorted_inv in Hs. destruct Hs as [Hs Hy].
    cbn [Sql.insert_desc]. destruct (key y <=? key x)%string eqn:E.
    + change (filter p (x :: y :: l))
        with (if p x then x :: filter p (y :: l) else filter p (y :: l)).
      destruct (p x); [|reflexivity].
      symmetry. apply insert_desc_first.
      assert (Hall : Forall (fun z => (key z <=? key x)%string = true) (y :: l)).
      { constructor; [exact E|]. eapply Forall_impl; [|exact Hy]. cbn beta.
        intros z Hz. now apply (leb_trans _ (key y)). }
      apply Forall_forall. intros z Hz. apply filter_In in Hz.
      rewrite Forall_forall in Hall. now apply Hall.
    + cbn [filter]. rewrite (IH Hs).
      destruct (p x), (p y); try reflexivity.
      cbn [Sql.insert_desc]. now rewrite E.
Qed.

(** Selecting rows and ordering them can be done in either order. *)
Lemma order_by_desc_filter {A : Type} (key : A -> string) (p : A -> bool) (l : list A) :
  Sql.order_by_desc key (filter p l) = filter p (Sql.order_by_desc key l).
Proof.
  induction l as [|x l IH]; [reflexivity|]. cbn [filter Sql.order_by_desc].
  rewrite insert_desc_filter by apply order_by_desc_descending.
  destruct (p x); [|exact IH]. cbn [Sql.order_by_desc]. now rewrite IH.
Qed.

Lemma map_throw_filter {A B : Type} (f : A -> option B) (p : A -> bool) (q : B -> bool)
  (xs : list A) (ys : list B) :
  (forall x y, f x = Some y -> q y = p x) ->
  map_throw f xs = Some ys -> map_throw f (filter p xs) = Some (filter q ys).
Proof.
  intros Hq. revert ys. induction xs as [|x xs IH]; intros ys H; cbn [map_throw] in H.
  - injection H as <-. reflexivity.
  - destruct (f x) as [y|] eqn:Hx; [|discriminate].
    destruct (map_throw f xs) as [ys'|]; [|discriminate]. injection H as <-.
    cbn [filter]. rewrite (Hq x y Hx). destruct (p x); [|now apply IH].
    cbn [map_throw]. now rewrite Hx, (IH ys' eq_refl).
Qed.

Lemma map_throw_firstn {A B : Type} (f : A -> option B) (n : nat) (xs : list A)
  (ys : list B) :
  map_throw f xs = Some ys -> map_throw f (firstn n xs) = Some (firstn n ys).
Proof.
  revert n ys. induction xs as [|x xs IH]; intros n ys H; cbn [map_throw] in H.
  - injection H as <-. now destruct n.
  - destruct (f x) as [y|] eqn:Hx; [|discriminate].
    destruct (map_throw f xs) as [ys'|]; [|discriminate]. injection H as <-.
    destruct n as [|n]; [reflexivity|]. cbn [firstn map_throw].
    now rewrite Hx, (IH n ys' eq_refl).
Qed.

Lemma filter_filter {A : Type} (p q : A -> bool) (l : list A) :
  filter p (filter q l) = filter (fun x => p x && q x) l.
Proof.
  induction l as [|x l IH]; [reflexivity|]. cbn [filter].
  destruct (q x); cbn [filter]; rewrite ?andb_true_r, ?andb_false_r;
    [destruct (p x); now rewrite IH | exact IH].
Qed.

Lemma filter_nothing {A : Type} (p : A -> bool) (l : list A) :
  (forall x, In x l -> p x = false) -> filter p l = [].
Proof.
  induction l as [|x l IH]; [reflexivity|]. intros H. cbn [filter].
  rewrite (H x (or_introl eq_refl)). apply IH. intros y Hy. apply H. now right.
Qed.

Lemma joined_after_delete (db : Database) (id : string) :
  foreign_keys db = false ->
  Sql.joined (snd (deleteForm db id))
  = filter (fun rf => negb (responses.form_id (fst rf) =? id)%string) (Sql.joined db).
Proof.
  intros Hfk. rewrite deleteForm_db. unfold Sql.joined.
  cbn [Sql.delete_form fst forms_rows responses_rows]. rewrite Hfk. cbn [andb].
  induction (responses_rows db) as [|r rows IH]; [reflexivity|].
  cbn [flat_map]. rewrite filter_app, IH. f_equal. rewrite filter_filter.
  destruct (String.eqb_spec (responses.form_id r) id) as [E|E].
  - rewrite filter_nothing.
    + cbn [map]. symmetry. apply filter_nothing.
      intros rf Hrf. apply in_map_iff in Hrf.
      destruct Hrf as (f & <- & _). cbn [fst]. rewrite E, String.eqb_refl. reflexivity.
    + intros f _. rewrite E. now destruct (forms.id f =? id)%string.
  - apply String.eqb_neq in E.
    rewrite (forallb_filter_id
               (fun rf : responses.row * jsval =>
                  negb (responses.form_id (fst rf) =? id)%string)).
    + f_equal. apply filter_ext_in. intros f _.
      destruct (String.eqb_spec (forms.id f) (responses.form_id r)) as [E'|_];
        [|reflexivity].
      rewrite E'. now rewrite E.
    + apply forallb_forall. intros rf Hrf. apply in_map_iff in Hrf.
      destruct Hrf as (f & <- & _). cbn [fst]. now rewrite E.
Qed.

(** X23.  What a deleted form leaves behind.  On the server's connection
    (no foreign-key enforcement) the responses of a deleted form stay in the
    table: they are still counted in [totalResponses] and still returned by
    [listResponsesForForm], and they are gone from [listAllResponses], which
    returns the responses it returned before without those of the deleted
    form, in the same order; they can no longer be exported. *)
Theorem deleteForm_hides_its_responses (toLocaleString : string -> string)
  (db : Database) (id : string) (responses : list jsval) :
  foreign_keys db = false ->
  listAllResponses db = Json 200 (JArr responses) ->
  listAllResponses (snd (deleteForm db id))
  = Json 200 (JArr (filter (fun r => negb (of_form id r)) responses))
  /\ listResponsesForForm (snd (deleteForm db id)) id = listResponsesForForm db id
  /\ exportResponsesAsCsv toLocaleString (snd (deleteForm db id)) id
     = Json 404 (error "Form not found")
  /\ exists stats,
       computeDashboardStats (snd (deleteForm db id)) = Json 200 stats
       /\ JS.get stats "totalResponses"
          = Some (JNum (Z.of_nat (List.length (responses_rows db)))).
Proof.
  intros Hfk Hall. unfold listAllResponses in Hall.
  destruct (map_throw joined_response_of_row (Sql.select_joined db)) as [rs|] eqn:Hrs;
    [|discriminate].
  injection Hall as ->.
  assert (Hjoined : Sql.select_joined (snd (deleteForm db id))
                    = filter (fun rf => negb (responses.form_id (fst rf) =? id)%string)
                        (Sql.select_joined db)).
  { unfold Sql.select_joined. rewrite (joined_after_delete db id Hfk).
    apply order_by_desc_filter. }
  assert (Hlisted : map_throw joined_response_of_row
                      (Sql.select_joined (snd (deleteForm db id)))
                    = Some (filter (fun r => negb (of_form id r)) responses)).
  { rewrite Hjoined. apply map_throw_filter; [|exact Hrs].
    intros [r title] obj Hobj. unfold joined_response_of_row in Hobj.
    destruct (JS.parse (responses.answers r)) as [answers|]; [|discriminate].
    injection Hobj as <-. reflexivity. }
  destruct (deleteForm_responses_kept db id Hfk) as [Hkept Hsame].
  split; [|split; [|split]].
  - unfold listAllResponses. now rewrite Hlisted.
  - exact Hsame.
  - unfold exportResponsesAsCsv. now rewrite select_form_deleted.
  - unfold computeDashboardStats. rewrite (map_throw_firstn _ 5 _ _ Hlisted), Hkept.
    eexists. split; reflexivity.
Qed.

Lemma deleteForm_hides_its_responses_witness :
  listAllResponses (snd (deleteForm Scenario.db4 "form-1")) = Json 200 (JArr [])
  /\ exists stats,
       computeDashboardStats (snd (deleteForm Scenario.db4 "form-1")) = Json 200 stats
       /\ JS.get stats "totalResponses" = Some (JNum 3).
Proof.
  destruct (listAllResponses Scenario.db4) as [status [| | | | |responses|]| |] eqn:Hl;
    try (vm_compute in Hl; discriminate).
  assert (Hs : status = 200) by (vm_compute in Hl; now injection Hl). subst status.
  destruct (deleteForm_hides_its_responses (fun t => t) Scenario.db4 "form-1" responses
              eq_refl Hl) as (Hlist & _ & _ & Hstats).
  split; [|exact Hstats].
  rewrite Hlist. vm_compute in Hl. injection Hl as <-. reflexivity.
Defined.

(** X24.  A deleted form leaves the listing: [listForms] after [deleteForm]
    returns the forms it returned before without the one deleted, in the
    same order. *)
Theorem deleteForm_then_listForms (db : Database) (id : string) (forms : list jsval) :
  listForms db = Json 200 (JArr forms) ->
  listForms (snd (deleteForm db id))
  = Json 200 (JArr (filter (fun f => negb (has_id id f)) forms))
  /\ (primary_keys db -> Sql.select_form db id <> None ->
      S (List.length (filter (fun f => negb (has_id id f)) forms)) = List.length forms).
Proof.
  intros Hlist. unfold listForms in Hlist.
  destruct (map_throw form_of_row (Sql.order_by_desc forms.created_at (forms_rows db)))
    as [fs|] eqn:Hfs; [|discriminate].
  injection Hlist as ->.
  assert (Hrows : forms_rows (snd (deleteForm db id))
                  = filter (fun f => negb (forms.id f =? id)%string) (forms_rows db)).
  { now rewrite deleteForm_db. }
  assert (Hlisted : map_throw form_of_row
                      (Sql.order_by_desc forms.created_at
                         (forms_rows (snd (deleteForm db id))))
                    = Some (filter (fun f => negb (has_id id f)) forms)).
  { rewrite Hrows, order_by_desc_filter. apply map_throw_filter; [|exact Hfs].
    intros row obj Hobj. unfold form_of_row in Hobj.
    destruct (JS.parse (forms.fields row)) as [fields|]; [|discriminate].
    injection Hobj as <-. reflexivity. }
  split.
  - unfold listForms. now rewrite Hlisted.
  - intros Hpk Hsome.
    rewrite (map_throw_length _ _ _ Hfs), (map_throw_length _ _ _ Hlisted).
    rewrite Hrows, !(Permutation_length (order_by_desc_perm _ _)).
    pose proof (filter_primary_key id (forms_rows db) Hpk) as Hone.
    fold (Sql.select_form db id) in Hone.
    destruct (Sql.select_form db id) as [form|]; [|congruence].
    assert (Hlen : List.length (filter (fun f => (forms.id f =? id)%string) (forms_rows db))
                   = 1%nat) by now rewrite Hone.
    clear -Hlen. induction (forms_rows db) as [|f rows IH]; [discriminate|].
    cbn [filter List.length] in *. destruct (forms.id f =? id)%string; cbn [negb List.length] in *.
    + f_equal. injection Hlen as Hlen. clear IH.
      induction rows as [|g rows IH]; [reflexivity|]. cbn [filter List.length] in *.
      destruct (forms.id g =? id)%string; [discriminate|]. cbn [negb List.length].
      f_equal. now apply IH.
    + f_equal. now apply IH.
Qed.

Lemma deleteForm_then_listForms_witness :
  listForms (snd (deleteForm Scenario.db4 "form-1")) = Json 200 (JArr []).
Proof.
  destruct (listForms Scenario.db4) as [status [| | | | |forms|]| |] eqn:Hl;
    try (vm_compute in Hl; discriminate).
  assert (Hs : status = 200) by (vm_compute in Hl; now injection Hl). subst status.
  rewrite (proj1 (deleteForm_then_listForms Scenario.db4 "form-1" forms Hl)).
  vm_compute in Hl. injection Hl as <-. reflexivity.
Defined.

(** X25.  The recent responses of the dashboard are the head of the list of
    all responses: whenever [listAllResponses] answers, so does
    [computeDashboardStats], and its [recentResponses] are the first five
    elements of that answer, in the same order; its [totalForms] and
    [totalResponses] are the numbers of stored rows. *)
Theorem recentResponses_head_of_listAllResponses (db : Database) (responses : list jsval) :
  listAllResponses db = Json 200 (JArr responses) ->
  exists stats,
    computeDashboardStats db = Json 200 stats
    /\ JS.get stats "recentResponses" = Some (JArr (firstn 5 responses))
    /\ JS.get stats "totalForms" = Some (JNum (Z.of_nat (List.length (forms_rows db))))
    /\ JS.get stats "totalResponses"
       = Some (JNum (Z.of_nat (List.length (responses_rows db)))).
Proof.
  unfold listAllResponses, computeDashboardStats. intros H.
  destruct (map_throw joined_response_of_row (Sql.select_joined db)) as [rs|] eqn:Hrs;
    [|discriminate].
  injection H as ->. rewrite (map_throw_firstn _ 5 _ _ Hrs).
  eexists. repeat split.
Qed.

Lemma recentResponses_head_of_listAllResponses_witness :
  exists stats responses,
    listAllResponses Scenario.db4 = Json 200 (JArr responses)
    /\ computeDashboardStats Scenario.db4 = Json 200 stats
    /\ JS.get stats "recentResponses" = Some (JArr (firstn 5 responses)).
Proof.
  destruct (listAllResponses Scenario.db4) as [status [| | | | |responses|]| |] eqn:Hl;
    try (vm_compute in Hl; discriminate).
  assert (Hs : status = 200) by (vm_compute in Hl; now injection Hl). subst status.
  destruct (recentResponses_head_of_listAllResponses Scenario.db4 responses Hl)
    as (stats & Hstats & Hrecent & _).
  exists stats, responses. repeat split; assumption.
Defined.

(** * Part VI. Runs and their replies *)

Lemma update_form_nothing (db : Database) (id : string) (t d : jsval) (fs : string) :
  Sql.select_form db id = None -> fst (Sql.update_form db id t d fs) = db.
Proof.
  intros H. pose proof (update_form_absent db id t d fs H) as Hforms.
  unfold Sql.update_form in *. cbn [fst forms_rows] in *. rewrite Hforms.
  now destruct db.
Qed.

(** X26.  A request that is refused changes nothing: whenever a write
    handler answers with an error status (400, 404 or 500), the database is
    what it was before the request. *)
Theorem refused_requests_change_nothing (db : Database) (req : request) :
  refused (fst (serve db req)) = true -> snd (serve db req) = db.
Proof.
  destruct req as [fx t d f | id t d f | id | fx formId a n e]; cbn [serve].
  - unfold createForm. destruct (invalid_form t f); [reflexivity|].
    destruct (Sql.insert_form db _); [discriminate | reflexivity].
  - intros H. destruct (invalid_form t f) eqn:Hv.
    + unfold updateForm. now rewrite Hv.
    + rewrite (updateForm_db db id t d f Hv). apply update_form_nothing.
      unfold updateForm in H. rewrite Hv in H.
      pose proof (update_form_changes db id t (JS.or d (JStr "")) (JS.stringify f)) as Hch.
      destruct (Sql.update_form _ _ _ _ _) as [db' k]. cbn [snd] in Hch.
      destruct (Sql.select_form db id); [|reflexivity].
      rewrite Hch in H. discriminate.
  - intros H. rewrite deleteForm_reply in H.
    destruct (Sql.select_form db id) eqn:Hsel; [discriminate|].
    unfold deleteForm. now rewrite (delete_form_absent db id Hsel).
  - unfold submitResponse. destruct (_ || _); [reflexivity|].
    destruct (Sql.select_form db formId); [|reflexivity].
    destruct (Sql.insert_response db _); [discriminate | reflexivity].
Qed.

Lemma refused_requests_change_nothing_witness :
  snd (serve Scenario.db4 (UpdateForm "form-9" (JStr "Members") JUndefined (JArr [])))
  = Scenario.db4.
Proof.
  apply (refused_requests_change_nothing Scenario.db4
           (UpdateForm "form-9" (JStr "Members") JUndefined (JArr []))).
  reflexivity.
Defined.

Lemma count_true {A : Type} (p : A -> bool) (x : A) (l : list A) :
  Z.of_nat (List.length (filter p (x :: l)))
  = (if p x then 1 else 0) + Z.of_nat (List.length (filter p l)).
Proof.
  cbn [filter]. destruct (p x); cbn [List.length]; lia.
Qed.

Lemma serve_counts (db : Database) (req : request) :
  foreign_keys db = false -> primary_keys db ->
  Z.of_nat (List.length (forms_rows (snd (serve db req))))
  = Z.of_nat (List.length (forms_rows db))
    + (if created (req, fst (serve db req)) then 1 else 0)
    - (if deleted (req, fst (serve db req)) then 1 else 0)
  /\ Z.of_nat (List.length (responses_rows (snd (serve db req))))
     = Z.of_nat (List.length (responses_rows db))
       + (if submitted (req, fst (serve db req)) then 1 else 0).
Proof.
  intros Hfk Hpk.
  destruct req as [fx t d f | id t d f | id | fx formId a n e];
    cbn [serve created deleted submitted fst snd].
  - unfold createForm, Sql.insert_form. destruct (invalid_form t f); [cbn; lia|].
    destruct (existsb _ _); cbn [fst snd status_is forms_rows responses_rows]; [cbn; lia|].
    rewrite length_app. cbn. lia.
  - rewrite updateForm_responses. split; [|lia].
    destruct (invalid_form t f) eqn:Hv.
    + unfold updateForm. rewrite Hv. cbn [snd]. lia.
    + rewrite (updateForm_db db id t d f Hv). unfold Sql.update_form.
      cbn [fst forms_rows]. rewrite length_map. lia.
  - rewrite deleteForm_reply. destruct (deleteForm_responses_kept db id Hfk) as [-> _].
    split; [|lia]. rewrite deleteForm_db. cbn [Sql.delete_form fst forms_rows].
    pose proof (filter_primary_key id (forms_rows db) Hpk) as Hone.
    fold (Sql.select_form db id) in Hone.
    assert (Hsplit : forall rows : list forms.row,
               Z.of_nat (List.length rows)
               = Z.of_nat (List.length (filter (fun f => negb (forms.id f =? id)%string) rows))
                 + Z.of_nat (List.length (filter (fun f => (forms.id f =? id)%string) rows))).
    { induction rows as [|f rows IH]; [reflexivity|]. cbn [filter].
      destruct (forms.id f =? id)%string; cbn [negb List.length]; lia. }
    rewrite (Hsplit (forms_rows db)), Hone.
    destruct (Sql.select_form db id); cbn; lia.
  - rewrite submitResponse_forms. split; [lia|].
    unfold submitResponse, Sql.insert_response. destruct (_ || _); [cbn; lia|].
    destruct (Sql.select_form db formId); [|cbn; lia].
    destruct (existsb _ _); [cbn; lia|]. rewrite Hfk. cbn [andb fst snd responses_rows].
    rewrite length_app. cbn. lia.
Qed.

(** X27.  The counts follow the replies.  On the server's connection, after
    any run of requests the number of stored forms is the number before,
    plus the requests answered 201 by [createForm], minus those answered 200
    by [deleteForm]; the number of stored responses is the number before plus
    the requests answered 201 by [submitResponse]: no reply reports a row
    that was not written, and deleting a form removes no response.  These two
    numbers are [totalForms] and [totalResponses] of the statistics. *)
Theorem counts_follow_the_replies (db : Database) (reqs : list request) :
  foreign_keys db = false -> primary_keys db ->
  Z.of_nat (List.length (forms_rows (serve_all db reqs)))
  = Z.of_nat (List.length (forms_rows db))
    + Z.of_nat (List.length (filter created (replies db reqs)))
    - Z.of_nat (List.length (filter deleted (replies db reqs)))
  /\ Z.of_nat (List.length (responses_rows (serve_all db reqs)))
     = Z.of_nat (List.length (responses_rows db))
       + Z.of_nat (List.length (filter submitted (replies db reqs))).
Proof.
  revert db. induction reqs as [|req reqs IH]; intros db Hfk Hpk.
  - cbn. lia.
  - cbn [serve_all replies]. rewrite !count_true.
    destruct (IH (snd (serve db req))) as [IHf IHr].
    + now rewrite serve_keeps_foreign_keys.
    + now apply serve_keeps_primary_keys.
    + destruct (serve_counts db req Hfk Hpk) as [Hf Hr]. rewrite IHf, IHr. lia.
Qed.

Lemma counts_follow_the_replies_witness :
  Z.of_nat (List.length
              (forms_rows
                 (serve_all Scenario.db0
                    [CreateForm (Scenario.effects "form-1" "t1" "t1") (JStr "Club")
                       JUndefined Scenario.fields;
                     CreateForm (Scenario.effects "form-1" "t2" "t2") (JStr "Again")
                       JUndefined Scenario.fields;
                     SubmitResponse (Scenario.effects "resp-1" "t3" "t3") "form-1"
                       Scenario.alice JUndefined JUndefined;
                     DeleteForm "form-1"; DeleteForm "form-1"])))
  = 0.
Proof.
  rewrite (proj1 (counts_follow_the_replies Scenario.db0
                    [CreateForm (Scenario.effects "form-1" "t1" "t1") (JStr "Club")
                       JUndefined Scenario.fields;
                     CreateForm (Scenario.effects "form-1" "t2" "t2") (JStr "Again")
                       JUndefined Scenario.fields;
                     SubmitResponse (Scenario.effects "resp-1" "t3" "t3") "form-1"
                       Scenario.alice JUndefined JUndefined;
                     DeleteForm "form-1"; DeleteForm "form-1"]
                    eq_refl ltac:(constructor))).
  reflexivity.
Defined.

(** * Part VII. The list of fields *)

Lemma filter_index_skip {A : Type} (index : nat) (l : list A) :
  forall i, (i <= index)%nat ->
  filter_index (fun _ j => negb (j =? index)%nat) i l
  = (firstn (index - i) l ++ skipn (S (index - i)) l)%list.
Proof.
  induction l as [|x l IH]; intros i Hi.
  - now destruct (index - i)%nat.
  - cbn [filter_index]. destruct (Nat.eqb_spec i index) as [->|Hne].
    + rewrite Nat.sub_diag. cbn [negb firstn skipn app]. clear IH Hi.
      assert (H : forall (m : list A) j, (index < j)%nat ->
                  filter_index (fun _ k => negb (k =? index)%nat) j m = m).
      { induction m as [|y m IHm]; intros j Hj; [reflexivity|]. cbn [filter_index].
        destruct (Nat.eqb_spec j index); [lia|]. cbn [negb]. now rewrite IHm by lia. }
      apply H. lia.
    + cbn [negb]. rewrite IH by lia.
      replace (index - i)%nat with (S (index - S i)) by lia. reflexivity.
Qed.

Lemma map_index_nth {A : Type} (f : A -> nat -> A) (l : list A) :
  forall i j, nth_error (map_index f i l) j
              = option_map (fun x => f x (i + j)%nat) (nth_error l j).
Proof.
  induction l as [|x l IH]; intros i j; [now destruct j|].
  cbn [map_index]. destruct j as [|j]; cbn [nth_error option_map].
  - now rewrite Nat.add_0_r.
  - rewrite IH. now rewrite Nat.add_succ_r.
Qed.

Lemma map_index_length {A B : Type} (f : A -> nat -> B) (l : list A) :
  forall i, List.length (map_index f i l) = List.length l.
Proof.
  induction l as [|x l IH]; intros i; [reflexivity|]. cbn [map_index List.length].
  now rewrite IH.
Qed.

(** X28.  Removing and changing a field touch that field only.
    [removeField] returns the fields before the index followed by those
    after it, and [updateField] returns as many fields as it was given, the
    one at the index spread with the updates and the others as they were;
    an index beyond the list changes nothing.  So removing the field just
    added gives back the list. *)
Theorem field_edits_are_local (index : nat) (updates : jsval) (now : Z)
  (fields : list jsval) :
  FormBuilder.removeField index fields
  = (firstn index fields ++ skipn (S index) fields)%list
  /\ List.length (FormBuilder.updateField index updates fields) = List.length fields
  /\ (forall j,
         nth_error (FormBuilder.updateField index updates fields) j
         = if (j =? index)%nat
           then option_map (fun field => Obj.spread field updates) (nth_error fields j)
           else nth_error fields j)
  /\ ((List.length fields <= index)%nat ->
      FormBuilder.removeField index fields = fields
      /\ FormBuilder.updateField index updates fields = fields)
  /\ FormBuilder.removeField (List.length fields) (FormBuilder.addField now fields) = fields.
Proof.
  assert (Hremove : forall i l, FormBuilder.removeField i l
                                = (firstn i l ++ skipn (S i) l)%list).
  { intros i l. unfold FormBuilder.removeField.
    rewrite filter_index_skip by lia. now rewrite Nat.sub_0_r. }
  assert (Hnth : forall j,
             nth_error (FormBuilder.updateField index updates fields) j
             = if (j =? index)%nat
               then option_map (fun field => Obj.spread field updates) (nth_error fields j)
               else nth_error fields j).
  { intros j. unfold FormBuilder.updateField. rewrite map_index_nth. cbn [Nat.add].
    destruct (j =? index)%nat; [reflexivity|]. now destruct (nth_error fields j). }
  split; [apply Hremove|]. split; [apply map_index_length|]. split; [exact Hnth|].
  split.
  - intros Hout. split.
    + rewrite Hremove, firstn_all2, skipn_all2 by lia. apply List.app_nil_r.
    + apply nth_error_ext. intros j. rewrite Hnth.
      destruct (Nat.eqb_spec j index) as [->|_]; [|reflexivity].
      now rewrite (proj2 (nth_error_None fields index) Hout).
  - rewrite Hremove. unfold FormBuilder.addField.
    rewrite firstn_app, Nat.sub_diag, firstn_all. cbn [firstn].
    rewrite skipn_all2 by (rewrite length_app; cbn; lia).
    now rewrite !List.app_nil_r.
Qed.

Lemma field_edits_are_local_witness :
  FormBuilder.removeField 5 [FormBuilder.newField 1; FormBuilder.newField 2]
  = [FormBuilder.newField 1; FormBuilder.newField 2].
Proof.
  apply (proj1 (proj1 (proj2 (proj2 (proj2
           (field_edits_are_local 5 (JObj []) 0
              [FormBuilder.newField 1; FormBuilder.newField 2]))))
           ltac:(cbn; lia))).
Defined.
